(** * PyLoopKit: carbohydrate-absorption apportionment and dose-store queries

    A shallow embedding of [carb_math.py] ([map_], [linearly_absorbed_carbs],
    [linear_percent_absorption_at_time]), of [dose_store.py] and of the
    fixture loader [load_insulin_data], with the properties of the design
    document stated over it.

    Modelling conventions.
    - Python numbers are exact rationals [Q]: the arithmetic is the
      arithmetic of the code with the rounding of binary floating point left
      out.  Python's [==], [<], [<=] on numbers are the boolean tests
      [Qeq_bool], [Qltb], [Qle_bool].  What is stated over [Q] is what does
      not depend on rounding: which branch a comparison of computed values
      selects, which values a result is built from, orderings that rounding
      to nearest keeps, and which divisor a division fault comes from.
      Where rounding decides the answer, the function is also given on
      binary64 numbers (module [Binary64]) and evaluated there.
    - A [datetime] is a rational number of seconds on one time line;
      [timedelta(minutes=m)] is [60 * m] seconds, [timedelta(hours=h)] is
      [3600 * h] seconds.  The range of [datetime] is not modelled.
    - A Python exception is a value [Raise e] of the error monad [result];
      every subscript and every division is checked the way Python checks
      it. *)

From Stdlib Require Import QArith Qminmax Lia Lqa ZArith SpecFloat.
From stdpp Require Import base option list strings.

Local Open Scope Q_scope.

(** ** Exceptions and the error monad *)

Inductive exn : Type :=
| AssertionError
| IndexError
| ZeroDivisionError
| LookupError.

Inductive result (A : Type) : Type :=
| Ok (a : A)
| Raise (e : exn).

Arguments Ok {A} a.
Arguments Raise {A} e.

Definition bind {A B : Type} (m : result A) (k : A -> result B) : result B :=
  match m with
  | Ok a => k a
  | Raise e => Raise e
  end.

Notation "'let*' x ':=' m 'in' k" := (bind m (fun x => k))
  (at level 10, x pattern, m at level 100, k at level 200).

(** [assert cond, msg] *)
Definition py_assert (cond : bool) : result unit :=
  if cond then Ok tt else Raise AssertionError.

(** Left-to-right loops with an accumulator: [for x in xs: acc = f acc x]. *)
Fixpoint foldM {A B : Type} (f : A -> B -> result A) (acc : A) (xs : list B)
  : result A :=
  match xs with
  | [] => Ok acc
  | x :: xs' => let* acc' := f acc x in foldM f acc' xs'
  end.

(** List comprehension [[f x for x in xs]]. *)
Fixpoint mapM {A B : Type} (f : A -> result B) (xs : list A)
  : result (list B) :=
  match xs with
  | [] => Ok []
  | x :: xs' => let* y := f x in let* ys := mapM f xs' in Ok (y :: ys)
  end.

(** ** Python arithmetic on rationals *)

Definition Qltb (a b : Q) : bool := negb (Qle_bool b a).

(** [a / b]: raises [ZeroDivisionError] when [b == 0]. *)
Definition py_div (a b : Q) : result Q :=
  if Qeq_bool b 0 then Raise ZeroDivisionError else Ok (a / b).

(** [min(a, b)] returns its first argument unless the second is smaller. *)
Definition py_min (a b : Q) : Q := if Qltb b a then b else a.

(** [max(a, b)] returns its first argument unless the second is larger. *)
Definition py_max (a b : Q) : Q := if Qltb a b then b else a.

(** [xs[i]] for a signed index [i]. *)
Definition getitem {A : Type} (xs : list A) (i : Z) : result A :=
  let n := Z.of_nat (length xs) in
  let j := if (i <? 0)%Z then (n + i)%Z else i in
  if ((0 <=? j)%Z && (j <? n)%Z)%bool then
    match xs !! Z.to_nat j with
    | Some x => Ok x
    | None => Raise IndexError
    end
  else Raise IndexError.

(** [xs[i]] for an index produced by [range]. *)
Definition get {A : Type} (xs : list A) (i : nat) : result A :=
  getitem xs (Z.of_nat i).

(** ** The linear absorption model *)

Definition linear_percent_absorption_at_time (time absorption_time : Q)
  : result Q :=
  if Qle_bool time 0 then Ok 0
  else if Qltb time absorption_time then py_div time absorption_time
  else Ok 1.

Definition linearly_absorbed_carbs (total time absorption_time : Q)
  : result Q :=
  let* p := linear_percent_absorption_at_time time absorption_time in
  Ok (total * p).

(** ** The linear model on binary64 numbers

    [linear_percent_absorption_at_time] once more, on IEEE 754
    double-precision numbers, the numbers a Python [float] holds: the
    operations are those of [SpecFloat] at precision 53 and exponent bound
    1024, which round to nearest, ties to even. *)

Module Binary64.

Definition prec : Z := 53.
Definition emax : Z := 1024.

(** The float of the integer literal [z]. *)
Definition of_Z (z : Z) : spec_float := binary_normalize prec emax z 0 false.

(** The next float above [x]. *)
Definition next_up (x : spec_float) : spec_float := SFsucc prec emax x.

Definition is_zero (x : spec_float) : bool :=
  match x with
  | S754_zero _ => true
  | _ => false
  end.

(** [a / b]: raises [ZeroDivisionError] when [b] is zero. *)
Definition py_div (a b : spec_float) : result spec_float :=
  if is_zero b then Raise ZeroDivisionError else Ok (SFdiv prec emax a b).

Definition linear_percent_absorption_at_time
    (time absorption_time : spec_float) : result spec_float :=
  if SFleb time (of_Z 0) then Ok (of_Z 0)
  else if SFltb time absorption_time then py_div time absorption_time
  else Ok (of_Z 1).

End Binary64.

(** ** The carb-absorption engine, [carb_math.map_] *)

(** Modelled from the spec: [time_interval_since] of module [date], which is
    not among the sources; the design document gives it as the pure function
    [time_interval_since(a,b) -> seconds]. *)
Definition time_interval_since (a b : Q) : Q := a - b.

(** [timedelta(minutes=m)], in seconds. *)
Definition timedelta_minutes (m : Q) : Q := 60 * m.

(** [timedelta(hours=h)], in seconds. *)
Definition timedelta_hours (h : Q) : Q := 3600 * h.

(** [sys.float_info.epsilon], 2^-52. *)
Definition float_epsilon : Q := 1 # 4503599627370496.

(** [x or d] for an optional number [x]: [None] and [0] are falsy. *)
Definition py_or (x : option Q) (d : Q) : Q :=
  match x with
  | Some v => if Qeq_bool v 0 then d else v
  | None => d
  end.

(** The values [map_] derives once per call and never changes afterwards;
    the nested functions of [map_] close over them. *)
Record builders : Type := {
  carb_entry_starts : list Q;
  carb_entry_quantities : list Q;
  builder_carb_sensitivities : list Q;
  builder_max_absorb_times : list Q;
  builder_max_end_dates : list Q;
  last_effect_dates : list Q;
  entry_effects : list Q
}.

(** The accumulators the sweep mutates, one slot per carb entry. *)
Record observations : Type := {
  observed_effects : list Q;
  observed_completion_dates : list (option Q);
  observed_timeline_starts : list (list Q);
  observed_timeline_ends : list (list Q);
  observed_timeline_carb_values : list (list Q)
}.

(** One row of [absorption_results]; the fields are the seven positions of
    the list the code builds, named as the docstring of [map_] names them. *)
Record absorption : Type := {
  observed_grams_absorbed : Q;
  clamped_grams : Q;
  total_carbs : Q;
  remaining_carbs : Q;
  observed_start : Q;
  observed_end : Q;
  estimated_time_remaining : Q
}.

(** One row of [absorption_timelines]: starts, ends, values. *)
Definition timeline : Type := (list Q * list Q * list Q)%type.

(** One row of [carb_entries]. *)
Record entry_property : Type := {
  carb_sensitivity : Q;
  max_absorb_time : Q;
  max_end_date : Q;
  last_effect_date : Q;
  entry_effect_expected : Q
}.

Section Sweep.

Variable env : builders.

(** [add_next_effect(entry_index, effect, start, end)] *)
Definition add_next_effect (entry_index : nat) (effect start end_ : Q)
    (st : observations) : result observations :=
  let* entry_start := get (carb_entry_starts env) entry_index in
  if Qltb entry_start start then Ok st
  else
    let* observed := get (observed_effects st) entry_index in
    let observed' := observed + effect in
    let effects' := <[entry_index := observed']> (observed_effects st) in
    let* completion := get (observed_completion_dates st) entry_index in
    match completion with
    | Some _ =>
        Ok {| observed_effects := effects';
              observed_completion_dates := observed_completion_dates st;
              observed_timeline_starts := observed_timeline_starts st;
              observed_timeline_ends := observed_timeline_ends st;
              observed_timeline_carb_values :=
                observed_timeline_carb_values st |}
    | None =>
        let* starts := get (observed_timeline_starts st) entry_index in
        let* ends := get (observed_timeline_ends st) entry_index in
        let* values := get (observed_timeline_carb_values st) entry_index in
        let* sensitivity :=
          get (builder_carb_sensitivities env) entry_index in
        let* grams := py_div effect sensitivity in
        let* expected := get (entry_effects env) entry_index in
        Ok {| observed_effects := effects';
              observed_completion_dates :=
                if Qle_bool expected observed'
                then <[entry_index := Some end_]>
                       (observed_completion_dates st)
                else observed_completion_dates st;
              observed_timeline_starts :=
                <[entry_index := starts ++ [start]]>
                  (observed_timeline_starts st);
              observed_timeline_ends :=
                <[entry_index := ends ++ [end_]]>
                  (observed_timeline_ends st);
              observed_timeline_carb_values :=
                <[entry_index := values ++ [grams]]>
                  (observed_timeline_carb_values st) |}
    end.

(** [builder_entry_indexes] *)
Definition builder_entry_indexes : list nat :=
  seq 0 (length (carb_entry_starts env)).

(** The entries whose window contains the start of the sample. *)
Definition select_active (effect_start : Q) (active : list nat) (j : nat)
  : result (list nat) :=
  let* max_end := get (builder_max_end_dates env) j in
  if Qltb effect_start max_end then
    let* entry_start := get (carb_entry_starts env) j in
    if Qle_bool entry_start effect_start then Ok (active ++ [j])
    else Ok active
  else Ok active.

Definition active_builders (effect_start : Q) : result (list nat) :=
  foldM (select_active effect_start) [] builder_entry_indexes.

(** The maximum absorption rate of an entry, [quantity / max_absorb_time]. *)
Definition absorption_rate (index_ : nat) : result Q :=
  let* quantity := get (carb_entry_quantities env) index_ in
  let* max_time := get (builder_max_absorb_times env) index_ in
  py_div quantity max_time.

(** [reduce_func(previous, index_)] *)
Definition reduce_func (previous : Q) (index_ : nat) : result Q :=
  let* rate := absorption_rate index_ in
  Ok (previous + rate).

(** One turn of the loop that computes [total_rate]; the state is
    [(previous, total_rate)]. *)
Definition total_rate_step (acc : Q * Q) (i : nat) : result (Q * Q) :=
  let '(previous, total_rate) := acc in
  let* rate_increase := reduce_func previous i in
  Ok (rate_increase, total_rate + rate_increase).

Definition total_rate_of (active : list nat) : result Q :=
  let* acc := foldM total_rate_step (0, 0) active in
  Ok (snd acc).

(** The share of the sample offered to entry [b_index]:
    [rate / total_rate * effect_value if total_rate != 0 and
     effect_value != 0 else 0]. *)
Definition offered_share (b_index : nat) (total_rate effect_value : Q)
  : result Q :=
  if (negb (Qeq_bool total_rate 0) && negb (Qeq_bool effect_value 0))%bool
  then
    let* rate := absorption_rate b_index in
    let* fraction := py_div rate total_rate in
    Ok (fraction * effect_value)
  else Ok 0.

(** One turn of the loop over [active_builders]; the state is
    [(total_rate, effect_value)] and the observations. *)
Definition apportion (n_active : nat) (effect_start effect_end : Q)
    (acc : Q * Q * observations) (b_index : nat)
  : result (Q * Q * observations) :=
  let '(total_rate, effect_value, st) := acc in
  let* quantity := get (carb_entry_quantities env) b_index in
  let* sensitivity := get (builder_carb_sensitivities env) b_index in
  let entry_effect := quantity * sensitivity in
  let remaining_effect := py_max entry_effect 0 in
  let* share := offered_share b_index total_rate effect_value in
  let partial_effect_value := py_min remaining_effect share in
  let* rate := absorption_rate b_index in
  let total_rate' := total_rate - rate in
  let effect_value' := effect_value - partial_effect_value in
  let* st' :=
    add_next_effect b_index partial_effect_value effect_start effect_end st in
  if (Qltb float_epsilon effect_value'
      && (Z.of_nat b_index =? Z.of_nat n_active - 1)%Z)%bool
  then
    let* st'' :=
      add_next_effect b_index effect_value' effect_start effect_end st' in
    Ok (total_rate', effect_value', st'')
  else Ok (total_rate', effect_value', st').

Variables effect_starts effect_ends effect_values : list Q.

(** The body of the loop over the effect samples. *)
Definition sweep_sample (st : observations) (index : nat)
  : result observations :=
  let* effect_start := get effect_starts index in
  let* effect_end := get effect_ends index in
  if Qle_bool effect_end effect_start then Ok st
  else
    let* active := active_builders effect_start in
    let* value := get effect_values index in
    let effect_value := py_max 0 value in
    let* total_rate := total_rate_of active in
    let* acc :=
      foldM (apportion (length active) effect_start effect_end)
            (total_rate, effect_value, st) active in
    Ok (snd acc).

Definition sweep (st : observations) : result observations :=
  foldM sweep_sample st (seq 0 (length effect_starts)).

End Sweep.

(** The per-entry results [map_] computes after the sweep. *)
Section Results.

Variable env : builders.
Variable delay : Q.
Variable st : observations.

(** The block shared by [absorption_result] and [clamped_timeline]: the
    elapsed [time] in minutes and the linear-model floor at that time. *)
Definition min_predicted_grams (entry_grams : Q) (builder_index : nat)
  : result Q :=
  let* last := get (last_effect_dates env) builder_index in
  let* entry_start := get (carb_entry_starts env) builder_index in
  let time := time_interval_since last entry_start / 60 - delay in
  let* max_time := get (builder_max_absorb_times env) builder_index in
  linearly_absorbed_carbs entry_grams time max_time.

(** [observed_effects[i] / builder_carb_sensitivities[i]] *)
Definition observed_grams (builder_index : nat) : result Q :=
  let* observed := get (observed_effects st) builder_index in
  let* sensitivity := get (builder_carb_sensitivities env) builder_index in
  py_div observed sensitivity.

(** [(entry_grams - clamped_grams) / min_absorption_rate
     if min_absorption_rate > 0 else 0] *)
Definition time_remaining (entry_grams clamped min_absorption_rate : Q)
  : result Q :=
  if Qltb 0 min_absorption_rate
  then py_div (entry_grams - clamped) min_absorption_rate
  else Ok 0.

(** [absorption_result(builder_index)] *)
Definition absorption_result (builder_index : nat) : result absorption :=
  let* observed := observed_grams builder_index in
  let* entry_grams := get (carb_entry_quantities env) builder_index in
  let* min_predicted := min_predicted_grams entry_grams builder_index in
  let clamped := py_min entry_grams (py_max min_predicted observed) in
  let* min_absorption_rate := absorption_rate env builder_index in
  let* estimated := time_remaining entry_grams clamped min_absorption_rate in
  let* entry_start := get (carb_entry_starts env) builder_index in
  let* completion := get (observed_completion_dates st) builder_index in
  let* end_ :=
    match completion with
    | Some d => Ok d
    | None => get (last_effect_dates env) builder_index
    end in
  Ok {| observed_grams_absorbed := entry_grams;
        clamped_grams := clamped;
        total_carbs := entry_grams;
        remaining_carbs := entry_grams - clamped;
        observed_start := entry_start;
        observed_end := end_;
        estimated_time_remaining := estimated |}.

(** [clamped_timeline(builder_index)] *)
Definition clamped_timeline (builder_index : nat) : result (option timeline) :=
  let* entry_grams := get (carb_entry_quantities env) builder_index in
  let* min_predicted := min_predicted_grams entry_grams builder_index in
  let* observed := observed_grams builder_index in
  if Qle_bool min_predicted observed then
    let* starts := get (observed_timeline_starts st) builder_index in
    let* ends := get (observed_timeline_ends st) builder_index in
    let* values := get (observed_timeline_carb_values st) builder_index in
    Ok (Some (starts, ends, values))
  else Ok None.

(** [entry_properties(i)] *)
Definition entry_properties (i : nat) : result entry_property :=
  let* sensitivity := get (builder_carb_sensitivities env) i in
  let* max_time := get (builder_max_absorb_times env) i in
  let* max_end := get (builder_max_end_dates env) i in
  let* last := get (last_effect_dates env) i in
  let* expected := get (entry_effects env) i in
  Ok {| carb_sensitivity := sensitivity;
        max_absorb_time := max_time;
        max_end_date := max_end;
        last_effect_date := last;
        entry_effect_expected := expected |}.

(** The final loop of [map_], which fills the three output lists. *)
Definition collect_step
    (acc : list absorption * list (option timeline) * list entry_property)
    (i : nat)
  : result (list absorption * list (option timeline) * list entry_property) :=
  let '(absorptions, timelines, entries) := acc in
  let* a := absorption_result i in
  let* t := clamped_timeline i in
  let* e := entry_properties i in
  Ok (absorptions ++ [a], timelines ++ [t], entries ++ [e]).

Definition collect
  : result (list absorption * list (option timeline) * list entry_property) :=
  foldM collect_step ([], [], []) (builder_entry_indexes env).

End Results.

Definition is_empty {A : Type} (xs : list A) : bool :=
  match xs with
  | [] => true
  | _ :: _ => false
  end.

Section CarbMath.

(** [find_ratio_at_time] of module [insulin_math] is not among the sources:
    [map_] is stated for any schedule lookup that returns a number or
    raises. *)
Variable find_ratio_at_time : list Q -> list Q -> list Q -> Q -> result Q.

Section MapInputs.

Variables carb_entry_starts carb_entry_quantities : list Q.
Variable carb_entry_absorptions : list (option Q).
Variables effect_starts effect_ends effect_values : list Q.
Variables carb_ratio_starts carb_ratios : list Q.
Variables sensitivity_starts sensitivity_ends sensitivity_values : list Q.
Variables absorption_time_overrun default_absorption_time delay : Q.

(** The four shape assertions at the head of [map_]. *)
Definition check_shapes : result unit :=
  let* _ := py_assert
    ((length carb_entry_starts =? length carb_entry_quantities)%nat
     && (length carb_entry_quantities =? length carb_entry_absorptions)%nat)
  in
  let* _ := py_assert
    ((length effect_starts =? length effect_ends)%nat
     && (length effect_ends =? length effect_values)%nat) in
  let* _ := py_assert
    (length carb_ratio_starts =? length carb_ratios)%nat in
  py_assert
    ((length sensitivity_starts =? length sensitivity_ends)%nat
     && (length sensitivity_ends =? length sensitivity_values)%nat).

(** The derived per-entry values, in the order [map_] computes them. *)
Definition build : result builders :=
  let indexes := seq 0 (length carb_entry_starts) in
  let* sensitivities :=
    mapM (fun i =>
            let* t1 := get carb_entry_starts i in
            let* s := find_ratio_at_time
                        sensitivity_starts sensitivity_ends sensitivity_values
                        t1 in
            let* t2 := get carb_entry_starts i in
            let* r := find_ratio_at_time carb_ratio_starts [] carb_ratios t2 in
            py_div s r)
         indexes in
  let* max_times :=
    mapM (fun i =>
            let* a := get carb_entry_absorptions i in
            Ok (py_or a default_absorption_time * absorption_time_overrun))
         indexes in
  let* max_ends :=
    mapM (fun i =>
            let* t := get carb_entry_starts i in
            let* m := get max_times i in
            Ok (t + timedelta_minutes (m + delay)))
         indexes in
  let* lasts :=
    mapM (fun _ =>
            getitem effect_ends (Z.of_nat (length effect_ends) - 1))
         indexes in
  let* effects :=
    mapM (fun i =>
            let* q := get carb_entry_quantities i in
            let* s := get sensitivities i in
            Ok (q * s))
         indexes in
  let* _ := py_assert
    ((length indexes =? length sensitivities)%nat
     && (length sensitivities =? length max_times)%nat
     && (length max_times =? length max_ends)%nat
     && (length max_ends =? length lasts)%nat) in
  Ok (Build_builders carb_entry_starts carb_entry_quantities sensitivities
        max_times max_ends lasts effects).

(** The accumulators before the first sample. *)
Definition initial_observations : observations :=
  let indexes := seq 0 (length carb_entry_starts) in
  {| observed_effects := (fun _ => 0) <$> indexes;
     observed_completion_dates := (fun _ => None) <$> indexes;
     observed_timeline_starts := (fun _ => []) <$> indexes;
     observed_timeline_ends := (fun _ => []) <$> indexes;
     observed_timeline_carb_values := (fun _ => []) <$> indexes |}.

(** [map_] up to the end of the sweep: the derived values and the final
    accumulators. *)
Definition observe : result (builders * observations) :=
  let* env := build in
  let* st :=
    sweep env effect_starts effect_ends effect_values initial_observations in
  Ok (env, st).

Definition map_
  : result (list absorption * list (option timeline) * list entry_property) :=
  let* _ := check_shapes in
  if (is_empty carb_entry_starts || is_empty carb_ratios
      || is_empty sensitivity_starts)%bool
  then Ok ([], [], [])
  else
    let* (env, st) := observe in
    let* out := collect env delay st in
    let '(absorptions, timelines, entries) := out in
    let* _ := py_assert
      ((length absorptions =? length timelines)%nat
       && (length timelines =? length entries)%nat) in
    Ok (absorptions, timelines, entries).

End MapInputs.

End CarbMath.

(** Modelled from the spec: the schedule lookup [find_ratio_at_time] of
    module [insulin_math], which is not among the sources.  The design
    document gives it as [rateAt(starts, ends, values, t)]: the value of the
    entry whose interval contains [t], the interval being
    [[start_i, start_{i+1})] (the last one unbounded) when [ends] is empty
    and [[start_i, end_i)] otherwise; it fails when no entry covers [t]. *)
Fixpoint rateAt_open (starts values : list Q) (t : Q) : result Q :=
  match starts, values with
  | s :: starts', v :: values' =>
      if Qle_bool s t then
        match starts' with
        | [] => Ok v
        | s' :: _ => if Qltb t s' then Ok v else rateAt_open starts' values' t
        end
      else rateAt_open starts' values' t
  | _, _ => Raise LookupError
  end.

Fixpoint rateAt_closed (starts ends values : list Q) (t : Q) : result Q :=
  match starts, ends, values with
  | s :: starts', e :: ends', v :: values' =>
      if (Qle_bool s t && Qltb t e)%bool then Ok v
      else rateAt_closed starts' ends' values' t
  | _, _, _ => Raise LookupError
  end.

Definition rateAt (starts ends values : list Q) (t : Q) : result Q :=
  if is_empty ends then rateAt_open starts values t
  else rateAt_closed starts ends values t.

(** ** The query layer, [dose_store.get_glucose_effects] *)

(** Modelled from the spec: the membership test of [filter_date_range]
    (see below), [start_date <= t], and [t < end_date] when an end date is
    given. *)
Definition in_window (start_date : Q) (end_date : option Q) (t : Q) : bool :=
  (Qle_bool start_date t
   && match end_date with
      | Some e => Qltb t e
      | None => true
      end)%bool.

(** Modelled from the spec: [filter_date_range] of module [loop_math], which
    is not among the sources.  The design document says of the result of
    [computeGlucoseEffects] that it is filtered to [[windowStart, windowEnd)]
    before it is returned; the code comment at the call adds that the upper
    bound applies if there is an end date.  The list of end dates, empty at
    this call, is handed back as it is. *)
Definition filter_date_range (starts ends values : list Q) (start_date : Q)
    (end_date : option Q) : result (list Q * list Q * list Q) :=
  let kept :=
    List.filter (fun p => in_window start_date end_date (fst p))
                (combine starts values) in
  Ok (fst <$> kept, ends, snd <$> kept).

(** The first date of the dose-processing window: the requested start moved
    back by the duration of insulin action, which [insulin_model[0]] gives in
    hours for a one-parameter model and in minutes otherwise. *)
Definition dose_start_date (insulin_model : list Q) (start_date : Q)
  : result Q :=
  if (length insulin_model =? 1)%nat then
    let* dia := getitem insulin_model 0 in
    Ok (start_date - timedelta_hours dia)
  else
    let* dia := getitem insulin_model 0 in
    Ok (start_date - timedelta_minutes dia).

Section DoseStore.

(** The functions of [dose_math], [insulin_math] and [loop_math] that
    [get_glucose_effects] calls are not among the sources; the function is
    stated for any such functions that return or raise. *)
Variable dose_type : Type.

Let dose_lists : Type :=
  (list dose_type * list Q * list Q * list Q)%type.

Variable filter_date_range_for_doses :
  list dose_type -> list Q -> list Q -> list Q -> Q -> option Q ->
  result dose_lists.

Variable reconciled :
  list dose_type -> list Q -> list Q -> list Q -> result dose_lists.

(** [sort_dose_lists(...)[0:4]] *)
Variable sort_dose_lists :
  list dose_type -> list Q -> list Q -> list Q -> result dose_lists.

(** [annotated(..., convert_to_units_hr=False)] *)
Variable annotated :
  list dose_type -> list Q -> list Q -> list Q ->
  list Q -> list Q -> list Q -> bool ->
  result (list dose_type * list Q * list Q * list Q * list Q).

(** [trim(type, start, end, value, scheduled_rate, start_interval=...)] *)
Variable trim :
  dose_type -> Q -> Q -> Q -> Q -> Q ->
  result (dose_type * Q * Q * Q * Q).

Variable glucose_effects :
  list dose_type -> list Q -> list Q -> list Q -> list Q ->
  list Q -> list Q -> list Q -> list Q -> Q -> Q -> option Q ->
  result (list Q * list Q).

(** The loop that trims every dose to the start of the interval. *)
Definition trim_step (a_types : list dose_type)
    (a_values a_scheduled_rates : list Q) (dose_start : Q)
    (acc : list Q * list Q) (i : nat) : result (list Q * list Q) :=
  let '(a_starts, a_ends) := acc in
  let* ty := get a_types i in
  let* s := get a_starts i in
  let* e := get a_ends i in
  let* v := get a_values i in
  let* r := get a_scheduled_rates i in
  let* trimmed := trim ty s e v r dose_start in
  let '(_, s', e', _, _) := trimmed in
  Ok (<[i := s']> a_starts, <[i := e']> a_ends).

Definition get_glucose_effects
    (types : list dose_type) (starts ends values : list Q)
    (start_date : Q)
    (basal_starts basal_rates basal_minutes : list Q)
    (sensitivity_starts sensitivity_ends sensitivity_values : list Q)
    (insulin_model : list Q)
    (delay : Q) (end_date : option Q)
  : result (list Q * list Q) :=
  let* _ := py_assert
    ((length types =? length starts)%nat
     && (length starts =? length ends)%nat
     && (length ends =? length values)%nat) in
  let* dose_start := dose_start_date insulin_model start_date in
  let* filtered_doses :=
    filter_date_range_for_doses types starts ends values dose_start
                                end_date in
  let '(f_types, f_starts, f_ends, f_values) := filtered_doses in
  let* reconciled_doses := reconciled f_types f_starts f_ends f_values in
  let '(r_types, r_starts, r_ends, r_values) := reconciled_doses in
  let* sorted_reconciled_doses :=
    sort_dose_lists r_types r_starts r_ends r_values in
  let '(s_types, s_starts, s_ends, s_values) := sorted_reconciled_doses in
  let* annotated_doses :=
    annotated s_types s_starts s_ends s_values
              basal_starts basal_rates basal_minutes false in
  let '(a_types, a_starts, a_ends, a_values, a_scheduled_rates) :=
    annotated_doses in
  let* trimmed :=
    foldM (trim_step a_types a_values a_scheduled_rates dose_start)
          (a_starts, a_ends) (seq 0 (length a_types)) in
  let '(a_starts, a_ends) := trimmed in
  let* glucose_effect :=
    glucose_effects a_types a_starts a_ends a_values a_scheduled_rates
                    insulin_model
                    sensitivity_starts sensitivity_ends sensitivity_values
                    delay start_date end_date in
  let* filtered :=
    filter_date_range (fst glucose_effect) [] (snd glucose_effect)
                      start_date end_date in
  let '(filtered_starts, _, filtered_effect_values) := filtered in
  Ok (filtered_starts, filtered_effect_values).

End DoseStore.

(** ** The other queries of [dose_store] *)

Section DoseStoreQueries.

(** As for [get_glucose_effects], the functions of [dose_math],
    [insulin_math] and [loop_math] are parameters, and so are the type of
    doses and its member [DoseType.bolus], which module [dose] defines. *)
Context {dose_type : Type} `{EqDecision dose_type}.
Variable bolus : dose_type.

Variable filter_date_range_for_doses :
  list dose_type -> list Q -> list Q -> list Q -> Q -> option Q ->
  result (list dose_type * list Q * list Q * list Q).

Variable reconciled :
  list dose_type -> list Q -> list Q -> list Q ->
  result (list dose_type * list Q * list Q * list Q).

(** [sort_dose_lists(...)[0:4]] *)
Variable sort_dose_lists :
  list dose_type -> list Q -> list Q -> list Q ->
  result (list dose_type * list Q * list Q * list Q).

Variable annotated :
  list dose_type -> list Q -> list Q -> list Q ->
  list Q -> list Q -> list Q -> bool ->
  result (list dose_type * list Q * list Q * list Q * list Q).

(** [trim(type, start, end, value, scheduled_rate, start_interval=...,
    end_interval=...)] *)
Variable trim_between :
  dose_type -> Q -> Q -> Q -> Q -> Q -> option Q ->
  result (dose_type * Q * Q * Q * Q).

(** The timeline [insulin_on_board] answers with is handed back as it is;
    its type is left open. *)
Variable iob_timeline : Type.

Variable insulin_on_board :
  list dose_type -> list Q -> list Q -> list Q -> list Q ->
  list Q -> Q -> Q -> option Q -> result iob_timeline.

(** The scan of [get_last_bolus_time] over the zipped, reversed lists. *)
Fixpoint first_bolus (doses : list (dose_type * Q)) : option Q :=
  match doses with
  | [] => None
  | (ty, start_date) :: rest =>
      if decide (ty = bolus) then Some start_date else first_bolus rest
  end.

Definition get_last_bolus_time
    (types : list dose_type) (starts ends values : list Q) (now_time : Q)
  : result (option Q) :=
  let dose_start := now_time - timedelta_hours 24 in
  let* filtered_doses :=
    filter_date_range_for_doses types starts ends values dose_start None in
  let '(f_types, f_starts, f_ends, f_values) := filtered_doses in
  let* sorted_doses := sort_dose_lists f_types f_starts f_ends f_values in
  let '(s_types, s_starts, _, _) := sorted_doses in
  Ok (first_bolus (combine (rev s_types) (rev s_starts))).

(** The trimming loop of [get_insulin_on_board_values]. *)
Definition trim_between_step (a_types : list dose_type)
    (a_values a_scheduled_rates : list Q) (dose_start : Q)
    (basal_dosing_end : option Q)
    (acc : list Q * list Q) (i : nat) : result (list Q * list Q) :=
  let '(a_starts, a_ends) := acc in
  let* ty := get a_types i in
  let* s := get a_starts i in
  let* e := get a_ends i in
  let* v := get a_values i in
  let* r := get a_scheduled_rates i in
  let* trimmed := trim_between ty s e v r dose_start basal_dosing_end in
  let '(_, s', e', _, _) := trimmed in
  Ok (<[i := s']> a_starts, <[i := e']> a_ends).

Definition get_insulin_on_board_values
    (types : list dose_type) (starts ends values : list Q)
    (start_date : Q)
    (basal_starts basal_rates basal_minutes : list Q)
    (insulin_model : list Q)
    (end_date basal_dosing_end : option Q) (delay : Q)
  : result iob_timeline :=
  let* dose_start := dose_start_date insulin_model start_date in
  let* filtered_doses :=
    filter_date_range_for_doses types starts ends values dose_start
                                end_date in
  let '(f_types, f_starts, f_ends, f_values) := filtered_doses in
  let* reconciled_doses := reconciled f_types f_starts f_ends f_values in
  let '(r_types, r_starts, r_ends, r_values) := reconciled_doses in
  let* sorted_reconciled_doses :=
    sort_dose_lists r_types r_starts r_ends r_values in
  let '(s_types, s_starts, s_ends, s_values) := sorted_reconciled_doses in
  let* annotated_doses :=
    annotated s_types s_starts s_ends s_values
              basal_starts basal_rates basal_minutes false in
  let '(a_types, a_starts, a_ends, a_values, a_scheduled_rates) :=
    annotated_doses in
  let* trimmed :=
    foldM (trim_between_step a_types a_values a_scheduled_rates dose_start
                             basal_dosing_end)
          (a_starts, a_ends) (seq 0 (length a_types)) in
  let '(a_starts, a_ends) := trimmed in
  insulin_on_board a_types a_starts a_ends a_values a_scheduled_rates
                   insulin_model delay start_date end_date.

End DoseStoreQueries.

(** ** The fixture loader, [load_insulin_data] of the test module

    [load_fixture] reads a JSON file and [datetime.fromisoformat] parses
    its dates; the model starts from the loaded records, with their dates
    parsed.  A key that is absent or null is [None]. *)

Record dose_json : Type := {
  json_type : option string;
  json_start_at : Q;
  json_end_at : Q;
  json_amount : option Q;
  json_scheduled : option Q
}.

(** [dict_.get("type") or "!"]: a missing or empty type becomes the
    marker. *)
Definition type_or_marker (d : dose_json) : string :=
  match json_type d with
  | Some ty => if decide (ty = ""%string) then "!"%string else ty
  | None => "!"%string
  end.

(** [del xs[i]] *)
Definition py_del {A : Type} (xs : list A) (i : nat) : result (list A) :=
  if (i <? length xs)%nat then Ok (delete i xs) else Raise IndexError.

(** The five parallel lists the loader builds and returns. *)
Definition dose_columns : Type :=
  (list string * list Q * list Q * list (option Q) * list Q)%type.

(** The body of the loop that removes the entries without a type. *)
Definition remove_marked (cols : dose_columns) (i : nat)
  : result dose_columns :=
  let '(dose_types, start_dates, end_dates, values, scheduled) := cols in
  let* ty := get dose_types i in
  if decide (ty = "!"%string) then
    let* dose_types' := py_del dose_types i in
    let* start_dates' := py_del start_dates i in
    let* end_dates' := py_del end_dates i in
    let* values' := py_del values i in
    let* scheduled' := py_del scheduled i in
    Ok (dose_types', start_dates', end_dates', values', scheduled')
  else Ok cols.

Definition load_insulin_data (data : list dose_json) : result dose_columns :=
  let dose_types := type_or_marker <$> data in
  let start_dates := json_start_at <$> data in
  let end_dates := json_end_at <$> data in
  let values := json_amount <$> data in
  let scheduled_basal_rates :=
    (fun d => py_or (json_scheduled d) 0) <$> data in
  let* _ := py_assert
    ((length dose_types =? length start_dates)%nat
     && (length start_dates =? length end_dates)%nat
     && (length end_dates =? length values)%nat
     && (length values =? length scheduled_basal_rates)%nat) in
  let cols :=
    (dose_types, start_dates, end_dates, values, scheduled_basal_rates) in
  if bool_decide ("!"%string ∈ dose_types) then
    foldM remove_marked cols (seq 0 (length dose_types))
  else Ok cols.

(** ** Stand-ins for the absent collaborators

    Simple functions of the right shape, used to run [get_glucose_effects]
    on a concrete input: the dose lists pass through unchanged, every dose is
    annotated with a scheduled rate of 0, [trim] moves a start that lies
    before the window to the window start, and the effect model answers with
    three samples, five minutes before, at and five minutes after the
    requested start. *)
Module Sample.

Definition filter_date_range_for_doses (types : list unit)
    (starts ends values : list Q) (start_date : Q) (end_date : option Q)
  : result (list unit * list Q * list Q * list Q) :=
  Ok (types, starts, ends, values).

Definition reconciled (types : list unit) (starts ends values : list Q)
  : result (list unit * list Q * list Q * list Q) :=
  Ok (types, starts, ends, values).

Definition sort_dose_lists (types : list unit) (starts ends values : list Q)
  : result (list unit * list Q * list Q * list Q) :=
  Ok (types, starts, ends, values).

Definition annotated (types : list unit) (starts ends values : list Q)
    (basal_starts basal_rates basal_minutes : list Q) (convert : bool)
  : result (list unit * list Q * list Q * list Q * list Q) :=
  Ok (types, starts, ends, values, (fun _ => 0) <$> values).

Definition trim (ty : unit) (s e v r start_interval : Q)
  : result (unit * Q * Q * Q * Q) :=
  Ok (ty, py_max s start_interval, e, v, r).

Definition glucose_effects (types : list unit)
    (starts ends values rates insulin_model : list Q)
    (sensitivity_starts sensitivity_ends sensitivity_values : list Q)
    (delay start : Q) (end_ : option Q) : result (list Q * list Q) :=
  Ok ([start - 300; start; start + 300], [1; 2; 3]).

End Sample.

(** ** Divisors *)

(** No entry has a zero maximum absorption time or a zero carb
    sensitivity. *)
Definition divisors_nonzero (env : builders) : Prop :=
  Forall (fun m => ~ m == 0) (builder_max_absorb_times env) /\
  Forall (fun c => ~ c == 0) (builder_carb_sensitivities env).

(** ** Vocabulary for the properties of the sweep *)

(** The test of the loop that selects the active entries, on the values
    entry [j] has; an entry without values is not active. *)
Definition is_active (env : builders) (effect_start : Q) (j : nat) : bool :=
  match builder_max_end_dates env !! j, carb_entry_starts env !! j with
  | Some max_end, Some entry_start =>
      (Qltb effect_start max_end && Qle_bool entry_start effect_start)%bool
  | _, _ => false
  end.

(** What the accumulators hold for entry [j]. *)
Definition slot (st : observations) (j : nat)
  : option Q * option (option Q) * option (list Q) * option (list Q)
    * option (list Q) :=
  (observed_effects st !! j,
   observed_completion_dates st !! j,
   observed_timeline_starts st !! j,
   observed_timeline_ends st !! j,
   observed_timeline_carb_values st !! j).

(** The three lists of every recorded timeline have one length. *)
Definition timelines_aligned (st : observations) : Prop :=
  forall i s e v,
    observed_timeline_starts st !! i = Some s ->
    observed_timeline_ends st !! i = Some e ->
    observed_timeline_carb_values st !! i = Some v ->
    length s = length e /\ length e = length v.

(** The maximum absorption rate of entry [b] as a number: its quantity
    over its maximum absorption time, and 0 for an entry without values. *)
Definition rate_of (env : builders) (b : nat) : Q :=
  match carb_entry_quantities env !! b, builder_max_absorb_times env !! b with
  | Some q, Some m => q / m
  | _, _ => 0
  end.

(** The sum of the maximum absorption rates of the entries [l]. *)
Definition sum_rates (env : builders) (l : list nat) : Q :=
  fold_right (fun b acc => rate_of env b + acc) 0 l.

(** No entry has a negative quantity, and every maximum absorption time is
    positive. *)
Definition rates_nonnegative (env : builders) : Prop :=
  Forall (fun q => 0 <= q) (carb_entry_quantities env) /\
  Forall (fun m => 0 < m) (builder_max_absorb_times env).

(** The computation [m] does not end in [ZeroDivisionError]. *)
Definition no_zero_division {A : Type} (m : result A) : Prop :=
  m <> Raise ZeroDivisionError.

(** * Properties *)

(** ** Basic facts *)

Lemma Qltb_lt (a b : Q) : Qltb a b = true <-> a < b.
Proof.
  unfold Qltb. rewrite negb_true_iff.
  split.
  - intros H. apply Qnot_le_lt. intros Hle.
    apply Qle_bool_iff in Hle. congruence.
  - intros H. destruct (Qle_bool b a) eqn:E; [|reflexivity].
    apply Qle_bool_iff in E. lra.
Qed.

Lemma Qltb_ge (a b : Q) : Qltb a b = false <-> b <= a.
Proof.
  unfold Qltb. rewrite negb_false_iff. apply Qle_bool_iff.
Qed.

Lemma Qle_bool_gt (a b : Q) : Qle_bool a b = false <-> b < a.
Proof.
  rewrite <- Qltb_lt. unfold Qltb. rewrite negb_true_iff. reflexivity.
Qed.

Lemma Qeq_bool_false (a b : Q) : Qeq_bool a b = false <-> ~ a == b.
Proof.
  split.
  - intros H Heq. apply Qeq_bool_iff in Heq. congruence.
  - intros H. destruct (Qeq_bool a b) eqn:E; [|reflexivity].
    apply Qeq_bool_iff in E. contradiction.
Qed.

Lemma py_div_Ok (a b : Q) : ~ b == 0 -> py_div a b = Ok (a / b).
Proof.
  intros H. unfold py_div. apply Qeq_bool_false in H. now rewrite H.
Qed.

Lemma py_div_zero (a b : Q) : b == 0 -> py_div a b = Raise ZeroDivisionError.
Proof.
  intros H. unfold py_div. apply Qeq_bool_iff in H. now rewrite H.
Qed.

Lemma py_div_inversion (a b c : Q) :
  py_div a b = Ok c -> ~ b == 0 /\ c = a / b.
Proof.
  unfold py_div. destruct (Qeq_bool b 0) eqn:E; [discriminate|].
  intros [= <-]. split; [now apply Qeq_bool_false|reflexivity].
Qed.

Lemma py_min_spec (a b : Q) : py_min a b == Qmin a b.
Proof.
  unfold py_min. destruct (Qltb b a) eqn:E.
  - apply Qltb_lt in E. symmetry. apply Q.min_r. lra.
  - apply Qltb_ge in E. symmetry. apply Q.min_l. lra.
Qed.

Lemma py_max_spec (a b : Q) : py_max a b == Qmax a b.
Proof.
  unfold py_max. destruct (Qltb a b) eqn:E.
  - apply Qltb_lt in E. symmetry. apply Q.max_r. lra.
  - apply Qltb_ge in E. symmetry. apply Q.max_l. lra.
Qed.

Lemma linear_percent_before (t T : Q) :
  t <= 0 -> linear_percent_absorption_at_time t T = Ok 0.
Proof.
  intros H. unfold linear_percent_absorption_at_time.
  apply Qle_bool_iff in H. now rewrite H.
Qed.

Lemma linear_percent_after (t T : Q) :
  0 < T -> T <= t -> linear_percent_absorption_at_time t T = Ok 1.
Proof.
  intros HT H. unfold linear_percent_absorption_at_time.
  assert (E1 : Qle_bool t 0 = false) by (apply Qle_bool_gt; lra).
  assert (E2 : Qltb t T = false) by (apply Qltb_ge; lra).
  now rewrite E1, E2.
Qed.

Lemma linear_percent_ramp (t T : Q) :
  0 < t -> t < T -> linear_percent_absorption_at_time t T = Ok (t / T).
Proof.
  intros H0 HT. unfold linear_percent_absorption_at_time.
  assert (E1 : Qle_bool t 0 = false) by (apply Qle_bool_gt; lra).
  assert (E2 : Qltb t T = true) by (apply Qltb_lt; lra).
  rewrite E1, E2. apply py_div_Ok. lra.
Qed.

Lemma Qdiv_lt_mono (a b T : Q) : 0 < T -> a < b -> a / T < b / T.
Proof.
  intros HT Hab. unfold Qdiv.
  apply Qmult_lt_compat_r; [|exact Hab].
  now apply Qinv_lt_0_compat.
Qed.

Lemma Qdiv_le_mono (a b T : Q) : 0 < T -> a <= b -> a / T <= b / T.
Proof.
  intros HT Hab. unfold Qdiv.
  apply Qmult_le_compat_r; [exact Hab|].
  apply Qlt_le_weak. now apply Qinv_lt_0_compat.
Qed.

(** C8, as the code has it.  For a positive absorption time [T], the linear
    model is 0 at time 0 and at every earlier time, 1 at time [T] and at
    every later time, and strictly between the two it is the quotient the
    division [t / T] returns; there it never decreases as [t] grows. *)
Theorem linear_percent_absorption_shape (T : Q) (HT : 0 < T) :
  linear_percent_absorption_at_time 0 T = Ok 0 /\
  linear_percent_absorption_at_time T T = Ok 1 /\
  (forall t, t <= 0 -> linear_percent_absorption_at_time t T = Ok 0) /\
  (forall t, T <= t -> linear_percent_absorption_at_time t T = Ok 1) /\
  (forall t, 0 < t -> t < T ->
     linear_percent_absorption_at_time t T = py_div t T /\
     exists v, py_div t T = Ok v) /\
  (forall t1 t2, 0 < t1 -> t1 <= t2 -> t2 < T ->
     exists v1 v2,
       linear_percent_absorption_at_time t1 T = Ok v1 /\
       linear_percent_absorption_at_time t2 T = Ok v2 /\
       v1 <= v2).
Proof.
  split; [apply linear_percent_before; lra|].
  split; [apply linear_percent_after; lra|].
  split; [intros t Ht; now apply linear_percent_before|].
  split; [intros t Ht; now apply linear_percent_after|].
  split.
  - intros t H0 Ht. rewrite (linear_percent_ramp t T H0 Ht).
    rewrite py_div_Ok by lra. split; [reflexivity|now eexists].
  - intros t1 t2 H1 H12 H2.
    exists (t1 / T), (t2 / T).
    split; [apply linear_percent_ramp; lra|].
    split; [apply linear_percent_ramp; lra|].
    now apply Qdiv_le_mono.
Qed.

Lemma linear_percent_absorption_shape_witness :
  0 < 180 /\
  linear_percent_absorption_at_time 0 180 = Ok 0 /\
  linear_percent_absorption_at_time 180 180 = Ok 1 /\
  linear_percent_absorption_at_time 45 180 = py_div 45 180.
Proof.
  assert (H : 0 < 180) by reflexivity.
  destruct (linear_percent_absorption_shape 180 H) as (A & B & _ & _ & C & _).
  split; [exact H|].
  split; [exact A|].
  split; [exact B|].
  apply C; reflexivity.
Defined.

(** C8, as stated, fails on the numbers the code computes with: 100.0 and
    the next float above it are two times strictly between 0 and 180.0, and
    the division rounds both quotients to the same float, so the model is
    not strictly increasing there. *)
Lemma linear_percent_plateau_on_floats :
  let T := Binary64.of_Z 180 in
  let t1 := Binary64.of_Z 100 in
  let t2 := Binary64.next_up t1 in
  SFltb (Binary64.of_Z 0) t1 = true /\
  SFltb t1 t2 = true /\
  SFltb t2 T = true /\
  exists v,
    Binary64.linear_percent_absorption_at_time t1 T = Ok v /\
    Binary64.linear_percent_absorption_at_time t2 T = Ok v.
Proof.
  vm_compute. repeat (split; [reflexivity|]).
  eexists. split; reflexivity.
Qed.

(** ** The error monad and subscripts *)

Lemma bind_Ok {A B : Type} (m : result A) (k : A -> result B) (b : B) :
  bind m k = Ok b -> exists a, m = Ok a /\ k a = Ok b.
Proof.
  destruct m as [a|e]; simpl; intros H; [|discriminate].
  exists a. split; [reflexivity|exact H].
Qed.

(** Peel the leading binds of a hypothesis [H : ... = Ok _]. *)
Ltac inv_bind H :=
  let a := fresh "v" in
  let E := fresh "E" in
  apply bind_Ok in H; destruct H as (a & E & H).

Ltac inv_bind_as H a E :=
  apply bind_Ok in H; destruct H as (a & E & H).

Lemma get_lookup {A : Type} (xs : list A) (i : nat) (x : A) :
  get xs i = Ok x <-> xs !! i = Some x.
Proof.
  unfold get, getitem.
  assert (Hneg : (Z.of_nat i <? 0)%Z = false) by (apply Z.ltb_ge; lia).
  rewrite Hneg, Nat2Z.id.
  assert (Hpos : (0 <=? Z.of_nat i)%Z = true) by (apply Z.leb_le; lia).
  rewrite Hpos. simpl.
  destruct (Z.of_nat i <? Z.of_nat (length xs))%Z eqn:Hlt.
  - destruct (xs !! i) as [y|]; split; intros H; congruence.
  - apply Z.ltb_ge in Hlt. split; [discriminate|].
    intros H. apply lookup_lt_Some in H. lia.
Qed.

Lemma get_in_range {A : Type} (xs : list A) (i : nat) :
  (i < length xs)%nat -> exists x, get xs i = Ok x.
Proof.
  intros H. destruct (lookup_lt_is_Some_2 xs i H) as [x Hx].
  exists x. now apply get_lookup.
Qed.


Lemma getitem_empty {A : Type} (i : Z) :
  getitem (@nil A) i = Raise IndexError.
Proof.
  unfold getitem. rewrite lookup_nil.
  now destruct (_ && _)%bool.
Qed.

(** ** The guard of [add_next_effect] *)

Lemma add_next_effect_skips (env : builders) (i : nat) (effect s e : Q)
    (st : observations) (entry_start : Q) :
  carb_entry_starts env !! i = Some entry_start ->
  entry_start < s ->
  add_next_effect env i effect s e st = Ok st.
Proof.
  intros Hi Hlt. unfold add_next_effect.
  apply get_lookup in Hi. rewrite Hi. simpl.
  apply Qltb_lt in Hlt. now rewrite Hlt.
Qed.

Lemma add_next_effect_accumulates (env : builders) (i : nat)
    (effect s e : Q) (st st' : observations) (entry_start : Q) :
  carb_entry_starts env !! i = Some entry_start ->
  s <= entry_start ->
  add_next_effect env i effect s e st = Ok st' ->
  exists observed,
    observed_effects st !! i = Some observed /\
    observed_effects st' = <[i := observed + effect]> (observed_effects st).
Proof.
  intros Hi Hle H. unfold add_next_effect in H.
  apply get_lookup in Hi. rewrite Hi in H. simpl in H.
  apply Qltb_ge in Hle. rewrite Hle in H.
  inv_bind H. exists v. apply get_lookup in E. split; [exact E|].
  inv_bind H. destruct v0 as [d|].
  - injection H as <-. reflexivity.
  - do 6 inv_bind H. injection H as <-. reflexivity.
Qed.

(** C2.  The guard of [add_next_effect] is the reverse of the documented
    one: with the entry starting at 0, the sample [300, 600) is dropped
    although the entry started before it, and with the entry starting at
    1800 the sample [300, 600), which precedes the entry, is accumulated.
    Through [map_], of two samples of 5 mg/dL after an entry at time 0 only
    the one that starts at the entry's own start time is counted. *)
Theorem add_next_effect_guard_reversed :
  let env := Build_builders [0; 1800] [20; 30] [5; 5] [180; 180]
               [11400; 13200] [600; 600] [100; 150] in
  let st := Build_observations [0; 0] [None; None] [[]; []] [[]; []]
              [[]; []] in
  add_next_effect env 0 5 300 600 st = Ok st /\
  (exists st', add_next_effect env 1 5 300 600 st = Ok st' /\
               observed_effects st' = [0; 0 + 5]) /\
  (exists env' st' x,
     observe rateAt [0] [20] [None] [0; 300] [300; 600] [5; 5]
             [0] [10] [0] [86400] [50] 1 180 10 = Ok (env', st') /\
     observed_effects st' = [x] /\ x == 5).
Proof.
  intros env st. split; [reflexivity|].
  split.
  - eexists. split; reflexivity.
  - eexists _, _, _. split; [vm_compute; reflexivity|].
    split; reflexivity.
Qed.

(** ** The total rate *)

Lemma total_rate_single (env : builders) (i : nat) (r : Q) :
  absorption_rate env i = Ok r ->
  total_rate_of env [i] = Ok (0 + (0 + r)).
Proof.
  intros H. unfold total_rate_of. simpl. unfold reduce_func.
  now rewrite H.
Qed.

(** C1.  For two active entries with rates 20/180 and 30/180 the loop that
    computes [total_rate] yields twice the first rate plus the second, not
    the sum of the two rates, and the first entry is then offered 20/7 of a
    sample of 10 instead of 4. *)
Theorem total_rate_is_not_sum_of_rates :
  exists env total share,
    build rateAt [0; 1800] [20; 30] [None; None] [2100]
          [0] [10] [0] [86400] [50] 1 180 10 = Ok env /\
    active_builders env 1800 = Ok [0; 1]%nat /\
    absorption_rate env 0 = Ok (20 / 180) /\
    absorption_rate env 1 = Ok (30 / 180) /\
    total_rate_of env [0; 1]%nat = Ok total /\
    total == 2 * (20 / 180) + 30 / 180 /\
    ~ total == 20 / 180 + 30 / 180 /\
    offered_share env 0 total 10 = Ok share /\
    share == 20 # 7 /\
    ~ share == (20 / 180) / (20 / 180 + 30 / 180) * 10.
Proof.
  eexists _, _, _.
  split; [vm_compute; reflexivity|].
  split; [vm_compute; reflexivity|].
  split; [vm_compute; reflexivity|].
  split; [vm_compute; reflexivity|].
  split; [vm_compute; reflexivity|].
  split; [vm_compute; reflexivity|].
  split; [vm_compute; discriminate|].
  split; [vm_compute; reflexivity|].
  split; [vm_compute; reflexivity|].
  vm_compute; discriminate.
Qed.

(** ** Overrun *)

(** C3.  Two entries, the first already past its window when the sample
    [3600, 3900) of 500 mg/dL arrives, so that the second entry (index 1) is
    the only active one.  Its expected effect is 150; the remainder of 350
    is credited to no entry, because the entry index 1 is compared with the
    last position 0 of the active list.  With a third entry that starts
    together with the second, the active list is [1; 2] and a sample of 700
    leaves 550 after the first active entry: that amount is credited to
    entry 1, which is not the last active entry, and entry 2 still receives
    its own 150. *)
Theorem overrun_not_credited_to_last_active :
  (exists env st x,
     observe rateAt [0; 3600] [20; 30] [Some 1; None] [3600] [3900] [500]
             [0] [10] [0] [86400] [50] 1 180 10 = Ok (env, st) /\
     active_builders env 3600 = Ok [1%nat] /\
     observed_effects st = [0; x] /\ x == 150 /\ ~ x == 500) /\
  (exists env st x y,
     observe rateAt [0; 3600; 3600] [20; 30; 30] [Some 1; None; None]
             [3600] [3900] [700]
             [0] [10] [0] [86400] [50] 1 180 10 = Ok (env, st) /\
     active_builders env 3600 = Ok [1%nat; 2%nat] /\
     observed_effects st = [0; x; y] /\ x == 700 /\ y == 150).
Proof.
  split.
  - eexists _, _, _.
    split; [vm_compute; reflexivity|].
    split; [vm_compute; reflexivity|].
    split; [reflexivity|].
    split; [vm_compute; reflexivity|].
    vm_compute; discriminate.
  - eexists _, _, _, _.
    split; [vm_compute; reflexivity|].
    split; [vm_compute; reflexivity|].
    split; [reflexivity|].
    split; vm_compute; reflexivity.
Qed.

(** ** Loops and comprehensions *)

Lemma mapM_length {A B : Type} (f : A -> result B) (xs : list A)
    (ys : list B) :
  mapM f xs = Ok ys -> length ys = length xs.
Proof.
  revert ys. induction xs as [|x xs IH]; simpl; intros ys H.
  - now injection H as <-.
  - do 2 inv_bind H. injection H as <-. simpl. f_equal. now apply IH.
Qed.

Lemma mapM_lookup {A B : Type} (f : A -> result B) (xs : list A)
    (ys : list B) (k : nat) (y : B) :
  mapM f xs = Ok ys -> ys !! k = Some y ->
  exists x, xs !! k = Some x /\ f x = Ok y.
Proof.
  revert ys k. induction xs as [|x xs IH]; simpl; intros ys k H Hk.
  - injection H as <-. discriminate.
  - do 2 inv_bind H. injection H as <-.
    destruct k as [|k]; simpl in *.
    + injection Hk as <-. now exists x.
    + now apply (IH v0).
Qed.


Lemma collect_as_comprehensions (env : builders) (delay : Q)
    (st : observations) (indexes : list nat)
    (A A' : list absorption) (T T' : list (option timeline))
    (E E' : list entry_property) :
  foldM (collect_step env delay st) (A, T, E) indexes = Ok (A', T', E') ->
  exists As Ts Es,
    A' = A ++ As /\ T' = T ++ Ts /\ E' = E ++ Es /\
    mapM (absorption_result env delay st) indexes = Ok As /\
    mapM (clamped_timeline env delay st) indexes = Ok Ts /\
    mapM (entry_properties env) indexes = Ok Es.
Proof.
  revert A T E. induction indexes as [|i indexes IH]; simpl; intros A T E H.
  - injection H as <- <- <-. exists [], [], [].
    now rewrite !app_nil_r.
  - inv_bind H. unfold collect_step in E0. do 3 inv_bind E0.
    injection E0 as <-.
    destruct (IH _ _ _ H) as (As & Ts & Es & -> & -> & -> & HA & HT & HE).
    exists (v0 :: As), (v1 :: Ts), (v2 :: Es).
    rewrite E1, E2, E3, HA, HT, HE. simpl.
    now rewrite <- !app_assoc.
Qed.

(** ** What [build] derives *)

Section BuildFacts.

Variable find : list Q -> list Q -> list Q -> Q -> result Q.
Variables starts quantities : list Q.
Variable absorptions : list (option Q).
Variables e_starts e_ends e_values : list Q.
Variables ratio_starts ratios : list Q.
Variables s_starts s_ends s_values : list Q.
Variables overrun default delay : Q.

Let build' : result builders :=
  build find starts quantities absorptions e_ends ratio_starts ratios
        s_starts s_ends s_values overrun default delay.

Let observe' : result (builders * observations) :=
  observe find starts quantities absorptions e_starts e_ends e_values
          ratio_starts ratios s_starts s_ends s_values overrun default delay.

Let map' :=
  map_ find starts quantities absorptions e_starts e_ends e_values
       ratio_starts ratios s_starts s_ends s_values overrun default delay.

Lemma build_inputs (env : builders) :
  build' = Ok env ->
  carb_entry_starts env = starts /\ carb_entry_quantities env = quantities.
Proof.
  unfold build', build. intros H. do 6 inv_bind H.
  injection H as <-. now split.
Qed.

Lemma build_max_absorb_time (env : builders) (i : nat) (m : Q) :
  build' = Ok env ->
  builder_max_absorb_times env !! i = Some m ->
  exists a, absorptions !! i = Some a /\ m = py_or a default * overrun.
Proof.
  unfold build', build. intros H Hi. do 6 inv_bind H.
  injection H as <-. simpl in Hi.
  destruct (mapM_lookup _ _ _ _ _ E0 Hi) as (j & Hj & Hf).
  apply lookup_seq in Hj. destruct Hj as [-> _]. simpl in Hf.
  inv_bind Hf. injection Hf as <-. apply get_lookup in E5. now exists v5.
Qed.

Lemma build_last_effect_date (env : builders) (i : nat) (d : Q) :
  build' = Ok env ->
  last_effect_dates env !! i = Some d ->
  getitem e_ends (Z.of_nat (length e_ends) - 1) = Ok d.
Proof.
  unfold build', build. intros H Hi. do 6 inv_bind H.
  injection H as <-. simpl in Hi.
  destruct (mapM_lookup _ _ _ _ _ E2 Hi) as (j & _ & Hf). exact Hf.
Qed.

Lemma observe_build (env : builders) (st : observations) :
  observe' = Ok (env, st) -> build' = Ok env.
Proof.
  unfold observe', observe, build'. intros H. do 2 inv_bind H.
  now injection H as <- <-.
Qed.

(** A call that returns rows has gone through the sweep, and its three
    output lists are the three comprehensions over the entry indexes. *)
Lemma map_inversion (abs : list absorption) (tls : list (option timeline))
    (ens : list entry_property) :
  map' = Ok (abs, tls, ens) ->
  (abs = [] /\ tls = [] /\ ens = []) \/
  exists env st,
    observe' = Ok (env, st) /\
    mapM (absorption_result env delay st) (seq 0 (length starts)) = Ok abs /\
    mapM (clamped_timeline env delay st) (seq 0 (length starts)) = Ok tls /\
    mapM (entry_properties env) (seq 0 (length starts)) = Ok ens.
Proof.
  unfold map', map_. intros H. inv_bind H.
  destruct (_ || _)%bool.
  - injection H as <- <- <-. now left.
  - right. inv_bind H. destruct v0 as [env st].
    inv_bind H. destruct v0 as [[A T] E']. inv_bind H.
    injection H as <- <- <-.
    exists env, st. split; [exact E0|].
    unfold collect in E1.
    apply collect_as_comprehensions in E1.
    destruct E1 as (As & Ts & Es & -> & -> & -> & HA & HT & HE).
    simpl. unfold builder_entry_indexes in *.
    destruct (build_inputs env (observe_build env st E0)) as [Hs _].
    rewrite Hs in *. now repeat split.
Qed.

End BuildFacts.

(** ** The per-entry results *)

Lemma linear_percent_range (t T p : Q) :
  0 < T -> linear_percent_absorption_at_time t T = Ok p -> 0 <= p /\ p <= 1.
Proof.
  intros HT H.
  destruct (Qlt_le_dec 0 t) as [H0|H0].
  - destruct (Qlt_le_dec t T) as [H1|H1].
    + rewrite (linear_percent_ramp t T H0 H1) in H. injection H as <-.
      split.
      * apply Qle_shift_div_l; [exact HT|lra].
      * apply Qle_shift_div_r; [exact HT|lra].
    + rewrite (linear_percent_after t T HT H1) in H. injection H as <-. lra.
  - rewrite (linear_percent_before t T H0) in H. injection H as <-. lra.
Qed.

Lemma linearly_absorbed_range (q t T m : Q) :
  0 <= q -> 0 < T -> linearly_absorbed_carbs q t T = Ok m ->
  0 <= m /\ m <= q.
Proof.
  intros Hq HT H. unfold linearly_absorbed_carbs in H. inv_bind H.
  injection H as <-.
  destruct (linear_percent_range t T v HT E) as [Hp0 Hp1]. nra.
Qed.

Lemma py_min_le_l (a b : Q) : py_min a b <= a.
Proof. rewrite py_min_spec. apply Q.le_min_l. Qed.

Lemma py_min_glb (a b c : Q) : c <= a -> c <= b -> c <= py_min a b.
Proof. intros Ha Hb. rewrite py_min_spec. now apply Q.min_glb. Qed.

Lemma py_max_ge_l (a b : Q) : a <= py_max a b.
Proof. rewrite py_max_spec. apply Q.le_max_l. Qed.

Lemma getitem_last {A : Type} (xs : list A) (x : A) :
  getitem xs (Z.of_nat (length xs) - 1) = Ok x -> last xs = Some x.
Proof.
  unfold getitem. rewrite last_lookup.
  destruct xs as [|y ys]; [simpl; discriminate|].
  assert (Hneg : (Z.of_nat (length (y :: ys)) - 1 <? 0)%Z = false)
    by (apply Z.ltb_ge; simpl length; lia).
  rewrite Hneg.
  replace (Z.to_nat (Z.of_nat (length (y :: ys)) - 1))
    with (Nat.pred (length (y :: ys))) by (simpl length; lia).
  destruct (_ && _)%bool; [|discriminate].
  destruct (_ !! _) as [z|]; [|discriminate].
  now intros [= ->].
Qed.

Section ResultFacts.

Variable find : list Q -> list Q -> list Q -> Q -> result Q.
Variables starts quantities : list Q.
Variable absorptions : list (option Q).
Variables e_starts e_ends e_values : list Q.
Variables ratio_starts ratios : list Q.
Variables s_starts s_ends s_values : list Q.
Variables overrun default delay : Q.

Variable abs : list absorption.
Variable tls : list (option timeline).
Variable ens : list entry_property.

Hypothesis Hmap :
  map_ find starts quantities absorptions e_starts e_ends e_values
       ratio_starts ratios s_starts s_ends s_values overrun default delay
  = Ok (abs, tls, ens).

(** C4.  For an entry with non-negative quantity and positive maximum
    absorption time, the clamped grams of its absorption result are
    [min(quantity, max(minPredictedGrams, observedGrams))]; they lie between
    0 and the total grams and are at least the linear-model floor at the
    elapsed time; the remaining grams are the total minus the clamped
    grams. *)
Theorem clamped_grams_invariant (i : nat) (a : absorption) (q : Q)
    (ab : option Q) :
  abs !! i = Some a ->
  quantities !! i = Some q ->
  absorptions !! i = Some ab ->
  0 <= q ->
  0 < py_or ab default * overrun ->
  exists env st observed min_predicted,
    observe find starts quantities absorptions e_starts e_ends e_values
            ratio_starts ratios s_starts s_ends s_values overrun default
            delay = Ok (env, st) /\
    observed_grams env st i = Ok observed /\
    min_predicted_grams env delay q i = Ok min_predicted /\
    clamped_grams a = py_min q (py_max min_predicted observed) /\
    clamped_grams a == Qmin q (Qmax min_predicted observed) /\
    0 <= clamped_grams a /\
    clamped_grams a <= total_carbs a /\
    min_predicted <= clamped_grams a /\
    total_carbs a = q /\
    remaining_carbs a = total_carbs a - clamped_grams a.
Proof.
  intros Ha Hq Hab Hq0 HT.
  destruct (map_inversion _ _ _ _ _ _ _ _ _ _ _ _ _ _ _ _ _ _ Hmap)
    as [(-> & _ & _)|(env & st & Hobs & HA & _ & _)]; [discriminate|].
  exists env, st.
  destruct (mapM_lookup _ _ _ _ _ HA Ha) as (j & Hj & Hres).
  apply lookup_seq in Hj. destruct Hj as [Hj _]. simpl in Hj. subst j.
  pose proof (observe_build _ _ _ _ _ _ _ _ _ _ _ _ _ _ _ _ _ Hobs) as Hb.
  destruct (build_inputs _ _ _ _ _ _ _ _ _ _ _ _ _ _ Hb) as [_ Hqs].
  unfold absorption_result in Hres.
  inv_bind Hres. rename v into observed, E into Hobserved.
  inv_bind Hres. rewrite Hqs in E. apply get_lookup in E.
  assert (v = q) by congruence. subst v.
  inv_bind Hres. rename v into min_predicted, E0 into Hmin.
  do 5 inv_bind Hres. injection Hres as <-. simpl.
  exists observed, min_predicted.
  assert (Hrange : 0 <= min_predicted /\ min_predicted <= q).
  { unfold min_predicted_grams in Hmin.
    inv_bind_as Hmin t_last Hlast. inv_bind_as Hmin t_start Hstart.
    inv_bind_as Hmin t_max Hmax. apply get_lookup in Hmax.
    destruct (build_max_absorb_time _ _ _ _ _ _ _ _ _ _ _ _ _ _ _ _ Hb Hmax)
      as (ab' & Hab' & ->).
    assert (ab' = ab) by congruence. subst ab'.
    now apply (linearly_absorbed_range q _ _ _ Hq0 HT Hmin). }
  destruct Hrange as [Hm0 Hmq].
  pose proof (py_max_ge_l min_predicted observed) as Hmax.
  repeat split; try reflexivity; try assumption.
  - rewrite py_min_spec. apply Q.min_compat; [reflexivity|].
    apply py_max_spec.
  - apply py_min_glb; lra.
  - apply py_min_le_l.
  - apply py_min_glb; lra.
Qed.

(** C5.  The timeline slot of an entry holds the entry's recorded
    sub-intervals exactly when its observed grams, the observed effect
    divided by the carb sensitivity, are at least the grams the linear model
    gives for the entry's quantity at the elapsed time, the minutes from the
    entry's start to the end of the last effect sample less the delay; the
    slot is null otherwise. *)
Theorem clamped_timeline_exposed (i : nat) (t : option timeline) :
  tls !! i = Some t ->
  exists env st q ab t_start t_last effect sensitivity observed
         min_predicted,
    observe find starts quantities absorptions e_starts e_ends e_values
            ratio_starts ratios s_starts s_ends s_values overrun default
            delay = Ok (env, st) /\
    quantities !! i = Some q /\
    absorptions !! i = Some ab /\
    starts !! i = Some t_start /\
    last e_ends = Some t_last /\
    observed_effects st !! i = Some effect /\
    builder_carb_sensitivities env !! i = Some sensitivity /\
    py_div effect sensitivity = Ok observed /\
    linearly_absorbed_carbs q
      (time_interval_since t_last t_start / 60 - delay)
      (py_or ab default * overrun) = Ok min_predicted /\
    ((min_predicted <= observed /\
      exists s e v,
        observed_timeline_starts st !! i = Some s /\
        observed_timeline_ends st !! i = Some e /\
        observed_timeline_carb_values st !! i = Some v /\
        t = Some (s, e, v))
     \/ (observed < min_predicted /\ t = None)).
Proof.
  intros Ht.
  destruct (map_inversion _ _ _ _ _ _ _ _ _ _ _ _ _ _ _ _ _ _ Hmap)
    as [(_ & -> & _)|(env & st & Hobs & _ & HT & _)]; [discriminate|].
  destruct (mapM_lookup _ _ _ _ _ HT Ht) as (j & Hj & Hres).
  apply lookup_seq in Hj. destruct Hj as [Hj _]. simpl in Hj. subst j.
  pose proof (observe_build _ _ _ _ _ _ _ _ _ _ _ _ _ _ _ _ _ Hobs) as Hb.
  destruct (build_inputs _ _ _ _ _ _ _ _ _ _ _ _ _ _ Hb) as [Hss Hqs].
  unfold clamped_timeline in Hres.
  inv_bind_as Hres q Hq. rewrite Hqs in Hq. apply get_lookup in Hq.
  inv_bind_as Hres min_predicted Hmin.
  inv_bind_as Hres observed Hobserved.
  unfold min_predicted_grams in Hmin.
  inv_bind_as Hmin t_last Hlast. inv_bind_as Hmin t_start Hstart.
  inv_bind_as Hmin t_max Hmax.
  rewrite Hss in Hstart. apply get_lookup in Hlast, Hstart, Hmax.
  destruct (build_max_absorb_time _ _ _ _ _ _ _ _ _ _ _ _ _ _ _ _ Hb Hmax)
    as (ab & Hab & ->).
  apply (build_last_effect_date _ _ _ _ _ _ _ _ _ _ _ _ _ _ _ _ Hb) in Hlast.
  apply getitem_last in Hlast.
  unfold observed_grams in Hobserved.
  inv_bind_as Hobserved effect Heffect.
  inv_bind_as Hobserved sensitivity Hsens.
  apply get_lookup in Heffect, Hsens.
  exists env, st, q, ab, t_start, t_last, effect, sensitivity, observed,
    min_predicted.
  repeat (split; [assumption|]).
  destruct (Qle_bool min_predicted observed) eqn:Hcmp.
  - left. apply Qle_bool_iff in Hcmp. split; [exact Hcmp|].
    inv_bind_as Hres x_s Hs. inv_bind_as Hres x_e He.
    inv_bind_as Hres x_v Hv. injection Hres as <-.
    apply get_lookup in Hs, He, Hv. now exists x_s, x_e, x_v.
  - right. apply Qle_bool_gt in Hcmp. injection Hres as <-. now split.
Qed.

End ResultFacts.

(** [add_next_effect] records a completion date for an entry that has none
    only when the accumulated effect has reached the expected effect, and
    the date it records is the end of the sample. *)
Lemma add_next_effect_completion (env : builders) (j : nat)
    (effect s e : Q) (st0 st1 : observations) (d : Q) :
  add_next_effect env j effect s e st0 = Ok st1 ->
  observed_completion_dates st0 !! j = Some None ->
  observed_completion_dates st1 !! j = Some (Some d) ->
  d = e /\
  exists o x,
    observed_effects st1 !! j = Some o /\
    entry_effects env !! j = Some x /\
    x <= o.
Proof.
  intros H Hnone Hsome. unfold add_next_effect in H.
  inv_bind_as H t_start Hstart.
  destruct (Qltb t_start s).
  { injection H as <-. congruence. }
  inv_bind_as H observed Hobserved. inv_bind_as H completion Hcompletion.
  apply get_lookup in Hcompletion, Hobserved.
  assert (completion = None) by congruence. subst completion.
  inv_bind_as H t_starts Hts. inv_bind_as H t_ends Hte.
  inv_bind_as H t_values Htv. inv_bind_as H sensitivity Hsens.
  inv_bind_as H grams Hgrams. inv_bind_as H expected Hexpected.
  apply get_lookup in Hexpected.
  injection H as <-. simpl in *.
  destruct (Qle_bool expected (observed + effect)) eqn:Hcmp;
    [|congruence].
  apply Qle_bool_iff in Hcmp.
  rewrite list_lookup_insert_eq in Hsome
    by (now apply lookup_lt_Some in Hnone).
  split; [congruence|].
  exists (observed + effect), expected.
  split; [|now split].
  apply list_lookup_insert_eq. now apply lookup_lt_Some in Hobserved.
Qed.

Section ResultFields.

Variable find : list Q -> list Q -> list Q -> Q -> result Q.
Variables starts quantities : list Q.
Variable absorptions : list (option Q).
Variables e_starts e_ends e_values : list Q.
Variables ratio_starts ratios : list Q.
Variables s_starts s_ends s_values : list Q.
Variables overrun default delay : Q.

Variable abs : list absorption.
Variable tls : list (option timeline).
Variable ens : list entry_property.

Hypothesis Hmap :
  map_ find starts quantities absorptions e_starts e_ends e_values
       ratio_starts ratios s_starts s_ends s_values overrun default delay
  = Ok (abs, tls, ens).

(** C10.  The absorption result of an entry reports the entry's own start
    time as the observed start; as the observed end the completion date of
    the entry when one was recorded, and the end of the last effect sample
    otherwise; and the entry's quantity both in its first position and in
    the total-carbs position.  A completion date is recorded only by a call
    of [add_next_effect] that brings the accumulated effect of the entry to
    its expected effect, and it is the end of that sample. *)
Theorem absorption_result_fields (i : nat) (a : absorption) :
  abs !! i = Some a ->
  exists env st start q completion,
    observe find starts quantities absorptions e_starts e_ends e_values
            ratio_starts ratios s_starts s_ends s_values overrun default
            delay = Ok (env, st) /\
    starts !! i = Some start /\
    quantities !! i = Some q /\
    observed_completion_dates st !! i = Some completion /\
    observed_start a = start /\
    match completion with
    | Some d => observed_end a = d
    | None => last e_ends = Some (observed_end a)
    end /\
    observed_grams_absorbed a = q /\
    total_carbs a = q /\
    (forall j effect s e st0 st1 d,
       add_next_effect env j effect s e st0 = Ok st1 ->
       observed_completion_dates st0 !! j = Some None ->
       observed_completion_dates st1 !! j = Some (Some d) ->
       d = e /\
       exists o x,
         observed_effects st1 !! j = Some o /\
         entry_effects env !! j = Some x /\
         x <= o).
Proof.
  intros Ha.
  destruct (map_inversion _ _ _ _ _ _ _ _ _ _ _ _ _ _ _ _ _ _ Hmap)
    as [(-> & _ & _)|(env & st & Hobs & HA & _ & _)]; [discriminate|].
  destruct (mapM_lookup _ _ _ _ _ HA Ha) as (j & Hj & Hres).
  apply lookup_seq in Hj. destruct Hj as [Hj _]. simpl in Hj. subst j.
  pose proof (observe_build _ _ _ _ _ _ _ _ _ _ _ _ _ _ _ _ _ Hobs) as Hb.
  destruct (build_inputs _ _ _ _ _ _ _ _ _ _ _ _ _ _ Hb) as [Hss Hqs].
  unfold absorption_result in Hres.
  inv_bind_as Hres observed Hobserved.
  inv_bind_as Hres grams Hgrams.
  inv_bind_as Hres x_floor Hfloor.
  inv_bind_as Hres rate Hrate.
  inv_bind_as Hres estimated Hestimated.
  inv_bind_as Hres t_start Hstart.
  inv_bind_as Hres completion Hcompletion.
  inv_bind_as Hres t_end Hend.
  injection Hres as <-. simpl.
  rewrite Hqs in Hgrams. rewrite Hss in Hstart.
  apply get_lookup in Hgrams, Hstart, Hcompletion.
  exists env, st, t_start, grams, completion.
  repeat (split; [first [assumption|reflexivity]|]).
  split.
  - destruct completion as [d|].
    + now injection Hend as <-.
    + apply get_lookup in Hend. apply getitem_last.
      eapply build_last_effect_date; [exact Hb|exact Hend].
  - repeat (split; [reflexivity|]).
    intros j effect s e st0 st1 d. apply add_next_effect_completion.
Qed.

End ResultFields.

(** One entry of 20 g at time 0, one sample [0, 300) of 5 mg/dL, sensitivity
    50 mg/dL/U and carb ratio 10 g/U all day, absorption time 180 min. *)
Lemma clamped_grams_invariant_witness :
  exists abs tls ens a,
    map_ rateAt [0] [20] [None] [0] [300] [5] [0] [10] [0] [86400] [50]
         1 180 10 = Ok (abs, tls, ens) /\
    abs !! 0%nat = Some a /\
    0 <= clamped_grams a /\
    clamped_grams a <= total_carbs a /\
    remaining_carbs a = total_carbs a - clamped_grams a.
Proof.
  eassert (Hmap : map_ rateAt [0] [20] [None] [0] [300] [5] [0] [10] [0]
                       [86400] [50] 1 180 10 = Ok (_, _, _))
    by (vm_compute; reflexivity).
  assert (Hq : 0 <= 20) by (apply Qle_bool_iff; reflexivity).
  assert (HT : 0 < py_or None 180 * 1) by reflexivity.
  epose proof (clamped_grams_invariant _ _ _ _ _ _ _ _ _ _ _ _ _ _ _ _ _ _
                 Hmap 0%nat _ 20 None eq_refl eq_refl eq_refl Hq HT) as H.
  destruct H as (env & st & o & m & _ & _ & _ & _ & _ & H0 & H1 & _ & _ & H2).
  eexists _, _, _, _.
  split; [exact Hmap|].
  split; [reflexivity|].
  split; [exact H0|].
  split; [exact H1|exact H2].
Defined.

Lemma clamped_timeline_exposed_witness :
  exists abs tls ens t,
    map_ rateAt [0] [20] [None] [0] [300] [5] [0] [10] [0] [86400] [50]
         1 180 10 = Ok (abs, tls, ens) /\
    tls !! 0%nat = Some t /\
    exists env st effect sensitivity observed min_predicted,
      observed_effects st !! 0%nat = Some effect /\
      builder_carb_sensitivities env !! 0%nat = Some sensitivity /\
      py_div effect sensitivity = Ok observed /\
      linearly_absorbed_carbs 20 (time_interval_since 300 0 / 60 - 10)
        (py_or None 180 * 1) = Ok min_predicted /\
      (min_predicted <= observed /\ t <> None
       \/ observed < min_predicted /\ t = None).
Proof.
  eassert (Hmap : map_ rateAt [0] [20] [None] [0] [300] [5] [0] [10] [0]
                       [86400] [50] 1 180 10 = Ok (_, _, _))
    by (vm_compute; reflexivity).
  epose proof (clamped_timeline_exposed _ _ _ _ _ _ _ _ _ _ _ _ _ _ _ _ _ _
                 Hmap 0%nat _ eq_refl) as H.
  destruct H as (env & st & q & ab & t_start & t_last & effect & sensitivity
                 & observed & min_predicted & _ & Hq & Hab & Hstart & Hlast
                 & Heffect & Hsens & Ho & Hm & H).
  injection Hq as <-. injection Hab as <-. injection Hstart as <-.
  injection Hlast as <-.
  eexists _, _, _, _.
  split; [exact Hmap|].
  split; [reflexivity|].
  exists env, st, effect, sensitivity, observed, min_predicted.
  repeat (split; [assumption|]).
  destruct H as [[Hle (s & e & v & _ & _ & _ & Hsome)]|[Hlt Hnone]].
  - left. split; [exact Hle|]. rewrite Hsome. discriminate.
  - right. split; [exact Hlt|exact Hnone].
Defined.

Lemma absorption_result_fields_witness :
  exists abs tls ens a,
    map_ rateAt [0] [20] [None] [0] [300] [5] [0] [10] [0] [86400] [50]
         1 180 10 = Ok (abs, tls, ens) /\
    abs !! 0%nat = Some a /\
    observed_start a = 0 /\
    observed_grams_absorbed a = 20 /\
    total_carbs a = 20.
Proof.
  eassert (Hmap : map_ rateAt [0] [20] [None] [0] [300] [5] [0] [10] [0]
                       [86400] [50] 1 180 10 = Ok (_, _, _))
    by (vm_compute; reflexivity).
  epose proof (absorption_result_fields _ _ _ _ _ _ _ _ _ _ _ _ _ _ _ _ _ _
                 Hmap 0%nat _ eq_refl) as H.
  destruct H as (env & st & s & q & c & _ & Hs & Hq & _ & H1 & _ & H2 & H3 & _).
  injection Hs as <-. injection Hq as <-.
  eexists _, _, _, _.
  split; [exact Hmap|].
  split; [reflexivity|].
  split; [exact H1|].
  split; [exact H2|exact H3].
Defined.

(** ** Where a division can fault *)

Lemma linear_percent_total (t T : Q) :
  exists p, linear_percent_absorption_at_time t T = Ok p.
Proof.
  unfold linear_percent_absorption_at_time.
  destruct (Qle_bool t 0) eqn:E0; [now exists 0|].
  destruct (Qltb t T) eqn:E1; [|now exists 1].
  apply Qle_bool_gt in E0. apply Qltb_lt in E1.
  exists (t / T). apply py_div_Ok. lra.
Qed.

Lemma linearly_absorbed_total (q t T : Q) :
  exists m, linearly_absorbed_carbs q t T = Ok m.
Proof.
  unfold linearly_absorbed_carbs.
  destruct (linear_percent_total t T) as [p ->]. simpl. now exists (q * p).
Qed.

Lemma time_remaining_total (grams clamped rate : Q) :
  exists t, time_remaining grams clamped rate = Ok t.
Proof.
  unfold time_remaining. destruct (Qltb 0 rate) eqn:E; [|now exists 0].
  apply Qltb_lt in E. eexists. apply py_div_Ok. lra.
Qed.

Lemma time_remaining_zero (grams clamped rate : Q) :
  rate <= 0 -> time_remaining grams clamped rate = Ok 0.
Proof.
  intros H. unfold time_remaining.
  apply Qltb_ge in H. now rewrite H.
Qed.

Lemma offered_share_zero_rate (env : builders) (i : nat)
    (total_rate effect_value : Q) :
  total_rate == 0 \/ effect_value == 0 ->
  offered_share env i total_rate effect_value = Ok 0.
Proof.
  intros [H|H]; unfold offered_share; apply Qeq_bool_iff in H; rewrite H.
  - reflexivity.
  - now rewrite andb_false_r.
Qed.

Lemma absorption_rate_zero_time (env : builders) (i : nat) (q m : Q) :
  carb_entry_quantities env !! i = Some q ->
  builder_max_absorb_times env !! i = Some m ->
  m == 0 ->
  absorption_rate env i = Raise ZeroDivisionError.
Proof.
  intros Hq Hm H0. unfold absorption_rate.
  apply get_lookup in Hq, Hm. rewrite Hq, Hm. simpl.
  now apply py_div_zero.
Qed.

Lemma absorption_rate_inversion (env : builders) (i : nat) (rate : Q) :
  absorption_rate env i = Ok rate ->
  exists q m,
    carb_entry_quantities env !! i = Some q /\
    builder_max_absorb_times env !! i = Some m /\
    ~ m == 0 /\ rate = q / m.
Proof.
  unfold absorption_rate. intros H.
  inv_bind_as H x_q Hq. inv_bind_as H x_m Hm.
  apply py_div_inversion in H. destruct H as [Hnz ->].
  apply get_lookup in Hq, Hm. now exists x_q, x_m.
Qed.

Lemma bind_Raise {A B : Type} (m : result A) (k : A -> result B) (e : exn) :
  bind m k = Raise e ->
  m = Raise e \/ exists a, m = Ok a /\ k a = Raise e.
Proof.
  destruct m as [a|e']; simpl; intros H.
  - right. now exists a.
  - left. injection H as ->. reflexivity.
Qed.

Lemma mapM_Raise {A B : Type} (f : A -> result B) (xs : list A) (e : exn) :
  mapM f xs = Raise e -> exists k x, xs !! k = Some x /\ f x = Raise e.
Proof.
  induction xs as [|x xs IH]; simpl; intros H; [discriminate|].
  apply bind_Raise in H. destruct H as [H|(y & _ & H)].
  - now exists 0%nat, x.
  - apply bind_Raise in H. destruct H as [H|(ys & _ & H)]; [|discriminate].
    destruct (IH H) as (k & x' & Hk & Hx). now exists (S k), x'.
Qed.

Lemma nzd_Ok {A : Type} (a : A) : no_zero_division (Ok a).
Proof. discriminate. Qed.

Lemma nzd_returns {A : Type} (m : result A) :
  (exists a, m = Ok a) -> no_zero_division m.
Proof. intros [a ->]. discriminate. Qed.

Lemma nzd_bind {A B : Type} (m : result A) (k : A -> result B) :
  no_zero_division m ->
  (forall a, m = Ok a -> no_zero_division (k a)) ->
  no_zero_division (bind m k).
Proof.
  intros Hm Hk H. apply bind_Raise in H.
  destruct H as [H|(a & Ha & H)]; [now apply Hm|now apply (Hk a Ha)].
Qed.

Lemma nzd_getitem {A : Type} (xs : list A) (i : Z) :
  no_zero_division (getitem xs i).
Proof.
  unfold no_zero_division, getitem. cbv zeta.
  destruct (_ && _)%bool; [|discriminate].
  destruct (_ !! _); discriminate.
Qed.

Lemma nzd_get {A : Type} (xs : list A) (i : nat) :
  no_zero_division (get xs i).
Proof. apply nzd_getitem. Qed.

Lemma nzd_assert (cond : bool) : no_zero_division (py_assert cond).
Proof. destruct cond; discriminate. Qed.

Lemma nzd_div (a b : Q) : ~ b == 0 -> no_zero_division (py_div a b).
Proof. intros H. rewrite (py_div_Ok a b H). discriminate. Qed.

Lemma nzd_foldM {A B : Type} (f : A -> B -> result A) (xs : list B) :
  (forall a x, no_zero_division (f a x)) ->
  forall acc, no_zero_division (foldM f acc xs).
Proof.
  intros Hf. induction xs as [|x xs IH]; simpl; intros acc.
  - apply nzd_Ok.
  - apply nzd_bind; [apply Hf|]. intros a _. apply IH.
Qed.

Lemma nzd_mapM {A B : Type} (f : A -> result B) (xs : list A) :
  (forall x, no_zero_division (f x)) -> no_zero_division (mapM f xs).
Proof.
  intros Hf. induction xs as [|x xs IH]; simpl.
  - apply nzd_Ok.
  - apply nzd_bind; [apply Hf|]. intros y _.
    apply nzd_bind; [exact IH|]. intros ys _. apply nzd_Ok.
Qed.

(** With a non-zero maximum absorption time and a non-zero carb sensitivity
    for every entry, no statement of the sweep or of the per-entry results
    raises [ZeroDivisionError], whatever else goes wrong. *)
Section GuardedDivisions.

Variable env : builders.
Hypothesis Hdiv : divisors_nonzero env.

Lemma nzd_absorption_rate (i : nat) :
  no_zero_division (absorption_rate env i).
Proof.
  unfold absorption_rate.
  apply nzd_bind; [apply nzd_get|intros q Hq].
  apply nzd_bind; [apply nzd_get|intros m Hm].
  apply nzd_div. apply get_lookup in Hm.
  destruct Hdiv as [Hm' _]. exact (Forall_lookup_1 _ _ _ _ Hm' Hm).
Qed.

Lemma nzd_add_next_effect (i : nat) (effect s e : Q) (st : observations) :
  no_zero_division (add_next_effect env i effect s e st).
Proof.
  unfold add_next_effect.
  apply nzd_bind; [apply nzd_get|intros t Ht].
  destruct (Qltb t s); [apply nzd_Ok|].
  apply nzd_bind; [apply nzd_get|intros o Ho]. cbv zeta.
  apply nzd_bind; [apply nzd_get|intros c Hc].
  destruct c; [apply nzd_Ok|].
  do 3 (apply nzd_bind; [apply nzd_get|intros ? ?]).
  apply nzd_bind; [apply nzd_get|intros x Hx].
  apply nzd_bind; [|intros g Hg].
  - apply nzd_div. apply get_lookup in Hx.
    destruct Hdiv as [_ Hc']. exact (Forall_lookup_1 _ _ _ _ Hc' Hx).
  - apply nzd_bind; [apply nzd_get|intros y Hy]. apply nzd_Ok.
Qed.

Lemma nzd_active_builders (s : Q) :
  no_zero_division (active_builders env s).
Proof.
  unfold active_builders. apply nzd_foldM. intros active j.
  unfold select_active.
  apply nzd_bind; [apply nzd_get|intros d Hd].
  destruct (Qltb s d); [|apply nzd_Ok].
  apply nzd_bind; [apply nzd_get|intros t Ht].
  destruct (Qle_bool t s); apply nzd_Ok.
Qed.

Lemma nzd_total_rate_of (active : list nat) :
  no_zero_division (total_rate_of env active).
Proof.
  unfold total_rate_of. apply nzd_bind; [|intros acc _; apply nzd_Ok].
  apply nzd_foldM. intros [previous total] i.
  unfold total_rate_step, reduce_func.
  apply nzd_bind; [|intros r _; apply nzd_Ok].
  apply nzd_bind; [apply nzd_absorption_rate|intros r _; apply nzd_Ok].
Qed.

(** The division by [total_rate] is reached only when [total_rate] is not
    zero. *)
Lemma nzd_offered_share (b : nat) (total_rate effect_value : Q) :
  no_zero_division (offered_share env b total_rate effect_value).
Proof.
  unfold offered_share.
  destruct (Qeq_bool total_rate 0) eqn:Hrate; simpl; [apply nzd_Ok|].
  destruct (Qeq_bool effect_value 0); simpl; [apply nzd_Ok|].
  apply nzd_bind; [apply nzd_absorption_rate|intros r _].
  apply nzd_bind; [|intros f _; apply nzd_Ok].
  apply nzd_div. now apply Qeq_bool_false.
Qed.

Lemma nzd_apportion (k : nat) (s e : Q) (acc : Q * Q * observations)
    (b : nat) :
  no_zero_division (apportion env k s e acc b).
Proof.
  destruct acc as [[total_rate effect_value] st]. unfold apportion.
  apply nzd_bind; [apply nzd_get|intros q Hq].
  apply nzd_bind; [apply nzd_get|intros c Hc]. cbv zeta.
  apply nzd_bind; [apply nzd_offered_share|intros share _]. cbv zeta.
  apply nzd_bind; [apply nzd_absorption_rate|intros rate _]. cbv zeta.
  apply nzd_bind; [apply nzd_add_next_effect|intros st1 _].
  destruct (_ && _)%bool; [|apply nzd_Ok].
  apply nzd_bind; [apply nzd_add_next_effect|intros st2 _]. apply nzd_Ok.
Qed.

Lemma nzd_sweep (e_starts e_ends e_values : list Q) (st : observations) :
  no_zero_division (sweep env e_starts e_ends e_values st).
Proof.
  unfold sweep. apply nzd_foldM. intros x index. unfold sweep_sample.
  apply nzd_bind; [apply nzd_get|intros s Hs].
  apply nzd_bind; [apply nzd_get|intros e He].
  destruct (Qle_bool e s); [apply nzd_Ok|].
  apply nzd_bind; [apply nzd_active_builders|intros active _].
  apply nzd_bind; [apply nzd_get|intros v Hv]. cbv zeta.
  apply nzd_bind; [apply nzd_total_rate_of|intros total_rate _].
  apply nzd_bind; [|intros acc _; apply nzd_Ok].
  apply nzd_foldM. intros acc b. apply nzd_apportion.
Qed.

Lemma nzd_min_predicted_grams (delay grams : Q) (i : nat) :
  no_zero_division (min_predicted_grams env delay grams i).
Proof.
  unfold min_predicted_grams.
  do 2 (apply nzd_bind; [apply nzd_get|intros ? ?]). cbv zeta.
  apply nzd_bind; [apply nzd_get|intros m Hm].
  apply nzd_returns, linearly_absorbed_total.
Qed.

Lemma nzd_observed_grams (st : observations) (i : nat) :
  no_zero_division (observed_grams env st i).
Proof.
  unfold observed_grams.
  apply nzd_bind; [apply nzd_get|intros o Ho].
  apply nzd_bind; [apply nzd_get|intros c Hc].
  apply nzd_div. apply get_lookup in Hc.
  destruct Hdiv as [_ Hc']. exact (Forall_lookup_1 _ _ _ _ Hc' Hc).
Qed.

Lemma nzd_collect (delay : Q) (st : observations) :
  no_zero_division (collect env delay st).
Proof.
  unfold collect. apply nzd_foldM. intros [[A T] E] i.
  unfold collect_step.
  apply nzd_bind; [|intros a _].
  { unfold absorption_result.
    apply nzd_bind; [apply nzd_observed_grams|intros o _].
    apply nzd_bind; [apply nzd_get|intros q Hq].
    apply nzd_bind; [apply nzd_min_predicted_grams|intros l _]. cbv zeta.
    apply nzd_bind; [apply nzd_absorption_rate|intros r _].
    apply nzd_bind; [apply nzd_returns, time_remaining_total|intros t _].
    do 2 (apply nzd_bind; [apply nzd_get|intros ? ?]).
    apply nzd_bind; [|intros d _; apply nzd_Ok].
    destruct a0; [apply nzd_Ok|apply nzd_get]. }
  apply nzd_bind; [|intros t _].
  { unfold clamped_timeline.
    apply nzd_bind; [apply nzd_get|intros q Hq].
    apply nzd_bind; [apply nzd_min_predicted_grams|intros l _].
    apply nzd_bind; [apply nzd_observed_grams|intros o _].
    destruct (Qle_bool l o); [|apply nzd_Ok].
    do 3 (apply nzd_bind; [apply nzd_get|intros ? ?]). apply nzd_Ok. }
  apply nzd_bind; [|intros e _; apply nzd_Ok].
  unfold entry_properties.
  do 5 (apply nzd_bind; [apply nzd_get|intros ? ?]). apply nzd_Ok.
Qed.

End GuardedDivisions.

Lemma zero_or_nonzero (l : list Q) :
  Forall (fun x => ~ x == 0) l \/ exists i x, l !! i = Some x /\ x == 0.
Proof.
  induction l as [|y l IH].
  - left. constructor.
  - destruct (Qeq_dec y 0) as [Hy|Hy].
    + right. now exists 0%nat, y.
    + destruct IH as [IH|(i & x & Hi & Hx)].
      * left. now constructor.
      * right. now exists (S i), x.
Qed.

Section ShapesPass.

Variables starts quantities : list Q.
Variable absorptions : list (option Q).
Variables e_starts e_ends e_values : list Q.
Variables ratio_starts ratios : list Q.
Variables s_starts s_ends s_values : list Q.

Hypothesis Hquantities : length starts = length quantities.
Hypothesis Habsorptions : length quantities = length absorptions.
Hypothesis Hends : length e_starts = length e_ends.
Hypothesis Hvalues : length e_ends = length e_values.
Hypothesis Hratios : length ratio_starts = length ratios.
Hypothesis Hsens_ends : length s_starts = length s_ends.
Hypothesis Hsens_values : length s_ends = length s_values.

Lemma check_shapes_pass :
  check_shapes starts quantities absorptions e_starts e_ends e_values
               ratio_starts ratios s_starts s_ends s_values = Ok tt.
Proof.
  unfold check_shapes.
  rewrite Hquantities, Habsorptions, Hends, Hvalues, Hratios, Hsens_ends,
    Hsens_values.
  now rewrite !Nat.eqb_refl.
Qed.

End ShapesPass.

Section DivisionFaults.

Variable find : list Q -> list Q -> list Q -> Q -> result Q.
Variables starts quantities : list Q.
Variable absorptions : list (option Q).
Variables e_starts e_ends e_values : list Q.
Variables ratio_starts ratios : list Q.
Variables s_starts s_ends s_values : list Q.
Variables overrun default delay : Q.

Let build' : result builders :=
  build find starts quantities absorptions e_ends ratio_starts ratios
        s_starts s_ends s_values overrun default delay.

Let map' :=
  map_ find starts quantities absorptions e_starts e_ends e_values
       ratio_starts ratios s_starts s_ends s_values overrun default delay.

(** Inside [build], only the schedule lookups and the division by the carb
    ratio can raise [ZeroDivisionError]. *)
Lemma build_zero_division :
  build' = Raise ZeroDivisionError ->
  exists i t,
    starts !! i = Some t /\
    (find s_starts s_ends s_values t = Raise ZeroDivisionError \/
     find ratio_starts [] ratios t = Raise ZeroDivisionError \/
     exists r, find ratio_starts [] ratios t = Ok r /\ r == 0).
Proof.
  unfold build', build. cbv zeta. intros H.
  apply bind_Raise in H. destruct H as [H|(cs & _ & H)].
  - apply mapM_Raise in H. destruct H as (k & i & _ & H).
    apply bind_Raise in H. destruct H as [H|(t1 & Ht1 & H)];
      [now apply nzd_get in H|].
    apply get_lookup in Ht1. exists i, t1. split; [exact Ht1|].
    apply bind_Raise in H. destruct H as [H|(s & _ & H)]; [now left|].
    apply bind_Raise in H. destruct H as [H|(t2 & Ht2 & H)];
      [now apply nzd_get in H|].
    apply get_lookup in Ht2. assert (t2 = t1) by congruence. subst t2.
    right.
    apply bind_Raise in H. destruct H as [H|(r & Hr & H)]; [now left|].
    right. exists r. split; [exact Hr|].
    unfold py_div in H. destruct (Qeq_bool r 0) eqn:E; [|discriminate].
    now apply Qeq_bool_iff.
  - exfalso. revert H.
    apply nzd_bind; [|intros ms _].
    { apply nzd_mapM. intros i. apply nzd_bind; [apply nzd_get|].
      intros a _. apply nzd_Ok. }
    apply nzd_bind; [|intros ds _].
    { apply nzd_mapM. intros i.
      do 2 (apply nzd_bind; [apply nzd_get|intros ? ?]). apply nzd_Ok. }
    apply nzd_bind; [|intros ls _].
    { apply nzd_mapM. intros i. apply nzd_getitem. }
    apply nzd_bind; [|intros xs _].
    { apply nzd_mapM. intros i.
      do 2 (apply nzd_bind; [apply nzd_get|intros ? ?]). apply nzd_Ok. }
    apply nzd_bind; [apply nzd_assert|intros _ _]. apply nzd_Ok.
Qed.

(** C6, as the code has it.  The division by [total_rate] is skipped when
    [total_rate] or the effect value is zero, and the division by
    [min_absorption_rate] when that rate is not positive, both giving 0;
    neither ever faults.  The divisions by the maximum absorption time are
    not guarded: they raise when it is zero, and an entry gets a row only
    when its maximum absorption time and its carb sensitivity are not zero.
    When [map_] raises [ZeroDivisionError] and the schedule lookups did not
    raise it themselves, the zero divisor is a carb ratio, a carb
    sensitivity or a maximum absorption time. *)
Theorem map_division_guards :
  ((forall i t, starts !! i = Some t ->
      find s_starts s_ends s_values t <> Raise ZeroDivisionError /\
      find ratio_starts [] ratios t <> Raise ZeroDivisionError) ->
   map' = Raise ZeroDivisionError ->
   (exists i t r,
      starts !! i = Some t /\
      find ratio_starts [] ratios t = Ok r /\ r == 0) \/
   (exists env i c,
      build' = Ok env /\
      builder_carb_sensitivities env !! i = Some c /\ c == 0) \/
   (exists env i m,
      build' = Ok env /\
      builder_max_absorb_times env !! i = Some m /\ m == 0)) /\
  (forall A T E i a,
     map' = Ok (A, T, E) ->
     A !! i = Some a ->
     exists env m c,
       build' = Ok env /\
       builder_max_absorb_times env !! i = Some m /\ ~ m == 0 /\
       builder_carb_sensitivities env !! i = Some c /\ ~ c == 0) /\
  (forall env i total_rate effect_value,
     total_rate == 0 \/ effect_value == 0 ->
     offered_share env i total_rate effect_value = Ok 0) /\
  (forall grams clamped rate,
     rate <= 0 -> time_remaining grams clamped rate = Ok 0) /\
  (forall env i q m,
     carb_entry_quantities env !! i = Some q ->
     builder_max_absorb_times env !! i = Some m ->
     m == 0 ->
     absorption_rate env i = Raise ZeroDivisionError).
Proof.
  split; [|split; [|split; [|split]]].
  - intros Hfind H. unfold map', map_ in H.
    apply bind_Raise in H. destruct H as [H|([] & _ & H)].
    { exfalso. revert H. unfold check_shapes.
      do 3 (apply nzd_bind; [apply nzd_assert|intros _ _]).
      apply nzd_assert. }
    destruct (_ || _)%bool; [discriminate|].
    apply bind_Raise in H. destruct H as [H|([env st] & Hobs & H)].
    + unfold observe in H.
      apply bind_Raise in H. destruct H as [H|(env & Hb & H)].
      * left. destruct (build_zero_division H) as (i & t & Ht & Hcase).
        destruct (Hfind i t Ht) as [Hs Hr].
        destruct Hcase as [Hcase|[Hcase|(r & Hr' & H0)]];
          [contradiction|contradiction|].
        now exists i, t, r.
      * right.
        destruct (zero_or_nonzero (builder_carb_sensitivities env))
          as [Hc|(i & c & Hi & Hc)]; [|left; now exists env, i, c].
        destruct (zero_or_nonzero (builder_max_absorb_times env))
          as [Hm|(i & m & Hi & Hm)]; [|right; now exists env, i, m].
        exfalso. revert H.
        apply nzd_bind; [|intros st _; apply nzd_Ok].
        apply nzd_sweep. now split.
    + right.
      pose proof (observe_build _ _ _ _ _ _ _ _ _ _ _ _ _ _ _ _ _ Hobs)
        as Hb.
      destruct (zero_or_nonzero (builder_carb_sensitivities env))
        as [Hc|(i & c & Hi & Hc)]; [|left; now exists env, i, c].
      destruct (zero_or_nonzero (builder_max_absorb_times env))
        as [Hm|(i & m & Hi & Hm)]; [|right; now exists env, i, m].
      exfalso. revert H.
      apply nzd_bind; [apply nzd_collect; now split|].
      intros [[A T] E] _.
      apply nzd_bind; [apply nzd_assert|intros _ _]. apply nzd_Ok.
  - intros A T E i a Hmap Ha.
    destruct (map_inversion _ _ _ _ _ _ _ _ _ _ _ _ _ _ _ _ _ _ Hmap)
      as [(-> & _ & _)|(env & st & Hobs & HA & _ & _)]; [discriminate|].
    destruct (mapM_lookup _ _ _ _ _ HA Ha) as (j & Hj & Hres).
    apply lookup_seq in Hj. destruct Hj as [Hj _]. simpl in Hj. subst j.
    pose proof (observe_build _ _ _ _ _ _ _ _ _ _ _ _ _ _ _ _ _ Hobs) as Hb.
    unfold absorption_result in Hres.
    inv_bind_as Hres observed Hobserved.
    inv_bind_as Hres grams Hgrams.
    inv_bind_as Hres x_floor Hfloor.
    inv_bind_as Hres rate Hrate.
    destruct (absorption_rate_inversion _ _ _ Hrate)
      as (q & m & _ & Hm & Hnz & _).
    unfold observed_grams in Hobserved.
    inv_bind_as Hobserved effect Heffect.
    inv_bind_as Hobserved c Hc. apply get_lookup in Hc.
    apply py_div_inversion in Hobserved. destruct Hobserved as [Hcnz _].
    now exists env, m, c.
  - intros env i total_rate effect_value H.
    now apply offered_share_zero_rate.
  - apply time_remaining_zero.
  - apply absorption_rate_zero_time.
Qed.

End DivisionFaults.

(** C6, as stated, fails: an entry whose maximum absorption time is zero
    (overrun factor 0) makes [map_] raise [ZeroDivisionError]. *)
Lemma map_faults_on_zero_absorb_time :
  map_ rateAt [0] [20] [None] [0] [300] [5] [0] [10] [0] [86400] [50]
       0 180 10 = Raise ZeroDivisionError.
Proof. vm_compute. reflexivity. Qed.

(** The call above: the zero divisor is the maximum absorption time of the
    entry, 180 minutes times an overrun factor of 0. *)
Lemma map_division_guards_witness :
  exists env m,
    build rateAt [0] [20] [None] [300] [0] [10] [0] [86400] [50] 0 180 10
      = Ok env /\
    builder_max_absorb_times env !! 0%nat = Some m /\ m == 0.
Proof.
  destruct (map_division_guards rateAt [0] [20] [None] [0] [300] [5] [0]
              [10] [0] [86400] [50] 0 180 10) as [H _].
  destruct H as [(i & t & r & Ht & Hr & H0)
                |[(env & i & c & Hb & Hc & H0)|(env & i & m & Hb & Hm & H0)]].
  - intros [|i] t Ht; [|discriminate]. injection Ht as <-.
    split; discriminate.
  - vm_compute. reflexivity.
  - exfalso. destruct i as [|i]; [|discriminate]. injection Ht as <-.
    vm_compute in Hr. injection Hr as <-. discriminate H0.
  - exfalso. vm_compute in Hb. injection Hb as <-.
    destruct i as [|i]; [|discriminate]. injection Hc as <-.
    discriminate H0.
  - vm_compute in Hb. injection Hb as <-.
    destruct i as [|i]; [|discriminate]. injection Hm as <-.
    eexists _, _. split; [vm_compute; reflexivity|].
    split; [reflexivity|reflexivity].
Defined.

(** ** Empty effect timeline *)

Lemma bind_raises {A B : Type} (m : result A) (k : A -> result B) :
  (forall a, exists e, k a = Raise e) -> exists e, bind m k = Raise e.
Proof.
  intros H. destruct m as [a|e]; simpl; [apply H|now exists e].
Qed.

Lemma bind_raises_first {A B : Type} (m : result A) (k : A -> result B) :
  (exists e, m = Raise e) -> exists e, bind m k = Raise e.
Proof. intros [e ->]. now exists e. Qed.

(** Without carb entries [map_] returns three empty lists, whatever the
    effect timeline. *)
Lemma map_without_entries
    (find : list Q -> list Q -> list Q -> Q -> result Q)
    (e_starts e_ends e_values ratio_starts ratios : list Q)
    (s_starts s_ends s_values : list Q) (overrun default delay : Q) :
  length e_starts = length e_ends -> length e_ends = length e_values ->
  length ratio_starts = length ratios ->
  length s_starts = length s_ends -> length s_ends = length s_values ->
  map_ find [] [] [] e_starts e_ends e_values ratio_starts ratios
       s_starts s_ends s_values overrun default delay = Ok ([], [], []).
Proof.
  intros H1 H2 H3 H4 H5. unfold map_.
  now rewrite check_shapes_pass.
Qed.

(** C7.  With at least one carb entry and non-empty schedules, a call with
    an empty effect timeline does not return: [effect_ends[len(effect_ends)
    - 1]] is evaluated for every entry and raises on the empty list. *)
Theorem map_raises_on_empty_effects
    (find : list Q -> list Q -> list Q -> Q -> result Q)
    (starts quantities : list Q) (absorptions : list (option Q))
    (ratio_starts ratios s_starts s_ends s_values : list Q)
    (overrun default delay : Q) :
  starts <> [] -> ratios <> [] -> s_starts <> [] ->
  exists e,
    map_ find starts quantities absorptions [] [] [] ratio_starts ratios
         s_starts s_ends s_values overrun default delay = Raise e.
Proof.
  intros Hs Hr Hss. unfold map_.
  apply bind_raises. intros _.
  destruct starts as [|t starts']; [contradiction|].
  destruct ratios as [|r ratios']; [contradiction|].
  destruct s_starts as [|s s_starts']; [contradiction|].
  cbn [is_empty orb].
  apply bind_raises_first. unfold observe.
  apply bind_raises_first. unfold build.
  do 3 (apply bind_raises; intros ?).
  apply bind_raises_first.
  cbn [length seq mapM]. rewrite getitem_empty.
  now exists IndexError.
Qed.

Lemma map_raises_on_empty_effects_witness :
  map_ rateAt [0] [20] [None] [] [] [] [0] [10] [0] [86400] [50]
       1 180 10 = Raise IndexError.
Proof.
  destruct (map_raises_on_empty_effects rateAt [0] [20] [None] [0] [10]
              [0] [86400] [50] 1 180 10) as [e He];
    [discriminate|discriminate|discriminate|].
  rewrite He. f_equal. vm_compute in He. congruence.
Defined.

(** ** The window of [get_glucose_effects] *)

Lemma dose_start_date_walsh (dia start_date : Q) :
  dose_start_date [dia] start_date = Ok (start_date - 3600 * dia).
Proof. reflexivity. Qed.

Lemma dose_start_date_exponential (dia peak : Q) (rest : list Q)
    (start_date : Q) :
  dose_start_date (dia :: peak :: rest) start_date
  = Ok (start_date - 60 * dia).
Proof. reflexivity. Qed.

Lemma dose_start_date_inversion (insulin_model : list Q)
    (start_date dose_start : Q) :
  dose_start_date insulin_model start_date = Ok dose_start ->
  exists dia,
    head insulin_model = Some dia /\
    dose_start =
      if (length insulin_model =? 1)%nat
      then start_date - timedelta_hours dia
      else start_date - timedelta_minutes dia.
Proof.
  destruct insulin_model as [|dia [|peak rest]]; intros H.
  - discriminate.
  - injection H as <-. now exists dia.
  - injection H as <-. now exists dia.
Qed.

Lemma in_window_bounds (start_date : Q) (end_date : option Q) (t : Q) :
  in_window start_date end_date t = true ->
  start_date <= t /\ forall e, end_date = Some e -> t < e.
Proof.
  unfold in_window. intros H. apply andb_true_iff in H as [H1 H2].
  apply Qle_bool_iff in H1. split; [exact H1|].
  intros e ->. now apply Qltb_lt.
Qed.

Lemma filter_date_range_window (starts ends values : list Q)
    (start_date : Q) (end_date : option Q) (ts es vs : list Q) :
  filter_date_range starts ends values start_date end_date = Ok (ts, es, vs) ->
  Forall (fun t => start_date <= t /\ forall e, end_date = Some e -> t < e)
         ts.
Proof.
  unfold filter_date_range. intros H. injection H as <- _ _.
  apply Forall_forall. intros t Ht.
  apply list_elem_of_fmap in Ht. destruct Ht as ([t' v] & -> & Hp).
  apply list_elem_of_In, filter_In in Hp. destruct Hp as [_ Hp].
  now apply in_window_bounds.
Qed.

Section DoseStoreFacts.

Variable dose_type : Type.
Variable filter_date_range_for_doses :
  list dose_type -> list Q -> list Q -> list Q -> Q -> option Q ->
  result (list dose_type * list Q * list Q * list Q).
Variable reconciled :
  list dose_type -> list Q -> list Q -> list Q ->
  result (list dose_type * list Q * list Q * list Q).
Variable sort_dose_lists :
  list dose_type -> list Q -> list Q -> list Q ->
  result (list dose_type * list Q * list Q * list Q).
Variable annotated :
  list dose_type -> list Q -> list Q -> list Q ->
  list Q -> list Q -> list Q -> bool ->
  result (list dose_type * list Q * list Q * list Q * list Q).
Variable trim :
  dose_type -> Q -> Q -> Q -> Q -> Q -> result (dose_type * Q * Q * Q * Q).
Variable glucose_effects :
  list dose_type -> list Q -> list Q -> list Q -> list Q ->
  list Q -> list Q -> list Q -> list Q -> Q -> Q -> option Q ->
  result (list Q * list Q).

(** C9.  The window in which [get_glucose_effects] selects and trims doses
    starts [insulin_model[0]] hours before the requested start for a model
    of one parameter and [insulin_model[0]] minutes before it otherwise, and
    every date it returns is at or after the requested start and, when an
    end date is given, not after it. *)
Theorem glucose_effects_window
    (types : list dose_type) (starts ends values : list Q) (start_date : Q)
    (basal_starts basal_rates basal_minutes : list Q)
    (sensitivity_starts sensitivity_ends sensitivity_values : list Q)
    (insulin_model : list Q) (delay : Q) (end_date : option Q)
    (dates effects : list Q) :
  get_glucose_effects dose_type filter_date_range_for_doses reconciled
    sort_dose_lists annotated trim glucose_effects
    types starts ends values start_date
    basal_starts basal_rates basal_minutes
    sensitivity_starts sensitivity_ends sensitivity_values
    insulin_model delay end_date = Ok (dates, effects) ->
  (forall dia, insulin_model = [dia] ->
     dose_start_date insulin_model start_date
     = Ok (start_date - 3600 * dia)) /\
  (forall dia peak rest, insulin_model = dia :: peak :: rest ->
     dose_start_date insulin_model start_date
     = Ok (start_date - 60 * dia)) /\
  (exists dia dose_start filtered a_types a_starts a_ends a_values a_rates
          trimmed,
     head insulin_model = Some dia /\
     dose_start =
       (if (length insulin_model =? 1)%nat
        then start_date - timedelta_hours dia
        else start_date - timedelta_minutes dia) /\
     filter_date_range_for_doses types starts ends values dose_start
                                 end_date = Ok filtered /\
     foldM (trim_step dose_type trim a_types a_values a_rates dose_start)
           (a_starts, a_ends) (seq 0 (length a_types)) = Ok trimmed) /\
  Forall (fun d => start_date <= d /\ forall e, end_date = Some e -> d <= e)
         dates.
Proof.
  intros H.
  split; [intros dia ->; apply dose_start_date_walsh|].
  split; [intros dia peak rest ->; apply dose_start_date_exponential|].
  unfold get_glucose_effects in H.
  inv_bind_as H x_shape Hshape.
  inv_bind_as H x_start Hstart.
  inv_bind_as H x_filtered Hfiltered.
  destruct x_filtered as [[[f_types f_starts] f_ends] f_values].
  inv_bind_as H x_reconciled Hreconciled.
  destruct x_reconciled as [[[r_types r_starts] r_ends] r_values].
  inv_bind_as H x_sorted Hsorted.
  destruct x_sorted as [[[s_types s_starts] s_ends] s_values].
  inv_bind_as H x_annotated Hannotated.
  destruct x_annotated as [[[[a_types a_starts] a_ends] a_values] a_rates].
  inv_bind_as H x_trimmed Htrimmed.
  destruct x_trimmed as [t_starts t_ends].
  inv_bind_as H x_effect Heffect.
  inv_bind_as H x_out Hout.
  destruct x_out as [[o_starts o_ends] o_values].
  injection H as <- <-.
  destruct (dose_start_date_inversion _ _ _ Hstart) as (dia & Hdia & Heq).
  split.
  - exists dia, x_start, (f_types, f_starts, f_ends, f_values),
      a_types, a_starts, a_ends, a_values, a_rates, (t_starts, t_ends).
    now repeat split.
  - apply filter_date_range_window in Hout.
    eapply Forall_impl; [exact Hout|].
    intros d [Hd He]. split; [exact Hd|].
    intros e Hend. apply Qlt_le_weak. now apply He.
Qed.

End DoseStoreFacts.

(** A Walsh model of 6 hours and a window from 100000 s to 100200 s: doses
    are processed from 78400 s on, and of the three samples the model
    answers with only the one at 100000 s is returned. *)
Lemma glucose_effects_window_witness :
  get_glucose_effects unit Sample.filter_date_range_for_doses
    Sample.reconciled Sample.sort_dose_lists Sample.annotated Sample.trim
    Sample.glucose_effects
    [tt] [70000] [70300] [1] 100000 [0] [1] [1440] [0] [86400] [50]
    [6] 10 (Some 100200) = Ok ([100000], [2]) /\
  dose_start_date [6] 100000 = Ok (100000 - 3600 * 6) /\
  Forall (fun d => 100000 <= d /\
                   forall e, Some 100200 = Some e -> d <= e) [100000].
Proof.
  assert (H : get_glucose_effects unit Sample.filter_date_range_for_doses
    Sample.reconciled Sample.sort_dose_lists Sample.annotated Sample.trim
    Sample.glucose_effects
    [tt] [70000] [70300] [1] 100000 [0] [1] [1440] [0] [86400] [50]
    [6] 10 (Some 100200) = Ok ([100000], [2])) by (vm_compute; reflexivity).
  destruct (glucose_effects_window _ _ _ _ _ _ _ _ _ _ _ _ _ _ _ _ _ _ _ _
              _ _ _ H) as (Hw & _ & _ & Hall).
  split; [exact H|].
  split; [now apply Hw|exact Hall].
Defined.

(** * Further properties of the code *)

(** ** The linear model for every absorption time *)

Lemma linear_percent_full (t T : Q) :
  0 < t -> T <= t -> linear_percent_absorption_at_time t T = Ok 1.
Proof.
  intros H0 H. unfold linear_percent_absorption_at_time.
  assert (E1 : Qle_bool t 0 = false) by (apply Qle_bool_gt; lra).
  assert (E2 : Qltb t T = false) by (apply Qltb_ge; lra).
  now rewrite E1, E2.
Qed.

Lemma linear_percent_cases (t T : Q) :
  (t <= 0 /\ linear_percent_absorption_at_time t T = Ok 0) \/
  (0 < t /\ t < T /\ linear_percent_absorption_at_time t T = Ok (t / T)) \/
  (0 < t /\ T <= t /\ linear_percent_absorption_at_time t T = Ok 1).
Proof.
  destruct (Qlt_le_dec 0 t) as [H0|H0].
  - destruct (Qlt_le_dec t T) as [H1|H1].
    + right; left. repeat split; try assumption.
      now apply linear_percent_ramp.
    + right; right. repeat split; try assumption.
      now apply linear_percent_full.
  - left. split; [assumption|]. now apply linear_percent_before.
Qed.

Lemma Qdiv_unit_interval (t T : Q) : 0 < t -> t < T -> 0 <= t / T <= 1.
Proof.
  intros H0 H1. split.
  - apply Qle_shift_div_l; lra.
  - apply Qle_shift_div_r; lra.
Qed.

(** X1.  Whatever the absorption time, zero and negative ones included, the
    linear model never raises, its value lies between 0 and 1, and it does
    not decrease as time goes on. *)
Theorem linear_percent_bounded_monotone (T t1 t2 : Q) :
  t1 <= t2 ->
  exists p1 p2,
    linear_percent_absorption_at_time t1 T = Ok p1 /\
    linear_percent_absorption_at_time t2 T = Ok p2 /\
    0 <= p1 /\ p1 <= p2 /\ p2 <= 1.
Proof.
  intros H12.
  destruct (linear_percent_cases t1 T)
    as [(A1 & ->)|[(A1 & B1 & ->)|(A1 & B1 & ->)]];
  destruct (linear_percent_cases t2 T)
    as [(A2 & ->)|[(A2 & B2 & ->)|(A2 & B2 & ->)]];
  eexists _, _; (split; [reflexivity|]); (split; [reflexivity|]);
  try (exfalso; lra); try lra.
  - pose proof (Qdiv_unit_interval t2 T A2 B2). lra.
  - pose proof (Qdiv_unit_interval t1 T A1 B1) as [H H'].
    pose proof (Qdiv_unit_interval t2 T A2 B2) as [H2 H2'].
    repeat split; try assumption.
    destruct (Qeq_dec t1 t2) as [E|E].
    + rewrite E. lra.
    + apply Qlt_le_weak, Qdiv_lt_mono; lra.
  - pose proof (Qdiv_unit_interval t1 T A1 B1). lra.
Qed.

Lemma linear_percent_bounded_monotone_witness :
  exists p1 p2,
    linear_percent_absorption_at_time 5 0 = Ok p1 /\
    linear_percent_absorption_at_time 7 0 = Ok p2 /\
    0 <= p1 /\ p1 <= p2 /\ p2 <= 1.
Proof.
  apply linear_percent_bounded_monotone.
  apply Qle_bool_iff. reflexivity.
Defined.

(** X2.  For a non-negative total, the grams absorbed under the linear model
    never raise, lie between 0 and the total, and do not decrease as time
    goes on, whatever the absorption time. *)
Theorem linearly_absorbed_carbs_bounded_monotone (total T t1 t2 : Q) :
  0 <= total -> t1 <= t2 ->
  exists g1 g2,
    linearly_absorbed_carbs total t1 T = Ok g1 /\
    linearly_absorbed_carbs total t2 T = Ok g2 /\
    0 <= g1 /\ g1 <= g2 /\ g2 <= total.
Proof.
  intros Htotal H12. unfold linearly_absorbed_carbs.
  destruct (linear_percent_cases t1 T)
    as [(A1 & ->)|[(A1 & B1 & ->)|(A1 & B1 & ->)]];
  destruct (linear_percent_cases t2 T)
    as [(A2 & ->)|[(A2 & B2 & ->)|(A2 & B2 & ->)]];
  simpl; eexists _, _; (split; [reflexivity|]); (split; [reflexivity|]);
  try (exfalso; lra); try nra.
  - pose proof (Qdiv_unit_interval t2 T A2 B2). nra.
  - pose proof (Qdiv_unit_interval t1 T A1 B1) as [H H'].
    pose proof (Qdiv_unit_interval t2 T A2 B2) as [H2 H2'].
    assert (Hle : t1 / T <= t2 / T).
    { destruct (Qeq_dec t1 t2) as [E|E].
      - rewrite E. lra.
      - apply Qlt_le_weak, Qdiv_lt_mono; lra. }
    nra.
  - pose proof (Qdiv_unit_interval t1 T A1 B1). nra.
Qed.

Lemma linearly_absorbed_carbs_bounded_monotone_witness :
  exists g1 g2,
    linearly_absorbed_carbs 20 30 180 = Ok g1 /\
    linearly_absorbed_carbs 20 90 180 = Ok g2 /\
    0 <= g1 /\ g1 <= g2 /\ g2 <= 20.
Proof.
  apply linearly_absorbed_carbs_bounded_monotone;
    apply Qle_bool_iff; reflexivity.
Defined.

(** ** Shapes, early return and rows of [map_] *)

Section MapRows.

Variable find : list Q -> list Q -> list Q -> Q -> result Q.
Variables starts quantities : list Q.
Variable absorptions : list (option Q).
Variables e_starts e_ends e_values : list Q.
Variables ratio_starts ratios : list Q.
Variables s_starts s_ends s_values : list Q.
Variables overrun default delay : Q.

Let build' : result builders :=
  build find starts quantities absorptions e_ends ratio_starts ratios
        s_starts s_ends s_values overrun default delay.

Let map' :=
  map_ find starts quantities absorptions e_starts e_ends e_values
       ratio_starts ratios s_starts s_ends s_values overrun default delay.

Lemma build_sensitivity (env : builders) (i : nat) (c : Q) :
  build' = Ok env ->
  builder_carb_sensitivities env !! i = Some c ->
  exists t s r,
    starts !! i = Some t /\
    find s_starts s_ends s_values t = Ok s /\
    find ratio_starts [] ratios t = Ok r /\
    ~ r == 0 /\ c = s / r.
Proof.
  unfold build', build. intros H Hi. do 6 inv_bind H.
  injection H as <-. simpl in Hi.
  destruct (mapM_lookup _ _ _ _ _ E Hi) as (j & Hj & Hf).
  apply lookup_seq in Hj. destruct Hj as [-> _]. simpl in Hf.
  inv_bind_as Hf x_t1 Ht1. inv_bind_as Hf x_s Hs.
  inv_bind_as Hf x_t2 Ht2. inv_bind_as Hf x_r Hr.
  apply py_div_inversion in Hf. destruct Hf as [Hnz ->].
  assert (x_t2 = x_t1) by congruence. subst x_t2.
  apply get_lookup in Ht1. now exists x_t1, x_s, x_r.
Qed.

Lemma build_max_end_date (env : builders) (i : nat) (d : Q) :
  build' = Ok env ->
  builder_max_end_dates env !! i = Some d ->
  exists t m,
    starts !! i = Some t /\
    builder_max_absorb_times env !! i = Some m /\
    d = t + timedelta_minutes (m + delay).
Proof.
  unfold build', build. intros H Hi. do 6 inv_bind H.
  injection H as <-. simpl in *.
  destruct (mapM_lookup _ _ _ _ _ E1 Hi) as (j & Hj & Hf).
  apply lookup_seq in Hj. destruct Hj as [-> _]. simpl in Hf.
  inv_bind_as Hf x_t Ht. inv_bind_as Hf x_m Hm. injection Hf as <-.
  apply get_lookup in Ht, Hm. now exists x_t, x_m.
Qed.

Lemma build_entry_effect (env : builders) (i : nat) (x : Q) :
  build' = Ok env ->
  entry_effects env !! i = Some x ->
  exists q c,
    quantities !! i = Some q /\
    builder_carb_sensitivities env !! i = Some c /\
    x = q * c.
Proof.
  unfold build', build. intros H Hi. do 6 inv_bind H.
  injection H as <-. simpl in *.
  destruct (mapM_lookup _ _ _ _ _ E3 Hi) as (j & Hj & Hf).
  apply lookup_seq in Hj. destruct Hj as [-> _]. simpl in Hf.
  inv_bind_as Hf x_q Hq. inv_bind_as Hf x_c Hc. injection Hf as <-.
  apply get_lookup in Hq, Hc. now exists x_q, x_c.
Qed.

(** The rows at one index of a call that returned. *)
Lemma map_rows (A : list absorption) (T : list (option timeline))
    (E : list entry_property) (i : nat) :
  map' = Ok (A, T, E) ->
  (i < length A)%nat ->
  exists env st a t e,
    build' = Ok env /\
    sweep env e_starts e_ends e_values (initial_observations starts)
      = Ok st /\
    A !! i = Some a /\ T !! i = Some t /\ E !! i = Some e /\
    absorption_result env delay st i = Ok a /\
    clamped_timeline env delay st i = Ok t /\
    entry_properties env i = Ok e.
Proof.
  intros H Hi.
  destruct (map_inversion _ _ _ _ _ _ _ _ _ _ _ _ _ _ _ _ _ _ H)
    as [(-> & _ & _)|(env & st & Hobs & HA & HT & HE)];
    [simpl in Hi; lia|].
  pose proof (mapM_length _ _ _ HA) as LA.
  pose proof (mapM_length _ _ _ HT) as LT.
  pose proof (mapM_length _ _ _ HE) as LE.
  destruct (lookup_lt_is_Some_2 A i Hi) as [a Ha].
  destruct (lookup_lt_is_Some_2 T i) as [t Ht]; [lia|].
  destruct (lookup_lt_is_Some_2 E i) as [e He]; [lia|].
  destruct (mapM_lookup _ _ _ _ _ HA Ha) as (j & Hj & Hra).
  apply lookup_seq in Hj. destruct Hj as [Hj _]. simpl in Hj. subst j.
  destruct (mapM_lookup _ _ _ _ _ HT Ht) as (j & Hj & Hrt).
  apply lookup_seq in Hj. destruct Hj as [Hj _]. simpl in Hj. subst j.
  destruct (mapM_lookup _ _ _ _ _ HE He) as (j & Hj & Hre).
  apply lookup_seq in Hj. destruct Hj as [Hj _]. simpl in Hj. subst j.
  exists env, st, a, t, e.
  unfold observe in Hobs. inv_bind_as Hobs x_env Henv.
  inv_bind_as Hobs x_st Hst. injection Hobs as <- <-.
  now repeat split.
Qed.

(** X3.  A call whose parallel lists differ in length is rejected with
    [AssertionError], whatever the other arguments. *)
Theorem map_rejects_mismatched_shapes :
  length starts <> length quantities \/
  length quantities <> length absorptions \/
  length e_starts <> length e_ends \/
  length e_ends <> length e_values \/
  length ratio_starts <> length ratios \/
  length s_starts <> length s_ends \/
  length s_ends <> length s_values ->
  map' = Raise AssertionError.
Proof.
  intros H. unfold map', map_, check_shapes.
  destruct (Nat.eqb_spec (length starts) (length quantities));
    [|reflexivity].
  destruct (Nat.eqb_spec (length quantities) (length absorptions));
    [|reflexivity].
  destruct (Nat.eqb_spec (length e_starts) (length e_ends)); [|reflexivity].
  destruct (Nat.eqb_spec (length e_ends) (length e_values)); [|reflexivity].
  destruct (Nat.eqb_spec (length ratio_starts) (length ratios));
    [|reflexivity].
  destruct (Nat.eqb_spec (length s_starts) (length s_ends)); [|reflexivity].
  destruct (Nat.eqb_spec (length s_ends) (length s_values)); [|reflexivity].
  exfalso. intuition.
Qed.

(** X4.  With matching shapes, a call without carb entries, without carb
    ratios or without sensitivities returns three empty lists; neither the
    schedule lookup nor the effect timeline is consulted, so the result is
    empty even when there are carb entries. *)
Theorem map_returns_empty_without_schedules :
  length starts = length quantities ->
  length quantities = length absorptions ->
  length e_starts = length e_ends ->
  length e_ends = length e_values ->
  length ratio_starts = length ratios ->
  length s_starts = length s_ends ->
  length s_ends = length s_values ->
  starts = [] \/ ratios = [] \/ s_starts = [] ->
  map' = Ok ([], [], []).
Proof.
  intros H1 H2 H3 H4 H5 H6 H7 Hempty. unfold map', map_.
  rewrite check_shapes_pass by assumption. simpl.
  destruct Hempty as [-> | [-> | ->]]; simpl.
  - reflexivity.
  - now rewrite orb_true_r.
  - now rewrite orb_true_r.
Qed.

(** X5.  The three lists a call returns have the same length; it is the
    number of carb entries when both schedules are non-empty. *)
Theorem map_output_lengths (A : list absorption)
    (T : list (option timeline)) (E : list entry_property) :
  map' = Ok (A, T, E) ->
  length A = length T /\ length T = length E /\
  (ratios <> [] -> s_starts <> [] -> length A = length starts).
Proof.
  intros H. unfold map', map_ in H. inv_bind_as H x_u Hu.
  destruct (is_empty starts || is_empty ratios || is_empty s_starts)%bool
    eqn:Hempty.
  - injection H as <- <- <-. repeat split. intros Hr Hs.
    destruct starts as [|t starts']; [reflexivity|].
    destruct ratios as [|r ratios']; [contradiction|].
    destruct s_starts as [|s s_starts']; [contradiction|].
    discriminate Hempty.
  - inv_bind_as H x_obs Hobs. destruct x_obs as [env st].
    inv_bind_as H x_out Hout. destruct x_out as [[A' T'] E'].
    inv_bind_as H x_a Hassert. injection H as <- <- <-.
    unfold collect in Hout. apply collect_as_comprehensions in Hout.
    destruct Hout as (As & Ts & Es & -> & -> & -> & HA & HT & HE).
    apply mapM_length in HA, HT, HE.
    unfold builder_entry_indexes in HA, HT, HE.
    rewrite length_seq in HA, HT, HE.
    destruct (build_inputs _ _ _ _ _ _ _ _ _ _ _ _ _ _
                (observe_build _ _ _ _ _ _ _ _ _ _ _ _ _ _ _ _ _ Hobs))
      as [Hs' _].
    rewrite Hs' in HA, HT, HE. simpl. repeat split; lia.
Qed.

(** X6.  Each row of the returned carb entries holds the values derived for
    that entry: the carb sensitivity is the looked-up sensitivity divided by
    the looked-up carb ratio, the maximum absorption time is the entry's
    absorption time (the default when it is unset or zero) times the
    overrun factor, the maximum end date is the entry start plus that time
    and the delay in minutes, the last effect date is the end of the last
    effect sample, and the expected effect is the quantity times the carb
    sensitivity. *)
Theorem map_entry_row (A : list absorption) (T : list (option timeline))
    (E : list entry_property) (i : nat) (e : entry_property) :
  map' = Ok (A, T, E) ->
  E !! i = Some e ->
  exists t q ab s r,
    starts !! i = Some t /\
    quantities !! i = Some q /\
    absorptions !! i = Some ab /\
    find s_starts s_ends s_values t = Ok s /\
    find ratio_starts [] ratios t = Ok r /\
    ~ r == 0 /\
    carb_sensitivity e = s / r /\
    max_absorb_time e = py_or ab default * overrun /\
    max_end_date e = t + 60 * (max_absorb_time e + delay) /\
    last e_ends = Some (last_effect_date e) /\
    entry_effect_expected e = q * carb_sensitivity e.
Proof.
  intros H He.
  destruct (map_inversion _ _ _ _ _ _ _ _ _ _ _ _ _ _ _ _ _ _ H)
    as [(_ & _ & ->)|(env & st & Hobs & _ & _ & HE)]; [discriminate|].
  destruct (mapM_lookup _ _ _ _ _ HE He) as (j & Hj & Hrow).
  apply lookup_seq in Hj. destruct Hj as [Hj _]. simpl in Hj. subst j.
  pose proof (observe_build _ _ _ _ _ _ _ _ _ _ _ _ _ _ _ _ _ Hobs) as Hb.
  unfold entry_properties in Hrow.
  inv_bind_as Hrow x_c Hc. inv_bind_as Hrow x_m Hm.
  inv_bind_as Hrow x_d Hd. inv_bind_as Hrow x_l Hl.
  inv_bind_as Hrow x_x Hx. injection Hrow as <-. simpl.
  apply get_lookup in Hc, Hm, Hd, Hl, Hx.
  destruct (build_sensitivity env i x_c Hb Hc)
    as (t & s & r & Ht & Hs & Hr & Hnz & ->).
  destruct (build_max_absorb_time _ _ _ _ _ _ _ _ _ _ _ _ _ _ _ _ Hb Hm)
    as (ab & Hab & ->).
  destruct (build_max_end_date env i x_d Hb Hd) as (t' & m' & Ht' & Hm' & ->).
  destruct (build_entry_effect env i x_x Hb Hx) as (q & c' & Hq & Hc' & ->).
  assert (t' = t) by congruence. subst t'.
  assert (m' = py_or ab default * overrun) by congruence. subst m'.
  assert (c' = s / r) by congruence. subst c'.
  exists t, q, ab, s, r.
  repeat (split; [first [assumption|reflexivity]|]).
  split; [|reflexivity].
  apply getitem_last.
  eapply build_last_effect_date; [exact Hb|exact Hl].
Qed.

End MapRows.

Lemma map_rejects_mismatched_shapes_witness :
  map_ rateAt [0] [] [None] [0] [300] [5] [0] [10] [0] [86400] [50]
       1 180 10 = Raise AssertionError.
Proof.
  apply map_rejects_mismatched_shapes. left. simpl. lia.
Defined.

(** A carb entry but no carb ratios, and a lookup that always fails. *)
Lemma map_returns_empty_without_schedules_witness :
  map_ (fun _ _ _ _ => Raise LookupError) [0] [20] [None] [0] [300] [5]
       [] [] [0] [86400] [50] 1 180 10 = Ok ([], [], []).
Proof.
  apply map_returns_empty_without_schedules; try reflexivity.
  right. left. reflexivity.
Defined.

Lemma map_output_lengths_witness :
  exists A T E,
    map_ rateAt [0; 1800] [20; 30] [None; None] [1800] [2100] [10]
         [0] [10] [0] [86400] [50] 1 180 10 = Ok (A, T, E) /\
    length A = 2%nat /\ length T = 2%nat /\ length E = 2%nat.
Proof.
  eassert (Hmap : map_ rateAt [0; 1800] [20; 30] [None; None] [1800] [2100]
                       [10] [0] [10] [0] [86400] [50] 1 180 10
                  = Ok (_, _, _))
    by (vm_compute; reflexivity).
  epose proof (map_output_lengths _ _ _ _ _ _ _ _ _ _ _ _ _ _ _ _ _ _ Hmap)
    as (H1 & H2 & H3).
  eexists _, _, _. split; [exact Hmap|].
  specialize (H3 ltac:(discriminate) ltac:(discriminate)).
  simpl in H3. repeat split; congruence.
Defined.

Lemma map_entry_row_witness :
  exists A T E e,
    map_ rateAt [0] [20] [None] [0] [300] [5] [0] [10] [0] [86400] [50]
         1 180 10 = Ok (A, T, E) /\
    E !! 0%nat = Some e /\
    carb_sensitivity e = 50 / 10 /\
    max_absorb_time e = 180 * 1 /\
    entry_effect_expected e = 20 * carb_sensitivity e.
Proof.
  eassert (Hmap : map_ rateAt [0] [20] [None] [0] [300] [5] [0] [10] [0]
                       [86400] [50] 1 180 10 = Ok (_, _, _))
    by (vm_compute; reflexivity).
  epose proof (map_entry_row _ _ _ _ _ _ _ _ _ _ _ _ _ _ _ _ _ _ 0%nat _
                 Hmap eq_refl) as H.
  destruct H as (t & q & ab & s & r & Ht & Hq & Hab & Hs & Hr & _ & H1 & H2
                 & _ & _ & H3).
  injection Ht as <-. injection Hq as <-. injection Hab as <-.
  injection Hs as <-. injection Hr as <-.
  eexists _, _, _, _. split; [exact Hmap|].
  split; [reflexivity|].
  split; [exact H1|]. split; [exact H2|exact H3].
Defined.

(** ** The estimated time remaining *)

Lemma absorption_result_parts (env : builders) (delay : Q)
    (st : observations) (i : nat) (a : absorption) :
  absorption_result env delay st i = Ok a ->
  exists observed q lower rate,
    observed_grams env st i = Ok observed /\
    carb_entry_quantities env !! i = Some q /\
    min_predicted_grams env delay q i = Ok lower /\
    absorption_rate env i = Ok rate /\
    time_remaining q (py_min q (py_max lower observed)) rate
      = Ok (estimated_time_remaining a) /\
    clamped_grams a = py_min q (py_max lower observed) /\
    total_carbs a = q /\
    remaining_carbs a = q - clamped_grams a.
Proof.
  unfold absorption_result. intros H.
  inv_bind_as H x_o Ho. inv_bind_as H x_q Hq. inv_bind_as H x_l Hl.
  inv_bind_as H x_r Hr. inv_bind_as H x_e He. inv_bind_as H x_s Hs.
  inv_bind_as H x_c Hc. inv_bind_as H x_d Hd. injection H as <-. simpl.
  apply get_lookup in Hq. exists x_o, x_q, x_l, x_r. now repeat split.
Qed.

Lemma time_remaining_sign (q clamped rate est : Q) :
  clamped <= q ->
  time_remaining q clamped rate = Ok est ->
  0 <= est /\ (q - clamped == 0 -> est == 0).
Proof.
  intros Hcq H. unfold time_remaining in H.
  destruct (Qltb 0 rate) eqn:Hrate.
  - apply Qltb_lt in Hrate.
    apply py_div_inversion in H. destruct H as [_ ->].
    split; [apply Qle_shift_div_l; lra|].
    intros Heq. unfold Qdiv. rewrite Heq. ring.
  - injection H as <-. split; [lra|reflexivity].
Qed.

Section TimeRemaining.

Variable find : list Q -> list Q -> list Q -> Q -> result Q.
Variables starts quantities : list Q.
Variable absorptions : list (option Q).
Variables e_starts e_ends e_values : list Q.
Variables ratio_starts ratios : list Q.
Variables s_starts s_ends s_values : list Q.
Variables overrun default delay : Q.

(** X7.  The estimated time remaining of an entry is never negative,
    whatever the signs of the inputs, and it is 0 when no grams remain. *)
Theorem estimated_time_remaining_nonnegative (A : list absorption)
    (T : list (option timeline)) (E : list entry_property)
    (i : nat) (a : absorption) :
  map_ find starts quantities absorptions e_starts e_ends e_values
       ratio_starts ratios s_starts s_ends s_values overrun default delay
  = Ok (A, T, E) ->
  A !! i = Some a ->
  0 <= estimated_time_remaining a /\
  (remaining_carbs a == 0 -> estimated_time_remaining a == 0).
Proof.
  intros Hmap Ha.
  destruct (map_rows _ _ _ _ _ _ _ _ _ _ _ _ _ _ _ _ _ _ i Hmap)
    as (env & st & a' & t & e & Hb & _ & Ha' & _ & _ & Hres & _);
    [now apply lookup_lt_Some in Ha|].
  assert (a' = a) by congruence. subst a'.
  destruct (absorption_result_parts _ _ _ _ _ Hres)
    as (observed & q & lower & rate & _ & _ & _ & _ & Hest & Hclamped & _
        & Hremaining).
  rewrite Hremaining, Hclamped.
  apply (time_remaining_sign q _ rate _ (py_min_le_l q _) Hest).
Qed.

End TimeRemaining.

(** Two entries of 20 g at time 0 and one sample [0, 300) of 5 mg/dL. *)
Lemma estimated_time_remaining_nonnegative_witness :
  exists A T E a,
    map_ rateAt [0; 0] [20; 20] [None; None] [0] [300] [5] [0] [10] [0]
         [86400] [50] 1 180 10 = Ok (A, T, E) /\
    A !! 1%nat = Some a /\
    0 <= estimated_time_remaining a.
Proof.
  eassert (Hmap : map_ rateAt [0; 0] [20; 20] [None; None] [0] [300] [5]
                       [0] [10] [0] [86400] [50] 1 180 10 = Ok (_, _, _))
    by (vm_compute; reflexivity).
  epose proof (estimated_time_remaining_nonnegative _ _ _ _ _ _ _ _ _ _ _ _
                 _ _ _ _ _ _ 1%nat _ Hmap eq_refl) as [H0 _].
  eexists _, _, _, _. split; [exact Hmap|].
  split; [reflexivity|exact H0].
Defined.

(** ** The active entries *)

Lemma foldM_preserves {A B : Type} (P : A -> Prop)
    (f : A -> B -> result A) (xs : list B) :
  (forall a x a', x ∈ xs -> P a -> f a x = Ok a' -> P a') ->
  forall acc r, P acc -> foldM f acc xs = Ok r -> P r.
Proof.
  induction xs as [|x xs IH]; simpl; intros Hstep acc r Hacc H.
  - now injection H as <-.
  - inv_bind_as H x_a Ha.
    apply (IH (fun a y a' Hy => Hstep a y a' (list_elem_of_further _ _ _ Hy))
              x_a r); [|exact H].
    apply (Hstep acc x x_a); [constructor|exact Hacc|exact Ha].
Qed.

Lemma select_active_filter (env : builders) (effect_start : Q)
    (indexes active result : list nat) :
  foldM (select_active env effect_start) active indexes = Ok result ->
  result = active ++ List.filter (is_active env effect_start) indexes.
Proof.
  revert active. induction indexes as [|j indexes IH]; simpl;
    intros active H.
  - injection H as <-. now rewrite app_nil_r.
  - inv_bind_as H x_a Ha. apply IH in H. subst result.
    unfold select_active in Ha. unfold is_active.
    inv_bind_as Ha x_m Hm. apply get_lookup in Hm. rewrite Hm.
    destruct (Qltb effect_start x_m).
    + inv_bind_as Ha x_t Ht. apply get_lookup in Ht. rewrite Ht. simpl.
      destruct (Qle_bool x_t effect_start); injection Ha as <-.
      * now rewrite <- app_assoc.
      * reflexivity.
    + injection Ha as <-. simpl.
      now destruct (carb_entry_starts env !! j).
Qed.

Lemma is_active_iff (env : builders) (effect_start : Q) (j : nat) :
  is_active env effect_start j = true <->
  exists t m,
    carb_entry_starts env !! j = Some t /\
    builder_max_end_dates env !! j = Some m /\
    t <= effect_start /\ effect_start < m.
Proof.
  unfold is_active. split.
  - destruct (builder_max_end_dates env !! j) as [m|]; [|discriminate].
    destruct (carb_entry_starts env !! j) as [t|]; [|discriminate].
    intros H. apply andb_true_iff in H as [H1 H2].
    apply Qltb_lt in H1. apply Qle_bool_iff in H2. now exists t, m.
  - intros (t & m & -> & -> & H1 & H2).
    apply Qltb_lt in H2. apply Qle_bool_iff in H1. now rewrite H1, H2.
Qed.

(** X8.  The active entries of a sample are the entry indexes, in input
    order, whose start is at or before the start of the sample and whose
    maximum end date is after it. *)
Theorem active_builders_characterised (env : builders) (effect_start : Q)
    (active : list nat) :
  active_builders env effect_start = Ok active ->
  active = List.filter (is_active env effect_start)
                       (seq 0 (length (carb_entry_starts env))) /\
  forall j,
    j ∈ active <->
    exists t m,
      carb_entry_starts env !! j = Some t /\
      builder_max_end_dates env !! j = Some m /\
      t <= effect_start /\ effect_start < m.
Proof.
  intros H. unfold active_builders, builder_entry_indexes in H.
  apply select_active_filter in H. simpl in H. split; [exact H|].
  intros j. rewrite H, list_elem_of_In, filter_In, is_active_iff.
  split; [tauto|].
  intros (t & m & Ht & Hm & Hrest). split; [|now exists t, m].
  apply in_seq. apply lookup_lt_Some in Ht. lia.
Qed.

Lemma active_builders_characterised_witness :
  exists active,
    active_builders
      (Build_builders [0; 1800; 7200] [20; 30; 10] [5; 5; 5]
         [1; 180; 180] [660; 13200; 18600] [2100; 2100; 2100]
         [100; 150; 50]) 1800 = Ok active /\
    1%nat ∈ active /\ ~ 0%nat ∈ active /\ ~ 2%nat ∈ active.
Proof.
  eassert (H : active_builders
      (Build_builders [0; 1800; 7200] [20; 30; 10] [5; 5; 5]
         [1; 180; 180] [660; 13200; 18600] [2100; 2100; 2100]
         [100; 150; 50]) 1800 = Ok _) by (vm_compute; reflexivity).
  destruct (active_builders_characterised _ _ _ H) as [_ Hiff].
  eexists. split; [exact H|].
  split; [|split].
  - apply Hiff. exists 1800, 13200. repeat split; try reflexivity.
    apply Qle_bool_iff. reflexivity.
  - intros Hin. apply Hiff in Hin.
    destruct Hin as (t & m & _ & Hm & _ & Hlt).
    injection Hm as <-. discriminate Hlt.
  - intros Hin. apply Hiff in Hin.
    destruct Hin as (t & m & Ht & _ & Hle & _).
    injection Ht as <-. apply Hle. reflexivity.
Defined.

(** ** What one call of [add_next_effect] changes *)

(** The three ways a call returns: the sample is skipped; the entry is
    complete and only its accumulated effect grows; or the sample is also
    recorded in the timeline of the entry. *)
Lemma add_next_effect_cases (env : builders) (i : nat) (effect s e : Q)
    (st st' : observations) :
  add_next_effect env i effect s e st = Ok st' ->
  (exists t, carb_entry_starts env !! i = Some t /\ t < s /\ st' = st) \/
  (exists t o d,
     carb_entry_starts env !! i = Some t /\ s <= t /\
     observed_effects st !! i = Some o /\
     observed_completion_dates st !! i = Some (Some d) /\
     st' = {| observed_effects := <[i := o + effect]> (observed_effects st);
              observed_completion_dates := observed_completion_dates st;
              observed_timeline_starts := observed_timeline_starts st;
              observed_timeline_ends := observed_timeline_ends st;
              observed_timeline_carb_values :=
                observed_timeline_carb_values st |}) \/
  (exists t o ts te tv c x,
     carb_entry_starts env !! i = Some t /\ s <= t /\
     observed_effects st !! i = Some o /\
     observed_completion_dates st !! i = Some None /\
     observed_timeline_starts st !! i = Some ts /\
     observed_timeline_ends st !! i = Some te /\
     observed_timeline_carb_values st !! i = Some tv /\
     builder_carb_sensitivities env !! i = Some c /\ ~ c == 0 /\
     entry_effects env !! i = Some x /\
     st' = {| observed_effects := <[i := o + effect]> (observed_effects st);
              observed_completion_dates :=
                if Qle_bool x (o + effect)
                then <[i := Some e]> (observed_completion_dates st)
                else observed_completion_dates st;
              observed_timeline_starts :=
                <[i := ts ++ [s]]> (observed_timeline_starts st);
              observed_timeline_ends :=
                <[i := te ++ [e]]> (observed_timeline_ends st);
              observed_timeline_carb_values :=
                <[i := tv ++ [effect / c]]>
                  (observed_timeline_carb_values st) |}).
Proof.
  unfold add_next_effect. intros H.
  inv_bind_as H x_t Ht. apply get_lookup in Ht.
  destruct (Qltb x_t s) eqn:Hguard.
  { left. apply Qltb_lt in Hguard. injection H as <-. now exists x_t. }
  apply Qltb_ge in Hguard. right.
  inv_bind_as H x_o Ho. inv_bind_as H x_c Hc. apply get_lookup in Ho, Hc.
  destruct x_c as [d|].
  { left. injection H as <-. now exists x_t, x_o, d. }
  right.
  inv_bind_as H x_ts Hts. inv_bind_as H x_te Hte. inv_bind_as H x_tv Htv.
  inv_bind_as H x_s Hs. inv_bind_as H x_g Hg. inv_bind_as H x_x Hx.
  apply get_lookup in Hts, Hte, Htv, Hs, Hx.
  apply py_div_inversion in Hg. destruct Hg as [Hnz ->].
  injection H as <-.
  exists x_t, x_o, x_ts, x_te, x_tv, x_s, x_x. now repeat split.
Qed.

(** A call for entry [i] leaves the slot of every other entry as it is,
    and the slot of entry [i] too when the entry starts before the
    sample. *)
Lemma add_next_effect_frame (env : builders) (i j : nat) (effect s e : Q)
    (st st' : observations) :
  add_next_effect env i effect s e st = Ok st' ->
  i <> j \/ (exists t, carb_entry_starts env !! j = Some t /\ t < s) ->
  slot st' j = slot st j.
Proof.
  intros H Hj.
  destruct (add_next_effect_cases _ _ _ _ _ _ _ H)
    as [(t & Ht & Hlt & ->)
       |[(t & o & d & Ht & Hle & Ho & Hc & ->)
        |(t & o & ts & te & tv & c & x & Ht & Hle & Ho & Hc & Hts & Hte
          & Htv & Hs & Hnz & Hx & ->)]];
    [reflexivity| |].
  - destruct Hj as [Hne|(t' & Ht' & Hlt)].
    + unfold slot. simpl. now rewrite list_lookup_insert_ne.
    + destruct (Nat.eq_dec i j) as [->|Hne].
      * assert (t' = t) by congruence. subst t'. lra.
      * unfold slot. simpl. now rewrite list_lookup_insert_ne.
  - assert (Hne : i <> j).
    { destruct Hj as [Hne|(t' & Ht' & Hlt)]; [exact Hne|].
      intros ->. assert (t' = t) by congruence. subst t'. lra. }
    unfold slot. simpl.
    rewrite !list_lookup_insert_ne by exact Hne.
    destruct (Qle_bool x (o + effect));
      now rewrite ?list_lookup_insert_ne by exact Hne.
Qed.

(** ** From one call to the whole sweep *)

Lemma apportion_calls (env : builders) (k : nat) (s e : Q)
    (acc acc' : Q * Q * observations) (b : nat) :
  apportion env k s e acc b = Ok acc' ->
  exists amount st1,
    add_next_effect env b amount s e (snd acc) = Ok st1 /\
    (snd acc' = st1 \/
     exists amount', add_next_effect env b amount' s e st1 = Ok (snd acc')).
Proof.
  destruct acc as [[total_rate effect_value] st]. unfold apportion.
  intros H. inv_bind_as H x_q Hq. inv_bind_as H x_c Hc.
  inv_bind_as H x_share Hshare. inv_bind_as H x_rate Hrate.
  inv_bind_as H x_st Hst.
  eexists _, x_st. split; [exact Hst|].
  destruct (_ && _)%bool.
  - inv_bind_as H x_st' Hst'. injection H as <-. right.
    eexists. exact Hst'.
  - injection H as <-. now left.
Qed.

Section SweepPreserves.

Variable env : builders.
Variables e_starts e_ends e_values : list Q.
Variable P : observations -> Prop.

(** [P] survives a sample when it survives every call made for it: a call
    for an active entry of a sample that ends after it starts. *)
Lemma sweep_sample_preserves (st st' : observations) (index : nat) :
  (forall s e active b amount x x',
     e_starts !! index = Some s ->
     e_ends !! index = Some e ->
     s < e ->
     active_builders env s = Ok active ->
     b ∈ active ->
     P x ->
     add_next_effect env b amount s e x = Ok x' ->
     P x') ->
  P st ->
  sweep_sample env e_starts e_ends e_values st index = Ok st' ->
  P st'.
Proof.
  intros Hcall HP H. unfold sweep_sample in H.
  inv_bind_as H x_s Hs. inv_bind_as H x_e He. apply get_lookup in Hs, He.
  destruct (Qle_bool x_e x_s) eqn:Hcmp.
  { now injection H as <-. }
  apply Qle_bool_gt in Hcmp.
  inv_bind_as H x_active Hactive. inv_bind_as H x_v Hv.
  inv_bind_as H x_rate Hrate. inv_bind_as H x_acc Hacc.
  injection H as <-.
  apply (foldM_preserves (fun acc : Q * Q * observations => P (snd acc))
           (apportion env (length x_active) x_s x_e) x_active)
    with (acc := (x_rate, py_max 0 x_v, st)); [|exact HP|exact Hacc].
  intros a b a' Hb Ha Hstep.
  destruct (apportion_calls _ _ _ _ _ _ _ Hstep)
    as (amount & st1 & H1 & [->|(amount' & H2)]).
  - eapply Hcall; eauto.
  - assert (HP1 : P st1) by (eapply Hcall; eauto).
    eapply (Hcall x_s x_e x_active b amount' st1); eauto.
Qed.

Lemma sweep_samples_preserve (indexes : list nat) (st st' : observations) :
  (forall index, index ∈ indexes ->
   forall s e active b amount x x',
     e_starts !! index = Some s ->
     e_ends !! index = Some e ->
     s < e ->
     active_builders env s = Ok active ->
     b ∈ active ->
     P x ->
     add_next_effect env b amount s e x = Ok x' ->
     P x') ->
  P st ->
  foldM (sweep_sample env e_starts e_ends e_values) st indexes = Ok st' ->
  P st'.
Proof.
  intros Hcall HP. apply foldM_preserves with (P := P); [|exact HP].
  intros a index a' Hin Ha. apply sweep_sample_preserves; [|exact Ha].
  now apply Hcall.
Qed.

End SweepPreserves.

Lemma active_member (env : builders) (s : Q) (active : list nat) (b : nat) :
  active_builders env s = Ok active -> b ∈ active ->
  is_active env s b = true.
Proof.
  intros H Hb. unfold active_builders in H.
  apply select_active_filter in H. simpl in H. subst active.
  apply list_elem_of_In, filter_In in Hb. tauto.
Qed.

(** X9.  A sample changes nothing in the accumulators of an entry that is
    not active at the start of the sample. *)
Theorem sweep_sample_leaves_inactive_entries (env : builders)
    (e_starts e_ends e_values : list Q) (st st' : observations)
    (index : nat) (s : Q) (j : nat) :
  sweep_sample env e_starts e_ends e_values st index = Ok st' ->
  e_starts !! index = Some s ->
  is_active env s j = false ->
  slot st' j = slot st j.
Proof.
  intros H Hs Hj.
  apply (sweep_sample_preserves env e_starts e_ends e_values
           (fun x => slot x j = slot st j) st st' index);
    [|reflexivity|exact H].
  intros s' e active b amount x x' Hs' _ _ Hactive Hb Hx Hcall.
  assert (s' = s) by congruence. subst s'.
  rewrite <- Hx. apply (add_next_effect_frame _ _ _ _ _ _ _ _ Hcall).
  left. intros ->. apply (active_member _ _ _ _ Hactive) in Hb. congruence.
Qed.

Lemma sweep_sample_leaves_inactive_entries_witness :
  let env := Build_builders [0; 7200] [20; 30] [5; 5] [180; 180]
               [11400; 18600] [300; 300] [100; 150] in
  let st := Build_observations [0; 0] [None; None] [[]; []] [[]; []]
              [[]; []] in
  exists st',
    sweep_sample env [0] [300] [5] st 0 = Ok st' /\
    slot st' 1 = slot st 1.
Proof.
  intros env st.
  eassert (H : sweep_sample env [0] [300] [5] st 0 = Ok _)
    by (vm_compute; reflexivity).
  eexists. split; [exact H|].
  apply (sweep_sample_leaves_inactive_entries _ _ _ _ _ _ _ 0 _ H);
    reflexivity.
Defined.

Lemma initial_slot (starts : list Q) (j : nat) :
  (j < length starts)%nat ->
  slot (initial_observations starts) j
  = (Some 0, Some None, Some [], Some [], Some []).
Proof.
  intros Hj. unfold slot, initial_observations. simpl.
  rewrite !list_lookup_fmap, lookup_seq_lt by exact Hj. reflexivity.
Qed.

Section Observe.

Variable find : list Q -> list Q -> list Q -> Q -> result Q.
Variables starts quantities : list Q.
Variable absorptions : list (option Q).
Variables e_starts e_ends e_values : list Q.
Variables ratio_starts ratios : list Q.
Variables s_starts s_ends s_values : list Q.
Variables overrun default delay : Q.

Let observe' : result (builders * observations) :=
  observe find starts quantities absorptions e_starts e_ends e_values
          ratio_starts ratios s_starts s_ends s_values overrun default delay.

Lemma observe_inversion (env : builders) (st : observations) :
  observe' = Ok (env, st) ->
  carb_entry_starts env = starts /\
  sweep env e_starts e_ends e_values (initial_observations starts) = Ok st.
Proof.
  intros H.
  pose proof (observe_build _ _ _ _ _ _ _ _ _ _ _ _ _ _ _ _ _ H) as Hb.
  destruct (build_inputs _ _ _ _ _ _ _ _ _ _ _ _ _ _ Hb) as [Hs _].
  split; [exact Hs|].
  unfold observe', observe in H.
  inv_bind_as H x_env Henv. inv_bind_as H x_st Hst.
  injection H as <- <-. exact Hst.
Qed.

(** X10.  An entry is credited only by samples that start exactly at its
    own start time: when no sample that ends after it starts begins at the
    start time of the entry, the sweep leaves the entry with an observed
    effect of 0, no completion date and an empty timeline. *)
Theorem unmatched_entry_is_never_credited (env : builders)
    (st : observations) (j : nat) (t : Q) :
  observe' = Ok (env, st) ->
  starts !! j = Some t ->
  (forall index s e,
     e_starts !! index = Some s -> e_ends !! index = Some e -> s < e ->
     ~ t == s) ->
  slot st j = (Some 0, Some None, Some [], Some [], Some []).
Proof.
  intros H Hj Hdiff.
  destruct (observe_inversion env st H) as [Hstarts Hsweep].
  rewrite <- (initial_slot starts j) by (now apply lookup_lt_Some in Hj).
  unfold sweep in Hsweep.
  apply (sweep_samples_preserve env e_starts e_ends e_values
           (fun x => slot x j = slot (initial_observations starts) j)
           _ _ _) with (3 := Hsweep); [|reflexivity].
  intros index _ s e active b amount x x' Hs He Hlt Hactive Hb Hx Hcall.
  rewrite <- Hx. apply (add_next_effect_frame _ _ _ _ _ _ _ _ Hcall).
  destruct (Nat.eq_dec b j) as [->|Hne]; [|now left].
  right. exists t. rewrite Hstarts. split; [exact Hj|].
  apply (active_member _ _ _ _ Hactive) in Hb.
  apply is_active_iff in Hb. destruct Hb as (t' & m & Ht' & _ & Hle & _).
  rewrite Hstarts in Ht'. assert (t' = t) by congruence. subst t'.
  specialize (Hdiff index s e Hs He Hlt).
  destruct (Qlt_le_dec t s) as [Hlt'|Hge]; [exact Hlt'|].
  exfalso. apply Hdiff. lra.
Qed.

End Observe.

Lemma unmatched_entry_is_never_credited_witness :
  exists env st,
    observe rateAt [0] [20] [None] [300; 600] [600; 900] [5; 5]
            [0] [10] [0] [86400] [50] 1 180 10 = Ok (env, st) /\
    slot st 0 = (Some 0, Some None, Some [], Some [], Some []).
Proof.
  eassert (H : observe rateAt [0] [20] [None] [300; 600] [600; 900] [5; 5]
                       [0] [10] [0] [86400] [50] 1 180 10 = Ok (_, _))
    by (vm_compute; reflexivity).
  eexists _, _. split; [exact H|].
  apply (unmatched_entry_is_never_credited _ _ _ _ _ _ _ _ _ _ _ _ _ _ _ _
           _ 0%nat 0 H eq_refl).
  intros [|[|index]] s e Hs He _; try discriminate;
    injection Hs as <-; discriminate.
Defined.

(** ** Completion dates and timelines *)

(** X11.  Once a completion date is recorded for an entry, no later sample
    changes it, and the timeline of the entry is not extended any more. *)
Theorem completion_date_is_final (env : builders)
    (e_starts e_ends e_values : list Q) (indexes : list nat)
    (st st' : observations) (i : nat) (d : Q) :
  foldM (sweep_sample env e_starts e_ends e_values) st indexes = Ok st' ->
  observed_completion_dates st !! i = Some (Some d) ->
  observed_completion_dates st' !! i = Some (Some d) /\
  observed_timeline_starts st' !! i = observed_timeline_starts st !! i /\
  observed_timeline_ends st' !! i = observed_timeline_ends st !! i /\
  observed_timeline_carb_values st' !! i
  = observed_timeline_carb_values st !! i.
Proof.
  intros H Hd.
  apply (sweep_samples_preserve env e_starts e_ends e_values
           (fun x =>
              observed_completion_dates x !! i = Some (Some d) /\
              observed_timeline_starts x !! i
              = observed_timeline_starts st !! i /\
              observed_timeline_ends x !! i
              = observed_timeline_ends st !! i /\
              observed_timeline_carb_values x !! i
              = observed_timeline_carb_values st !! i)
           indexes st st'); [|now repeat split|exact H].
  intros index _ s e active b amount x x' _ _ _ _ _ (Hc & H1 & H2 & H3)
    Hcall.
  destruct (Nat.eq_dec b i) as [->|Hne].
  - destruct (add_next_effect_cases _ _ _ _ _ _ _ Hcall)
      as [(t & _ & _ & ->)
         |[(t & o & d' & _ & _ & _ & _ & ->)
          |(t & o & ts & te & tv & c & y & _ & _ & _ & Hnone & _)]].
    + now repeat split.
    + now repeat split.
    + congruence.
  - pose proof (add_next_effect_frame _ _ i _ _ _ _ _ Hcall (or_introl Hne))
      as Hslot.
    unfold slot in Hslot. injection Hslot as _ -> -> -> ->.
    now repeat split.
Qed.

Lemma completion_date_is_final_witness :
  let env := Build_builders [0] [20] [5] [180] [11400] [300] [100] in
  let st := Build_observations [120] [Some 300] [[0]] [[300]] [[24]] in
  exists st',
    foldM (sweep_sample env [0] [600] [50]) st [0%nat] = Ok st' /\
    observed_completion_dates st' !! 0%nat = Some (Some 300) /\
    observed_timeline_starts st' !! 0%nat = Some [0].
Proof.
  intros env st.
  eassert (H : foldM (sweep_sample env [0] [600] [50]) st [0%nat] = Ok _)
    by (vm_compute; reflexivity).
  destruct (completion_date_is_final _ _ _ _ _ _ _ 0%nat 300 H eq_refl)
    as (H1 & H2 & _).
  eexists. split; [exact H|]. split; [exact H1|exact H2].
Defined.

Lemma add_next_effect_aligned (env : builders) (b : nat) (amount s e : Q)
    (st st' : observations) (R : Q -> Q -> Prop) :
  R s e ->
  timelines_aligned st /\
  (forall i ts te k x y,
     observed_timeline_starts st !! i = Some ts ->
     observed_timeline_ends st !! i = Some te ->
     ts !! k = Some x -> te !! k = Some y -> R x y) ->
  add_next_effect env b amount s e st = Ok st' ->
  timelines_aligned st' /\
  (forall i ts te k x y,
     observed_timeline_starts st' !! i = Some ts ->
     observed_timeline_ends st' !! i = Some te ->
     ts !! k = Some x -> te !! k = Some y -> R x y).
Proof.
  intros HR [Hal Hpairs] Hcall.
  destruct (add_next_effect_cases _ _ _ _ _ _ _ Hcall)
    as [(t & _ & _ & ->)
       |[(t & o & d' & _ & _ & _ & _ & ->)
        |(t & o & ts0 & te0 & tv0 & c & y0 & _ & _ & _ & _ & Hts & Hte
          & Htv & _ & _ & _ & ->)]];
    [now split|now split|].
  destruct (Hal b ts0 te0 tv0 Hts Hte Htv) as [L1 L2].
  split.
  - intros i ts te tv. simpl.
    destruct (Nat.eq_dec b i) as [->|Hne].
    + rewrite !list_lookup_insert_eq
        by (eapply lookup_lt_Some; eassumption).
      intros [= <-] [= <-] [= <-]. rewrite !length_app. simpl. lia.
    + rewrite !list_lookup_insert_ne by exact Hne. apply Hal.
  - intros i ts te k x y. simpl.
    destruct (Nat.eq_dec b i) as [->|Hne].
    + rewrite !list_lookup_insert_eq
        by (eapply lookup_lt_Some; eassumption).
      intros [= <-] [= <-] Hx Hy.
      destruct (Nat.lt_ge_cases k (length ts0)) as [Hk|Hk].
      * rewrite lookup_app_l in Hx by exact Hk.
        rewrite lookup_app_l in Hy by lia.
        exact (Hpairs i ts0 te0 k x y Hts Hte Hx Hy).
      * rewrite lookup_app_r in Hx by exact Hk.
        rewrite lookup_app_r in Hy by lia.
        destruct (k - length ts0)%nat eqn:E1; [|discriminate].
        destruct (k - length te0)%nat eqn:E2; [|discriminate].
        injection Hx as <-. injection Hy as <-. exact HR.
    + rewrite !list_lookup_insert_ne by exact Hne. apply Hpairs.
Qed.

Lemma map_lists_same_length
    (find : list Q -> list Q -> list Q -> Q -> result Q)
    (starts quantities : list Q) (absorptions : list (option Q))
    (e_starts e_ends e_values ratio_starts ratios : list Q)
    (s_starts s_ends s_values : list Q) (overrun default delay : Q)
    (A : list absorption) (T : list (option timeline))
    (E : list entry_property) :
  map_ find starts quantities absorptions e_starts e_ends e_values
       ratio_starts ratios s_starts s_ends s_values overrun default delay
  = Ok (A, T, E) ->
  length A = length T /\ length T = length E.
Proof.
  intros H.
  destruct (map_inversion _ _ _ _ _ _ _ _ _ _ _ _ _ _ _ _ _ _ H)
    as [(-> & -> & ->)|(env & st & _ & HA & HT & HE)]; [now split|].
  apply mapM_length in HA, HT, HE. split; congruence.
Qed.

Section Timelines.

Variable find : list Q -> list Q -> list Q -> Q -> result Q.
Variables starts quantities : list Q.
Variable absorptions : list (option Q).
Variables e_starts e_ends e_values : list Q.
Variables ratio_starts ratios : list Q.
Variables s_starts s_ends s_values : list Q.
Variables overrun default delay : Q.

(** X12.  A timeline that [map_] exposes is well formed: its three lists
    have the same length, and each of its intervals is one of the effect
    samples, with its start before its end. *)
Theorem exposed_timeline_well_formed (A : list absorption)
    (T : list (option timeline)) (E : list entry_property) (i : nat)
    (ts te tv : list Q) :
  map_ find starts quantities absorptions e_starts e_ends e_values
       ratio_starts ratios s_starts s_ends s_values overrun default delay
  = Ok (A, T, E) ->
  T !! i = Some (Some (ts, te, tv)) ->
  length ts = length te /\ length te = length tv /\
  forall k x y,
    ts !! k = Some x -> te !! k = Some y ->
    x < y /\
    exists index, e_starts !! index = Some x /\ e_ends !! index = Some y.
Proof.
  intros Hmap Hi.
  assert (Hlen : (i < length A)%nat).
  { destruct (map_lists_same_length _ _ _ _ _ _ _ _ _ _ _ _ _ _ _ _ _ _
                Hmap) as [HA _].
    rewrite HA. exact (lookup_lt_Some _ _ _ Hi). }
  destruct (map_rows _ _ _ _ _ _ _ _ _ _ _ _ _ _ _ _ _ _ i Hmap Hlen)
    as (env & st & a & t & e & Hb & Hsweep & _ & Ht & _ & _ & Htl & _).
  assert (Heq : Some t = Some (Some (ts, te, tv)))
    by (rewrite <- Ht; exact Hi).
  injection Heq as ->.
  set (R := fun x y : Q =>
              x < y /\
              exists index,
                e_starts !! index = Some x /\ e_ends !! index = Some y).
  assert (Hinv :
    timelines_aligned st /\
    (forall j ts' te' k x y,
       observed_timeline_starts st !! j = Some ts' ->
       observed_timeline_ends st !! j = Some te' ->
       ts' !! k = Some x -> te' !! k = Some y -> R x y)).
  { unfold sweep in Hsweep.
    apply (sweep_samples_preserve env e_starts e_ends e_values
             (fun x =>
                timelines_aligned x /\
                (forall j ts' te' k x0 y,
                   observed_timeline_starts x !! j = Some ts' ->
                   observed_timeline_ends x !! j = Some te' ->
                   ts' !! k = Some x0 -> te' !! k = Some y -> R x0 y))
             _ _ _) with (3 := Hsweep).
    - intros index _ s e' active b amount x x' Hs He Hlt _ _ Hx Hcall.
      apply (add_next_effect_aligned env b amount s e' x x' R);
        [|exact Hx|exact Hcall].
      split; [exact Hlt|now exists index].
    - split.
      + intros j s0 e0 v0. unfold initial_observations. simpl.
        rewrite !list_lookup_fmap.
        destruct (seq 0 (length starts) !! j); simpl; [|discriminate].
        now intros [= <-] [= <-] [= <-].
      + intros j ts' te' k x y. unfold initial_observations. simpl.
        rewrite !list_lookup_fmap.
        destruct (seq 0 (length starts) !! j); simpl; [|discriminate].
        intros [= <-]. discriminate. }
  destruct Hinv as [Hal Hpairs].
  unfold clamped_timeline in Htl.
  inv_bind_as Htl x_q Hq. inv_bind_as Htl x_l Hl. inv_bind_as Htl x_o Ho.
  destruct (Qle_bool x_l x_o); [|discriminate].
  inv_bind_as Htl x_ts Hts. inv_bind_as Htl x_te Hte.
  inv_bind_as Htl x_tv Htv. injection Htl as <- <- <-.
  apply get_lookup in Hts, Hte, Htv.
  destruct (Hal i x_ts x_te x_tv Hts Hte Htv) as [L1 L2].
  split; [exact L1|]. split; [exact L2|].
  intros k x y Hx Hy. exact (Hpairs i x_ts x_te k x y Hts Hte Hx Hy).
Qed.

End Timelines.

Lemma exposed_timeline_well_formed_witness :
  exists A T E ts te tv,
    map_ rateAt [0] [20] [None] [0] [300] [5] [0] [10] [0] [86400] [50]
         1 180 10 = Ok (A, T, E) /\
    T !! 0%nat = Some (Some (ts, te, tv)) /\
    length ts = length te /\ length te = length tv /\
    ts !! 0%nat = Some 0 /\ te !! 0%nat = Some 300.
Proof.
  eassert (Hmap : map_ rateAt [0] [20] [None] [0] [300] [5] [0] [10] [0]
                       [86400] [50] 1 180 10 = Ok (_, _, _))
    by (vm_compute; reflexivity).
  epose proof (exposed_timeline_well_formed _ _ _ _ _ _ _ _ _ _ _ _ _ _ _ _
                 _ _ 0%nat _ _ _ Hmap eq_refl) as (H1 & H2 & _).
  eexists _, _, _, _, _, _. split; [exact Hmap|].
  split; [reflexivity|]. split; [exact H1|]. split; [exact H2|].
  split; reflexivity.
Defined.

(** ** The waterfall *)

Lemma apportion_inversion (env : builders) (k : nat) (s e : Q)
    (total_rate effect_value : Q) (st : observations) (b : nat)
    (acc' : Q * Q * observations) :
  apportion env k s e (total_rate, effect_value, st) b = Ok acc' ->
  exists q c share rate st1,
    carb_entry_quantities env !! b = Some q /\
    builder_carb_sensitivities env !! b = Some c /\
    offered_share env b total_rate effect_value = Ok share /\
    absorption_rate env b = Ok rate /\
    add_next_effect env b (py_min (py_max (q * c) 0) share) s e st
      = Ok st1 /\
    ((Qltb float_epsilon
           (effect_value - py_min (py_max (q * c) 0) share) = true /\
      exists st2,
        add_next_effect env b
          (effect_value - py_min (py_max (q * c) 0) share) s e st1
          = Ok st2 /\
        acc' = (total_rate - rate,
                effect_value - py_min (py_max (q * c) 0) share, st2))
     \/ acc' = (total_rate - rate,
                effect_value - py_min (py_max (q * c) 0) share, st1)).
Proof.
  unfold apportion. intros H.
  inv_bind_as H x_q Hq. inv_bind_as H x_c Hc.
  inv_bind_as H x_share Hshare. inv_bind_as H x_rate Hrate.
  inv_bind_as H x_st Hst. apply get_lookup in Hq, Hc.
  exists x_q, x_c, x_share, x_rate, x_st.
  repeat (split; [assumption|]).
  destruct (Qltb float_epsilon _) eqn:Heps; simpl in H.
  - destruct (_ =? _)%Z.
    + inv_bind_as H x_st' Hst'. injection H as <-. left.
      split; [reflexivity|]. now exists x_st'.
    + injection H as <-. now right.
  - injection H as <-. now right.
Qed.

Lemma remaining_effect_nonneg (x : Q) : 0 <= py_max x 0.
Proof.
  unfold py_max. destruct (Qltb x 0) eqn:E; [lra|].
  now apply Qltb_ge in E.
Qed.

Lemma partial_effect_range (remaining share : Q) :
  0 <= remaining -> 0 <= share ->
  0 <= py_min remaining share /\ py_min remaining share <= share.
Proof.
  intros Hr Hs. unfold py_min. destruct (Qltb share remaining) eqn:E.
  - lra.
  - apply Qltb_ge in E. lra.
Qed.

Lemma Forall2_Qeq_refl (l : list Q) : Forall2 Qeq l l.
Proof. induction l; constructor; [reflexivity|assumption]. Qed.

Lemma Forall2_Qeq_trans (l1 l2 l3 : list Q) :
  Forall2 Qeq l1 l2 -> Forall2 Qeq l2 l3 -> Forall2 Qeq l1 l3.
Proof.
  intros H. revert l3. induction H as [|x y l1 l2 Hxy _ IH]; intros l3 H3.
  - inversion H3. constructor.
  - inversion H3 as [|y' z l2' l3' Hyz Hrest]; subst.
    constructor; [now rewrite Hxy|now apply IH].
Qed.

Lemma Forall2_Qeq_insert (l : list Q) (i : nat) (o x : Q) :
  l !! i = Some o -> x == o -> Forall2 Qeq (<[i := x]> l) l.
Proof.
  revert i. induction l as [|y l IH]; intros [|i] Hi Hx; simpl in *;
    try discriminate.
  - injection Hi as ->. constructor; [exact Hx|apply Forall2_Qeq_refl].
  - constructor; [reflexivity|now apply IH].
Qed.

Lemma add_next_effect_zero (env : builders) (b : nat) (amount s e : Q)
    (st st' : observations) :
  amount == 0 ->
  add_next_effect env b amount s e st = Ok st' ->
  Forall2 Qeq (observed_effects st') (observed_effects st).
Proof.
  intros H0 Hcall.
  destruct (add_next_effect_cases _ _ _ _ _ _ _ Hcall)
    as [(t & _ & _ & ->)
       |[(t & o & d' & _ & _ & Ho & _ & ->)
        |(t & o & ts0 & te0 & tv0 & c & y0 & _ & _ & Ho & _ & _ & _ & _ & _
          & _ & _ & ->)]]; simpl.
  - apply Forall2_Qeq_refl.
  - apply (Forall2_Qeq_insert _ _ o); [exact Ho|]. rewrite H0. ring.
  - apply (Forall2_Qeq_insert _ _ o); [exact Ho|]. rewrite H0. ring.
Qed.

(** X13.  A sample whose value is zero or negative adds nothing to the
    observed effect of any entry. *)
Theorem nonpositive_sample_adds_nothing (env : builders)
    (e_starts e_ends e_values : list Q) (st st' : observations)
    (index : nat) (v : Q) :
  sweep_sample env e_starts e_ends e_values st index = Ok st' ->
  e_values !! index = Some v ->
  v <= 0 ->
  Forall2 Qeq (observed_effects st') (observed_effects st).
Proof.
  intros H Hv Hneg. unfold sweep_sample in H.
  inv_bind_as H x_s Hs. inv_bind_as H x_e He.
  destruct (Qle_bool x_e x_s).
  { injection H as <-. apply Forall2_Qeq_refl. }
  inv_bind_as H x_active Hactive. inv_bind_as H x_v Hv'.
  apply get_lookup in Hv'. assert (x_v = v) by congruence. subst x_v.
  inv_bind_as H x_rate Hrate. inv_bind_as H x_acc Hacc.
  injection H as <-.
  assert (Hzero : py_max 0 v = 0).
  { unfold py_max. apply Qltb_ge in Hneg. now rewrite Hneg. }
  rewrite Hzero in Hacc.
  apply (foldM_preserves
           (fun acc : Q * Q * observations =>
              snd (fst acc) == 0 /\
              Forall2 Qeq (observed_effects (snd acc)) (observed_effects st))
           (apportion env (length x_active) x_s x_e) x_active)
    with (acc := (x_rate, 0, st)) (r := x_acc);
    [|split; [reflexivity|apply Forall2_Qeq_refl]|exact Hacc].
  intros [[tr ev] x] b a' _ [Hev Hx] Hstep. simpl in Hev, Hx.
  destruct (apportion_inversion _ _ _ _ _ _ _ _ _ Hstep)
    as (q & c & share & rate & st1 & _ & _ & Hshare & _ & Hcall & Hrest).
  assert (share = 0).
  { rewrite (offered_share_zero_rate env b tr ev (or_intror Hev)) in Hshare.
    now injection Hshare as <-. }
  subst share.
  assert (Hpartial : py_min (py_max (q * c) 0) 0 == 0).
  { pose proof (remaining_effect_nonneg (q * c)) as Hr.
    destruct (partial_effect_range (py_max (q * c) 0) 0 Hr) as [H1 H2];
      lra. }
  assert (Hev' : ev - py_min (py_max (q * c) 0) 0 == 0)
    by (rewrite Hev, Hpartial; ring).
  pose proof (add_next_effect_zero _ _ _ _ _ _ _ Hpartial Hcall) as H1.
  destruct Hrest as [(Heps & st2 & Hcall2 & ->)| ->]; simpl.
  - apply Qltb_lt in Heps. rewrite Hev' in Heps. discriminate Heps.
  - split; [exact Hev'|]. now apply (Forall2_Qeq_trans _ _ _ H1).
Qed.

Lemma nonpositive_sample_adds_nothing_witness :
  let env := Build_builders [0] [20] [5] [180] [11400] [300] [100] in
  let st := Build_observations [7] [None] [[]] [[]] [[]] in
  exists st',
    sweep_sample env [0] [300] [-3] st 0 = Ok st' /\
    Forall2 Qeq (observed_effects st') [7].
Proof.
  intros env st.
  eassert (H : sweep_sample env [0] [300] [-3] st 0 = Ok _)
    by (vm_compute; reflexivity).
  eexists. split; [exact H|].
  apply (nonpositive_sample_adds_nothing _ _ _ _ _ _ 0%nat (-3) H);
    [reflexivity|discriminate].
Defined.

Lemma offered_share_inversion (env : builders) (b : nat)
    (total_rate effect_value share : Q) :
  offered_share env b total_rate effect_value = Ok share ->
  share = 0 \/
  (~ total_rate == 0 /\
   exists rate,
     absorption_rate env b = Ok rate /\
     share = rate / total_rate * effect_value).
Proof.
  unfold offered_share. intros H.
  destruct (negb (Qeq_bool total_rate 0) && negb (Qeq_bool effect_value 0))%bool.
  - right. inv_bind_as H x_rate Hrate. inv_bind_as H x_f Hf.
    injection H as <-. apply py_div_inversion in Hf.
    destruct Hf as [Hnz ->]. split; [exact Hnz|]. now exists x_rate.
  - left. now injection H as <-.
Qed.

Section Waterfall.

Variable env : builders.
Hypothesis Hsigns : rates_nonnegative env.

Lemma rate_of_nonneg (b : nat) : 0 <= rate_of env b.
Proof.
  destruct Hsigns as [Hq Hm]. unfold rate_of.
  destruct (carb_entry_quantities env !! b) as [q|] eqn:Eq; [|lra].
  destruct (builder_max_absorb_times env !! b) as [m|] eqn:Em; [|lra].
  pose proof (Forall_lookup_1 _ _ _ _ Hq Eq) as Hq0.
  pose proof (Forall_lookup_1 _ _ _ _ Hm Em) as Hm0. simpl in Hq0, Hm0.
  apply Qle_shift_div_l; lra.
Qed.

Lemma absorption_rate_rate_of (b : nat) (rate : Q) :
  absorption_rate env b = Ok rate -> rate = rate_of env b.
Proof.
  intros H. destruct (absorption_rate_inversion _ _ _ H)
    as (q & m & Hq & Hm & _ & ->).
  unfold rate_of. now rewrite Hq, Hm.
Qed.

Lemma sum_rates_nonneg (l : list nat) : 0 <= sum_rates env l.
Proof.
  induction l as [|b l IH]; simpl; [lra|].
  pose proof (rate_of_nonneg b). lra.
Qed.

Lemma total_rate_lower_bound (l : list nat) (previous total : Q)
    (acc : Q * Q) :
  foldM (total_rate_step env) (previous, total) l = Ok acc ->
  0 <= previous ->
  total + sum_rates env l <= snd acc.
Proof.
  revert previous total. induction l as [|b l IH]; simpl;
    intros previous total H Hp.
  - injection H as <-. simpl. lra.
  - inv_bind_as H x_acc Hstep. unfold total_rate_step, reduce_func in Hstep.
    inv_bind_as Hstep x_inc Hinc. inv_bind_as Hinc x_rate Hrate.
    injection Hinc as <-. injection Hstep as <-.
    apply absorption_rate_rate_of in Hrate. subst x_rate.
    pose proof (rate_of_nonneg b) as Hb.
    apply IH in H; [|lra]. lra.
Qed.

Lemma total_rate_of_lower_bound (active : list nat) (total : Q) :
  total_rate_of env active = Ok total -> sum_rates env active <= total.
Proof.
  unfold total_rate_of. intros H. inv_bind_as H x_acc Hacc.
  injection H as <-. destruct x_acc as [p t].
  apply total_rate_lower_bound in Hacc; [|lra]. simpl in *. lra.
Qed.

Lemma offered_share_range (b : nat) (total_rate effect_value share : Q) :
  rate_of env b <= total_rate ->
  0 <= effect_value ->
  offered_share env b total_rate effect_value = Ok share ->
  0 <= share /\ share <= effect_value.
Proof.
  intros Htr Hev H.
  destruct (offered_share_inversion _ _ _ _ _ H)
    as [->|(Hnz & rate & Hrate & ->)]; [lra|].
  apply absorption_rate_rate_of in Hrate. subst rate.
  pose proof (rate_of_nonneg b) as Hb.
  assert (Hpos : 0 < total_rate).
  { destruct (Qlt_le_dec 0 total_rate) as [Hlt|Hle]; [exact Hlt|].
    exfalso. apply Hnz. lra. }
  assert (H0 : 0 <= rate_of env b / total_rate)
    by (apply Qle_shift_div_l; lra).
  assert (H1 : rate_of env b / total_rate <= 1)
    by (apply Qle_shift_div_r; lra).
  nra.
Qed.

Variable k : nat.
Variables s e : Q.
Variable P : observations -> Prop.

(** The loop over the active entries: the value still to distribute stays
    between 0 and what it was, and [P] survives when it survives every call
    that adds a non-negative amount. *)
Lemma waterfall_fold (rest : list nat) :
  (forall b amount x x',
     b ∈ rest -> 0 <= amount -> P x ->
     add_next_effect env b amount s e x = Ok x' -> P x') ->
  forall total_rate effect_value st acc',
    sum_rates env rest <= total_rate ->
    0 <= effect_value ->
    P st ->
    foldM (apportion env k s e) (total_rate, effect_value, st) rest
      = Ok acc' ->
    0 <= snd (fst acc') /\ snd (fst acc') <= effect_value /\ P (snd acc').
Proof.
  induction rest as [|b rest IH]; cbn [foldM];
    intros Hcall total_rate effect_value st acc' Htr Hev HP H.
  - injection H as <-. simpl. repeat split; [lra|lra|exact HP].
  - change (rate_of env b + sum_rates env rest <= total_rate) in Htr.
    inv_bind_as H x_acc Hstep.
    destruct (apportion_inversion _ _ _ _ _ _ _ _ _ Hstep)
      as (q & c & share & rate & st1 & _ & _ & Hshare & Hrate & Hc1 & Hrest).
    pose proof (absorption_rate_rate_of _ _ Hrate) as ->.
    pose proof (sum_rates_nonneg rest) as Hsum.
    pose proof (rate_of_nonneg b) as Hb.
    destruct (offered_share_range b total_rate effect_value share)
      as [Hs0 Hs1]; [lra|exact Hev|exact Hshare|].
    destruct (partial_effect_range (py_max (q * c) 0) share
                (remaining_effect_nonneg (q * c)) Hs0) as [Hp0 Hp1].
    assert (HP1 : P st1).
    { apply (Hcall b (py_min (py_max (q * c) 0) share) st st1);
        [constructor|exact Hp0|exact HP|exact Hc1]. }
    assert (Hnext :
      exists st2,
        x_acc = (total_rate - rate_of env b,
                 effect_value - py_min (py_max (q * c) 0) share, st2) /\
        P st2).
    { destruct Hrest as [(Heps & st2 & Hc2 & ->)| ->].
      - exists st2. split; [reflexivity|].
        apply (Hcall b (effect_value - py_min (py_max (q * c) 0) share)
                 st1 st2); [constructor| |exact HP1|exact Hc2].
        lra.
      - now exists st1. }
    destruct Hnext as (st2 & -> & HP2).
    assert (Htr' : sum_rates env rest <= total_rate - rate_of env b)
      by lra.
    assert (Hev' : 0 <= effect_value - py_min (py_max (q * c) 0) share)
      by lra.
    destruct (IH (fun b' amount x x' Hin =>
                    Hcall b' amount x x' (list_elem_of_further _ _ _ Hin))
                 _ _ _ _ Htr' Hev' HP2 H)
      as (H0 & H1 & HP').
    repeat split; [exact H0|lra|exact HP'].
Qed.

End Waterfall.



Section NonNegativeSweep.

Variable env : builders.
Hypothesis Hsigns : rates_nonnegative env.
Variables e_starts e_ends e_values : list Q.
Variable P : observations -> Prop.

(** [P] survives every call that adds a non-negative amount. *)
Hypothesis Hcall :
  forall b amount s e x x',
    0 <= amount -> P x ->
    add_next_effect env b amount s e x = Ok x' -> P x'.

Lemma py_max_zero_nonneg (v : Q) : 0 <= py_max 0 v.
Proof.
  unfold py_max. destruct (Qltb 0 v) eqn:E; [|lra].
  apply Qltb_lt in E. lra.
Qed.

Lemma nonnegative_sample_preserves (st st' : observations) (index : nat) :
  P st ->
  sweep_sample env e_starts e_ends e_values st index = Ok st' ->
  P st'.
Proof.
  intros HP H. unfold sweep_sample in H.
  inv_bind_as H x_s Hs. inv_bind_as H x_e He.
  destruct (Qle_bool x_e x_s).
  { now injection H as <-. }
  inv_bind_as H x_active Hactive. inv_bind_as H x_v Hv.
  inv_bind_as H x_rate Hrate. inv_bind_as H x_acc Hacc.
  injection H as <-.
  pose proof (total_rate_of_lower_bound env Hsigns _ _ Hrate) as Hbound.
  destruct (waterfall_fold env Hsigns (length x_active) x_s x_e P x_active
              (fun b amount x x' _ => Hcall b amount x_s x_e x x')
              x_rate (py_max 0 x_v) st x_acc Hbound
              (py_max_zero_nonneg x_v) HP Hacc)
    as (_ & _ & HP').
  exact HP'.
Qed.

Lemma nonnegative_sweep_preserves (indexes : list nat)
    (st st' : observations) :
  P st ->
  foldM (sweep_sample env e_starts e_ends e_values) st indexes = Ok st' ->
  P st'.
Proof.
  intros HP. apply foldM_preserves with (P := P); [|exact HP].
  intros a index a' _ Ha. now apply nonnegative_sample_preserves.
Qed.

End NonNegativeSweep.

(** X15.  When no quantity is negative and every maximum absorption time is
    positive, the observed effect of an entry never decreases in the course
    of the sweep. *)
Theorem observed_effects_never_decrease (env : builders)
    (e_starts e_ends e_values : list Q) (indexes : list nat)
    (st st' : observations) (i : nat) (o : Q) :
  rates_nonnegative env ->
  foldM (sweep_sample env e_starts e_ends e_values) st indexes = Ok st' ->
  observed_effects st !! i = Some o ->
  exists o', observed_effects st' !! i = Some o' /\ o <= o'.
Proof.
  intros Hsigns H Ho.
  apply (nonnegative_sweep_preserves env Hsigns e_starts e_ends e_values
           (fun x => exists o', observed_effects x !! i = Some o' /\ o <= o')
           ) with (indexes := indexes) (st := st); [| |exact H].
  - intros b amount s e x x' Hamount (o' & Ho' & Hle) Hcall.
    destruct (add_next_effect_cases _ _ _ _ _ _ _ Hcall)
      as [(t & _ & _ & ->)
         |[(t & ob & d' & _ & _ & Hob & _ & ->)
          |(t & ob & ts0 & te0 & tv0 & c & y0 & _ & _ & Hob & _ & _ & _ & _
            & _ & _ & _ & ->)]]; simpl.
    + now exists o'.
    + destruct (Nat.eq_dec b i) as [->|Hne].
      * rewrite list_lookup_insert_eq
          by (eapply lookup_lt_Some; eassumption).
        assert (ob = o') by congruence. subst ob.
        exists (o' + amount). split; [reflexivity|lra].
      * rewrite list_lookup_insert_ne by exact Hne. now exists o'.
    + destruct (Nat.eq_dec b i) as [->|Hne].
      * rewrite list_lookup_insert_eq
          by (eapply lookup_lt_Some; eassumption).
        assert (ob = o') by congruence. subst ob.
        exists (o' + amount). split; [reflexivity|lra].
      * rewrite list_lookup_insert_ne by exact Hne. now exists o'.
  - exists o. split; [exact Ho|lra].
Qed.

Lemma observed_effects_never_decrease_witness :
  let env := Build_builders [0] [20] [5] [180] [11400] [300] [100] in
  let st := Build_observations [7] [None] [[]] [[]] [[]] in
  exists st' o',
    foldM (sweep_sample env [0] [300] [5]) st [0%nat] = Ok st' /\
    observed_effects st' !! 0%nat = Some o' /\ 7 <= o'.
Proof.
  intros env st.
  eassert (H : foldM (sweep_sample env [0] [300] [5]) st [0%nat] = Ok _)
    by (vm_compute; reflexivity).
  assert (Hsigns : rates_nonnegative env).
  { split; repeat constructor; discriminate. }
  destruct (observed_effects_never_decrease env _ _ _ _ _ _ 0%nat 7 Hsigns H
              eq_refl) as (o' & Ho' & Hle).
  eexists _, o'. split; [exact H|]. split; [exact Ho'|exact Hle].
Defined.

(** ** Completed entries *)

Lemma py_max_ge_r (a b : Q) : b <= py_max a b.
Proof.
  unfold py_max. destruct (Qltb a b) eqn:E; [lra|].
  now apply Qltb_ge in E.
Qed.

Lemma py_min_left (a b : Q) : a <= b -> py_min a b = a.
Proof.
  intros H. unfold py_min. apply Qltb_ge in H. now rewrite H.
Qed.

(** Under the sign conditions, an entry that has a completion date has an
    observed effect of at least its expected effect. *)
Lemma completion_means_reached (env : builders)
    (e_starts e_ends e_values : list Q) (indexes : list nat)
    (st st' : observations) :
  rates_nonnegative env ->
  (forall i d, observed_completion_dates st !! i = Some (Some d) ->
     exists o y,
       observed_effects st !! i = Some o /\
       entry_effects env !! i = Some y /\ y <= o) ->
  foldM (sweep_sample env e_starts e_ends e_values) st indexes = Ok st' ->
  forall i d, observed_completion_dates st' !! i = Some (Some d) ->
    exists o y,
      observed_effects st' !! i = Some o /\
      entry_effects env !! i = Some y /\ y <= o.
Proof.
  intros Hsigns Hst H.
  apply (nonnegative_sweep_preserves env Hsigns e_starts e_ends e_values
           (fun x =>
              forall i d,
                observed_completion_dates x !! i = Some (Some d) ->
                exists o y,
                  observed_effects x !! i = Some o /\
                  entry_effects env !! i = Some y /\ y <= o))
    with (indexes := indexes) (st := st); [|exact Hst|exact H].
  intros b amount s e x x' Hamount Hx Hcall i d.
  destruct (add_next_effect_cases _ _ _ _ _ _ _ Hcall)
    as [(t & _ & _ & ->)
       |[(t & ob & d' & _ & _ & Hob & Hcb & ->)
        |(t & ob & ts0 & te0 & tv0 & c & y0 & _ & _ & Hob & Hcb & _ & _ & _
          & _ & _ & Hy0 & ->)]]; simpl.
  - apply Hx.
  - intros Hd. destruct (Nat.eq_dec b i) as [->|Hne].
    + destruct (Hx i d Hd) as (o & y & Ho & Hy & Hle).
      assert (o = ob) by congruence. subst o.
      rewrite list_lookup_insert_eq by (eapply lookup_lt_Some; eassumption).
      exists (ob + amount), y. repeat split; [exact Hy|lra].
    + rewrite list_lookup_insert_ne by exact Hne. now apply (Hx i d).
  - destruct (Nat.eq_dec b i) as [->|Hne].
    + rewrite list_lookup_insert_eq by (eapply lookup_lt_Some; eassumption).
      destruct (Qle_bool y0 (ob + amount)) eqn:Hcmp.
      * intros _. apply Qle_bool_iff in Hcmp.
        now exists (ob + amount), y0.
      * intros Hd. congruence.
    + rewrite list_lookup_insert_ne by exact Hne.
      intros Hd. apply (Hx i d).
      destruct (Qle_bool y0 (ob + amount)); [|exact Hd].
      now rewrite list_lookup_insert_ne in Hd by exact Hne.
Qed.

Section Completed.

Variable find : list Q -> list Q -> list Q -> Q -> result Q.
Variables starts quantities : list Q.
Variable absorptions : list (option Q).
Variables e_starts e_ends e_values : list Q.
Variables ratio_starts ratios : list Q.
Variables s_starts s_ends s_values : list Q.
Variables overrun default delay : Q.

Lemma build_rates_nonnegative (env : builders) :
  build find starts quantities absorptions e_ends ratio_starts ratios
        s_starts s_ends s_values overrun default delay = Ok env ->
  Forall (fun q => 0 <= q) quantities ->
  Forall (fun ab => 0 < py_or ab default * overrun) absorptions ->
  rates_nonnegative env.
Proof.
  intros Hb Hq Hab.
  destruct (build_inputs _ _ _ _ _ _ _ _ _ _ _ _ _ _ Hb) as [_ Hqs].
  split; [now rewrite Hqs|].
  apply Forall_lookup_2. intros i m Hm.
  destruct (build_max_absorb_time _ _ _ _ _ _ _ _ _ _ _ _ _ _ _ _ Hb Hm)
    as (ab & Hab' & ->).
  exact (Forall_lookup_1 _ _ _ _ Hab Hab').
Qed.

(** A completion date is the end of an effect sample that ends after it
    starts. *)
Lemma completion_date_is_sample_end (env : builders) (indexes : list nat)
    (st st' : observations) :
  (forall i d, observed_completion_dates st !! i = Some (Some d) ->
     exists k s, e_starts !! k = Some s /\ e_ends !! k = Some d /\ s < d) ->
  foldM (sweep_sample env e_starts e_ends e_values) st indexes = Ok st' ->
  forall i d, observed_completion_dates st' !! i = Some (Some d) ->
    exists k s, e_starts !! k = Some s /\ e_ends !! k = Some d /\ s < d.
Proof.
  intros Hst H.
  set (P := fun x : observations =>
              forall i d,
                observed_completion_dates x !! i = Some (Some d) ->
                exists k s,
                  e_starts !! k = Some s /\ e_ends !! k = Some d /\ s < d).
  assert (HP : P st') ; [|exact HP].
  apply (sweep_samples_preserve env e_starts e_ends e_values P indexes st
           st'); [|exact Hst|exact H].
  intros index _ s e active b amount x x' Hs He Hlt _ _ Hx Hcall i d.
  destruct (add_next_effect_cases _ _ _ _ _ _ _ Hcall)
    as [(t & _ & _ & ->)
       |[(t & ob & d' & _ & _ & _ & _ & ->)
        |(t & ob & ts0 & te0 & tv0 & c & y0 & _ & _ & _ & Hcb & _ & _ & _
          & _ & _ & _ & ->)]]; simpl; [apply Hx|apply Hx|].
  destruct (Qle_bool y0 (ob + amount)); [|apply Hx].
  destruct (Nat.eq_dec b i) as [->|Hne].
  - rewrite list_lookup_insert_eq by (eapply lookup_lt_Some; eassumption).
    intros [= <-]. now exists index, s.
  - rewrite list_lookup_insert_ne by exact Hne. apply Hx.
Qed.

(** X16.  When no quantity is negative and every maximum absorption time is
    positive, an entry for which the sweep recorded a completion date has an
    observed effect of at least its expected effect, the quantity times the
    carb sensitivity; its absorption result gives that completion date as
    the observed end, and the date is the end of an effect sample that ends
    after it starts. *)
Theorem completed_entry_reached_expected_effect (env : builders)
    (st : observations) (A : list absorption) (T : list (option timeline))
    (E : list entry_property) (i : nat) (a : absorption) (d : Q) :
  observe find starts quantities absorptions e_starts e_ends e_values
          ratio_starts ratios s_starts s_ends s_values overrun default delay
  = Ok (env, st) ->
  map_ find starts quantities absorptions e_starts e_ends e_values
       ratio_starts ratios s_starts s_ends s_values overrun default delay
  = Ok (A, T, E) ->
  Forall (fun q => 0 <= q) quantities ->
  Forall (fun ab => 0 < py_or ab default * overrun) absorptions ->
  A !! i = Some a ->
  observed_completion_dates st !! i = Some (Some d) ->
  exists o q c k s,
    observed_effects st !! i = Some o /\
    quantities !! i = Some q /\
    builder_carb_sensitivities env !! i = Some c /\
    q * c <= o /\
    observed_end a = d /\
    e_starts !! k = Some s /\ e_ends !! k = Some d /\ s < d.
Proof.
  intros Hobs Hmap Hq Hab Ha Hd.
  pose proof (observe_build _ _ _ _ _ _ _ _ _ _ _ _ _ _ _ _ _ Hobs) as Hb.
  destruct (observe_inversion _ _ _ _ _ _ _ _ _ _ _ _ _ _ _ _ _ Hobs)
    as [_ Hsweep].
  destruct (map_rows _ _ _ _ _ _ _ _ _ _ _ _ _ _ _ _ _ _ i Hmap)
    as (env' & st' & a' & t' & e' & Hb' & Hsweep' & Ha' & _ & _ & Hres & _);
    [now apply lookup_lt_Some in Ha|].
  assert (env' = env) by congruence. subst env'.
  assert (st' = st) by congruence. subst st'.
  assert (a' = a) by congruence. subst a'.
  pose proof (build_rates_nonnegative env Hb Hq Hab) as Hsigns.
  unfold sweep in Hsweep.
  assert (Hinit :
    forall j d',
      observed_completion_dates (initial_observations starts) !! j
      <> Some (Some d')).
  { intros j d'. unfold initial_observations. simpl.
    rewrite list_lookup_fmap.
    destruct (seq 0 (length starts) !! j); discriminate. }
  destruct (completion_means_reached env e_starts e_ends e_values
              (seq 0 (length e_starts)) (initial_observations starts) st
              Hsigns (fun j d' Hj => False_ind _ (Hinit j d' Hj))
              Hsweep i d Hd)
    as (o & y & Ho & Hy & Hle).
  destruct (completion_date_is_sample_end env
              (seq 0 (length e_starts)) (initial_observations starts) st
              (fun j d' Hj => False_ind _ (Hinit j d' Hj))
              Hsweep i d Hd)
    as (k & s & Hks & Hke & Hlt).
  destruct (build_entry_effect _ _ _ _ _ _ _ _ _ _ _ _ _ _ _ _ Hb Hy)
    as (q & c & Hq' & Hc' & ->).
  exists o, q, c, k, s.
  repeat (split; [assumption|]).
  split; [|now repeat split].
  unfold absorption_result in Hres.
  inv_bind_as Hres x_o Hog. inv_bind_as Hres x_q Hxq.
  inv_bind_as Hres x_l Hl. inv_bind_as Hres x_r Hr.
  inv_bind_as Hres x_e Hest. inv_bind_as Hres x_s Hs.
  inv_bind_as Hres x_d Hcd. inv_bind_as Hres x_end Hend.
  injection Hres as <-. simpl.
  apply get_lookup in Hcd.
  assert (x_d = Some d) by congruence. subst x_d.
  now injection Hend as <-.
Qed.

End Completed.

(** One entry of 1 g at time 0 with sensitivity 50 and carb ratio 10, so an
    expected effect of 5, and one sample [0, 300) of 8 mg/dL. *)
Lemma completed_entry_reached_expected_effect_witness :
  exists env st A T E a o,
    observe rateAt [0] [1] [None] [0] [300] [8] [0] [10] [0] [86400] [50]
            1 180 10 = Ok (env, st) /\
    map_ rateAt [0] [1] [None] [0] [300] [8] [0] [10] [0] [86400] [50]
         1 180 10 = Ok (A, T, E) /\
    A !! 0%nat = Some a /\
    observed_effects st !! 0%nat = Some o /\
    1 * (50 / 10) <= o /\
    observed_end a = 300.
Proof.
  eassert (Hobs : observe rateAt [0] [1] [None] [0] [300] [8] [0] [10] [0]
                          [86400] [50] 1 180 10 = Ok (_, _))
    by (vm_compute; reflexivity).
  eassert (Hmap : map_ rateAt [0] [1] [None] [0] [300] [8] [0] [10] [0]
                       [86400] [50] 1 180 10 = Ok (_, _, _))
    by (vm_compute; reflexivity).
  assert (Hq : Forall (fun q => 0 <= q) [1])
    by (repeat constructor; discriminate).
  assert (Hab : Forall (fun ab => 0 < py_or ab 180 * 1) [None])
    by (repeat constructor).
  epose proof (completed_entry_reached_expected_effect _ _ _ _ _ _ _ _ _ _
                 _ _ _ _ _ _ _ _ _ _ 0%nat _ 300 Hobs Hmap Hq Hab eq_refl
                 eq_refl)
    as (o & q & c & k & s & Ho & Hq' & Hc & Hle & Hend & _).
  injection Hq' as <-. injection Hc as <-.
  eexists _, _, _, _, _, _, o. split; [exact Hobs|]. split; [exact Hmap|].
  split; [reflexivity|]. split; [exact Ho|]. split; [exact Hle|exact Hend].
Defined.

(** ** The trimming loops of [dose_store] *)

Section TrimLoop.

Context {dose_type : Type}.
Variables (a_types : list dose_type) (a_values a_rates : list Q).

(** What is done to one dose, and a loop body that stores the new start and
    end of dose [i] in place, as both trimming loops do. *)
Variable f :
  dose_type -> Q -> Q -> Q -> Q -> result (dose_type * Q * Q * Q * Q).
Variable step : list Q * list Q -> nat -> result (list Q * list Q).

Hypothesis Hstep :
  forall ss es i,
    step (ss, es) i =
    (let* ty := get a_types i in
     let* s := get ss i in
     let* e := get es i in
     let* v := get a_values i in
     let* r := get a_rates i in
     let* trimmed := f ty s e v r in
     let '(_, s', e', _, _) := trimmed in
     Ok (<[i := s']> ss, <[i := e']> es)).

Lemma trim_loop_from (m k : nat) (ss0 es0 ss' es' : list Q) :
  foldM step (ss0, es0) (seq k m) = Ok (ss', es') ->
  length ss' = length ss0 /\ length es' = length es0 /\
  (forall i, (k <= i < k + m)%nat ->
     exists ty s e v r ty' s' e' v' r',
       a_types !! i = Some ty /\ ss0 !! i = Some s /\ es0 !! i = Some e /\
       a_values !! i = Some v /\ a_rates !! i = Some r /\
       f ty s e v r = Ok (ty', s', e', v', r') /\
       ss' !! i = Some s' /\ es' !! i = Some e') /\
  (forall i, (i < k \/ k + m <= i)%nat ->
     ss' !! i = ss0 !! i /\ es' !! i = es0 !! i).
Proof.
  revert k ss0 es0. induction m as [|m IH]; intros k ss0 es0 H.
  - simpl in H. injection H as <- <-.
    repeat split; try reflexivity. intros i Hi. lia.
  - cbn [seq foldM] in H. inv_bind_as H x_acc Hfirst.
    destruct x_acc as [ss1 es1]. rewrite Hstep in Hfirst.
    inv_bind_as Hfirst x_ty Hty. inv_bind_as Hfirst x_s Hs.
    inv_bind_as Hfirst x_e He. inv_bind_as Hfirst x_v Hv.
    inv_bind_as Hfirst x_r Hr. inv_bind_as Hfirst x_out Hout.
    destruct x_out as [[[[ty' s'] e'] v'] r'].
    injection Hfirst as <- <-.
    apply get_lookup in Hty, Hs, He, Hv, Hr.
    destruct (IH (S k) _ _ H) as (L1 & L2 & Hin & Hout').
    rewrite length_insert in L1, L2.
    split; [exact L1|]. split; [exact L2|]. split.
    + intros i Hi. destruct (Nat.eq_dec i k) as [->|Hne].
      * destruct (Hout' k) as [Hk1 Hk2]; [lia|].
        rewrite list_lookup_insert_eq in Hk1
          by (eapply lookup_lt_Some; eassumption).
        rewrite list_lookup_insert_eq in Hk2
          by (eapply lookup_lt_Some; eassumption).
        exists x_ty, x_s, x_e, x_v, x_r, ty', s', e', v', r'.
        now repeat split.
      * destruct (Hin i) as (ty & s & e & v & r & ty2 & s2 & e2 & v2 & r2
                             & H1 & H2 & H3 & H4 & H5 & H6 & H7 & H8);
          [lia|].
        rewrite list_lookup_insert_ne in H2 by lia.
        rewrite list_lookup_insert_ne in H3 by lia.
        exists ty, s, e, v, r, ty2, s2, e2, v2, r2. now repeat split.
    + intros i Hi. destruct (Hout' i) as [H1 H2]; [lia|].
      rewrite list_lookup_insert_ne in H1 by lia.
      rewrite list_lookup_insert_ne in H2 by lia.
      now split.
Qed.

End TrimLoop.

(** X17.  Each trimming loop keeps the lengths of the start and end lists,
    and replaces the start and end of every dose by what [trim] returns for
    that dose's own original start and end: no dose is trimmed on values
    changed for an earlier one.  Positions beyond the dose types are left
    alone. *)
Theorem trim_loops_act_dose_by_dose {dose_type : Type}
    (trim : dose_type -> Q -> Q -> Q -> Q -> Q ->
            result (dose_type * Q * Q * Q * Q))
    (trim_between : dose_type -> Q -> Q -> Q -> Q -> Q -> option Q ->
                    result (dose_type * Q * Q * Q * Q))
    (a_types : list dose_type) (a_starts a_ends a_values a_rates : list Q)
    (dose_start : Q) (basal_dosing_end : option Q) :
  (forall ss' es',
     foldM (trim_step dose_type trim a_types a_values a_rates dose_start)
           (a_starts, a_ends) (seq 0 (length a_types)) = Ok (ss', es') ->
     length ss' = length a_starts /\ length es' = length a_ends /\
     (forall i ty, a_types !! i = Some ty ->
        exists s e v r ty' s' e' v' r',
          a_starts !! i = Some s /\ a_ends !! i = Some e /\
          a_values !! i = Some v /\ a_rates !! i = Some r /\
          trim ty s e v r dose_start = Ok (ty', s', e', v', r') /\
          ss' !! i = Some s' /\ es' !! i = Some e') /\
     (forall i, (length a_types <= i)%nat ->
        ss' !! i = a_starts !! i /\ es' !! i = a_ends !! i)) /\
  (forall ss' es',
     foldM (trim_between_step trim_between a_types a_values a_rates
                              dose_start basal_dosing_end)
           (a_starts, a_ends) (seq 0 (length a_types)) = Ok (ss', es') ->
     length ss' = length a_starts /\ length es' = length a_ends /\
     (forall i ty, a_types !! i = Some ty ->
        exists s e v r ty' s' e' v' r',
          a_starts !! i = Some s /\ a_ends !! i = Some e /\
          a_values !! i = Some v /\ a_rates !! i = Some r /\
          trim_between ty s e v r dose_start basal_dosing_end
          = Ok (ty', s', e', v', r') /\
          ss' !! i = Some s' /\ es' !! i = Some e') /\
     (forall i, (length a_types <= i)%nat ->
        ss' !! i = a_starts !! i /\ es' !! i = a_ends !! i)).
Proof.
  split; intros ss' es' H.
  - destruct (trim_loop_from a_types a_values a_rates
                (fun ty s e v r => trim ty s e v r dose_start)
                (trim_step dose_type trim a_types a_values a_rates
                           dose_start)
                (fun _ _ _ => eq_refl) _ 0 _ _ _ _ H)
      as (L1 & L2 & Hin & Hout).
    split; [exact L1|]. split; [exact L2|]. split.
    + intros i ty Hty.
      destruct (Hin i) as (ty0 & s & e & v & r & ty' & s' & e' & v' & r'
                           & H1 & H2 & H3 & H4 & H5 & H6 & H7 & H8).
      { apply lookup_lt_Some in Hty. lia. }
      assert (ty0 = ty) by congruence. subst ty0.
      exists s, e, v, r, ty', s', e', v', r'. now repeat split.
    + intros i Hi. apply Hout. lia.
  - destruct (trim_loop_from a_types a_values a_rates
                (fun ty s e v r =>
                   trim_between ty s e v r dose_start basal_dosing_end)
                (trim_between_step trim_between a_types a_values a_rates
                                   dose_start basal_dosing_end)
                (fun _ _ _ => eq_refl) _ 0 _ _ _ _ H)
      as (L1 & L2 & Hin & Hout).
    split; [exact L1|]. split; [exact L2|]. split.
    + intros i ty Hty.
      destruct (Hin i) as (ty0 & s & e & v & r & ty' & s' & e' & v' & r'
                           & H1 & H2 & H3 & H4 & H5 & H6 & H7 & H8).
      { apply lookup_lt_Some in Hty. lia. }
      assert (ty0 = ty) by congruence. subst ty0.
      exists s, e, v, r, ty', s', e', v', r'. now repeat split.
    + intros i Hi. apply Hout. lia.
Qed.

Lemma trim_loops_act_dose_by_dose_witness :
  exists ss' es',
    foldM (trim_step unit Sample.trim [tt; tt] [1; 1] [0; 0] 78400)
          ([70000; 90000], [70300; 90300]) (seq 0 2) = Ok (ss', es') /\
    length ss' = 2%nat /\
    exists s', Sample.trim tt 70000 70300 1 0 78400
               = Ok (tt, s', 70300, 1, 0) /\ ss' !! 0%nat = Some s'.
Proof.
  eassert (H : foldM (trim_step unit Sample.trim [tt; tt] [1; 1] [0; 0]
                                78400)
                     ([70000; 90000], [70300; 90300]) (seq 0 2)
               = Ok (_, _)) by (vm_compute; reflexivity).
  destruct (proj1 (trim_loops_act_dose_by_dose Sample.trim
                     (fun ty s e v r _ _ => Ok (ty, s, e, v, r))
                     [tt; tt] [70000; 90000] [70300; 90300] [1; 1] [0; 0]
                     78400 None) _ _ H) as (L & _ & Hin & _).
  destruct (Hin 0%nat tt eq_refl)
    as (s & e & v & r & ty' & s' & e' & v' & r' & Hs & He & Hv & Hr & Ht
        & Hs' & _).
  injection Hs as <-. injection He as <-. injection Hv as <-.
  injection Hr as <-.
  eexists _, _. split; [exact H|]. split; [exact L|].
  exists s'. split; [|exact Hs'].
  rewrite Ht. unfold Sample.trim in Ht. injection Ht as <- <- <- <- <-.
  reflexivity.
Defined.

(** ** Errors and window of the dose queries *)

Section DoseQueries.

Context {dose_type : Type}.
Variable filter_date_range_for_doses :
  list dose_type -> list Q -> list Q -> list Q -> Q -> option Q ->
  result (list dose_type * list Q * list Q * list Q).
Variable reconciled :
  list dose_type -> list Q -> list Q -> list Q ->
  result (list dose_type * list Q * list Q * list Q).
Variable sort_dose_lists :
  list dose_type -> list Q -> list Q -> list Q ->
  result (list dose_type * list Q * list Q * list Q).
Variable annotated :
  list dose_type -> list Q -> list Q -> list Q ->
  list Q -> list Q -> list Q -> bool ->
  result (list dose_type * list Q * list Q * list Q * list Q).
Variable trim :
  dose_type -> Q -> Q -> Q -> Q -> Q -> result (dose_type * Q * Q * Q * Q).
Variable trim_between :
  dose_type -> Q -> Q -> Q -> Q -> Q -> option Q ->
  result (dose_type * Q * Q * Q * Q).
Variable glucose_effects :
  list dose_type -> list Q -> list Q -> list Q -> list Q ->
  list Q -> list Q -> list Q -> list Q -> Q -> Q -> option Q ->
  result (list Q * list Q).
Variable iob_timeline : Type.
Variable insulin_on_board :
  list dose_type -> list Q -> list Q -> list Q -> list Q ->
  list Q -> Q -> Q -> option Q -> result iob_timeline.

Variables (types : list dose_type) (starts ends values : list Q).
Variable start_date : Q.
Variables basal_starts basal_rates basal_minutes : list Q.
Variables sensitivity_starts sensitivity_ends sensitivity_values : list Q.
Variable delay : Q.
Variables end_date basal_dosing_end : option Q.

(** X18.  Whatever the functions it would call, [get_glucose_effects]
    raises [AssertionError] for dose lists of different lengths and
    [IndexError] for an empty insulin model; [get_insulin_on_board_values]
    has no shape assertion and raises [IndexError] for an empty insulin
    model whatever the dose lists. *)
Theorem dose_queries_reject_bad_input :
  (length types <> length starts \/ length starts <> length ends \/
   length ends <> length values ->
   forall insulin_model,
     get_glucose_effects dose_type filter_date_range_for_doses reconciled
       sort_dose_lists annotated trim glucose_effects
       types starts ends values start_date
       basal_starts basal_rates basal_minutes
       sensitivity_starts sensitivity_ends sensitivity_values
       insulin_model delay end_date = Raise AssertionError) /\
  (length types = length starts -> length starts = length ends ->
   length ends = length values ->
   get_glucose_effects dose_type filter_date_range_for_doses reconciled
     sort_dose_lists annotated trim glucose_effects
     types starts ends values start_date
     basal_starts basal_rates basal_minutes
     sensitivity_starts sensitivity_ends sensitivity_values
     [] delay end_date = Raise IndexError) /\
  get_insulin_on_board_values filter_date_range_for_doses reconciled
    sort_dose_lists annotated trim_between iob_timeline insulin_on_board
    types starts ends values start_date
    basal_starts basal_rates basal_minutes
    [] end_date basal_dosing_end delay = Raise IndexError.
Proof.
  split; [|split].
  - intros H insulin_model. unfold get_glucose_effects.
    destruct (Nat.eqb_spec (length types) (length starts)); [|reflexivity].
    destruct (Nat.eqb_spec (length starts) (length ends)); [|reflexivity].
    destruct (Nat.eqb_spec (length ends) (length values)); [|reflexivity].
    exfalso. intuition.
  - intros H1 H2 H3. unfold get_glucose_effects.
    rewrite H1, H2, H3, !Nat.eqb_refl. reflexivity.
  - reflexivity.
Qed.

(** X19.  A call of [get_insulin_on_board_values] that returns has selected
    and trimmed the doses in a window that starts [insulin_model[0]] hours
    before the requested start for a model of one parameter and
    [insulin_model[0]] minutes before it otherwise, and hands back, without
    filtering it, the timeline [insulin_on_board] computed from the trimmed
    doses for the requested start and end. *)
Theorem insulin_on_board_window (insulin_model : list Q)
    (timeline : iob_timeline) :
  get_insulin_on_board_values filter_date_range_for_doses reconciled
    sort_dose_lists annotated trim_between iob_timeline insulin_on_board
    types starts ends values start_date
    basal_starts basal_rates basal_minutes
    insulin_model end_date basal_dosing_end delay = Ok timeline ->
  exists dia dose_start filtered a_types a_starts a_ends a_values a_rates
         t_starts t_ends,
    head insulin_model = Some dia /\
    dose_start =
      (if (length insulin_model =? 1)%nat
       then start_date - 3600 * dia
       else start_date - 60 * dia) /\
    filter_date_range_for_doses types starts ends values dose_start end_date
      = Ok filtered /\
    foldM (trim_between_step trim_between a_types a_values a_rates
                             dose_start basal_dosing_end)
          (a_starts, a_ends) (seq 0 (length a_types))
      = Ok (t_starts, t_ends) /\
    length t_starts = length a_starts /\
    length t_ends = length a_ends /\
    insulin_on_board a_types t_starts t_ends a_values a_rates insulin_model
                     delay start_date end_date = Ok timeline.
Proof.
  intros H. unfold get_insulin_on_board_values in H.
  inv_bind_as H x_start Hstart.
  inv_bind_as H x_filtered Hfiltered.
  destruct x_filtered as [[[f_types f_starts] f_ends] f_values].
  inv_bind_as H x_reconciled Hreconciled.
  destruct x_reconciled as [[[r_types r_starts] r_ends] r_values].
  inv_bind_as H x_sorted Hsorted.
  destruct x_sorted as [[[s_types s_starts] s_ends] s_values].
  inv_bind_as H x_annotated Hannotated.
  destruct x_annotated as [[[[a_types a_starts] a_ends] a_values] a_rates].
  inv_bind_as H x_trimmed Htrimmed.
  destruct x_trimmed as [t_starts t_ends].
  destruct (dose_start_date_inversion _ _ _ Hstart) as (dia & Hdia & Heq).
  destruct (trim_loop_from a_types a_values a_rates
              (fun ty s e v r =>
                 trim_between ty s e v r x_start basal_dosing_end)
              (trim_between_step trim_between a_types a_values a_rates
                                 x_start basal_dosing_end)
              (fun _ _ _ => eq_refl) _ 0 _ _ _ _ Htrimmed)
    as (L1 & L2 & _).
  exists dia, x_start, (f_types, f_starts, f_ends, f_values),
    a_types, a_starts, a_ends, a_values, a_rates, t_starts, t_ends.
  now repeat split.
Qed.

End DoseQueries.

Lemma dose_queries_reject_bad_input_witness :
  get_glucose_effects unit Sample.filter_date_range_for_doses
    Sample.reconciled Sample.sort_dose_lists Sample.annotated Sample.trim
    Sample.glucose_effects
    [tt] [70000; 80000] [70300] [1] 100000 [0] [1] [1440] [0] [86400] [50]
    [6] 10 None = Raise AssertionError.
Proof.
  apply (proj1 (dose_queries_reject_bad_input
                  Sample.filter_date_range_for_doses Sample.reconciled
                  Sample.sort_dose_lists Sample.annotated Sample.trim
                  (fun ty s e v r _ _ => Ok (ty, s, e, v, r))
                  Sample.glucose_effects unit
                  (fun _ _ _ _ _ _ _ _ _ => Ok tt)
                  [tt] [70000; 80000] [70300] [1] 100000 [0] [1] [1440]
                  [0] [86400] [50] 10 None None)).
  left. simpl. lia.
Defined.

Lemma insulin_on_board_window_witness :
  exists dose_start,
    get_insulin_on_board_values Sample.filter_date_range_for_doses
      Sample.reconciled Sample.sort_dose_lists Sample.annotated
      (fun ty s e v r start_interval _ =>
         Ok (ty, py_max s start_interval, e, v, r))
      (list Q)
      (fun _ starts _ _ _ _ _ _ _ => Ok starts)
      [tt] [70000] [70300] [1] 100000 [0] [1] [1440] [6] None None 10
    = Ok [dose_start] /\
    dose_start = 100000 - 3600 * 6.
Proof.
  eassert (H : get_insulin_on_board_values
                 Sample.filter_date_range_for_doses
                 Sample.reconciled Sample.sort_dose_lists Sample.annotated
                 (fun ty s e v r start_interval _ =>
                    Ok (ty, py_max s start_interval, e, v, r))
                 (list Q)
                 (fun _ starts _ _ _ _ _ _ _ => Ok starts)
                 [tt] [70000] [70300] [1] 100000 [0] [1] [1440] [6]
                 None None 10 = Ok [100000 - 3600 * 6])
    by reflexivity.
  destruct (insulin_on_board_window _ _ _ _ _ _ _ _ _ _ _ _ _ _ _ _ _ _ _ _
              H)
    as (dia & ds & _ & _ & _ & _ & _ & _ & _ & _ & Hdia & Hds & _).
  injection Hdia as <-. simpl in Hds.
  exists ds. split; [|exact Hds]. rewrite Hds. exact H.
Defined.

(** ** The last bolus *)

Section LastBolus.

Context {dose_type : Type} `{EqDecision dose_type}.
Variable bolus : dose_type.

Lemma snoc_lookup_cases (l : list dose_type) (x : dose_type) (j : nat) :
  (l ++ [x]) !! j = Some bolus ->
  (j < length l)%nat /\ l !! j = Some bolus \/ j = length l /\ x = bolus.
Proof.
  intros H. destruct (Nat.lt_ge_cases j (length l)) as [Hlt|Hge].
  - left. split; [exact Hlt|]. now rewrite lookup_app_l in H.
  - right. rewrite lookup_app_r in H by exact Hge.
    destruct (j - length l)%nat eqn:E; [|discriminate].
    injection H as <-. split; [lia|reflexivity].
Qed.

Lemma first_bolus_is_last (tys : list dose_type) (ss : list Q) :
  length tys = length ss ->
  match first_bolus bolus (combine (rev tys) (rev ss)) with
  | Some t =>
      exists i,
        tys !! i = Some bolus /\ ss !! i = Some t /\
        forall j, (i < j)%nat -> tys !! j <> Some bolus
  | None => forall i, tys !! i <> Some bolus
  end.
Proof.
  revert ss. induction tys as [|ty tys IH] using rev_ind; intros ss Hlen.
  - destruct ss; [|discriminate]. simpl. intros i. discriminate.
  - destruct ss as [|t ss _] using rev_ind.
    { rewrite length_app in Hlen. simpl in Hlen. lia. }
    rewrite !length_app in Hlen. simpl in Hlen.
    assert (Hlen' : length tys = length ss) by lia.
    rewrite !rev_unit. cbn [combine first_bolus].
    destruct (decide (ty = bolus)) as [->|Hne].
    + exists (length tys). split; [apply list_lookup_middle; reflexivity|].
      split; [apply list_lookup_middle; now rewrite Hlen'|].
      intros j Hj Hlook. apply lookup_lt_Some in Hlook.
      rewrite length_app in Hlook. simpl in Hlook. lia.
    + specialize (IH ss Hlen').
      destruct (first_bolus bolus (combine (rev tys) (rev ss))) as [t'|].
      * destruct IH as (i & Hi & Hs & Hafter).
        pose proof (lookup_lt_Some _ _ _ Hi) as Hlt.
        exists i. split; [now rewrite lookup_app_l|].
        split; [rewrite lookup_app_l by lia; exact Hs|].
        intros j Hj Hlook.
        destruct (snoc_lookup_cases _ _ _ Hlook) as [[_ H1]|[_ H1]].
        -- now apply (Hafter j).
        -- contradiction.
      * intros i Hlook.
        destruct (snoc_lookup_cases _ _ _ Hlook) as [[_ H1]|[_ H1]].
        -- now apply (IH i).
        -- contradiction.
Qed.

Variable filter_date_range_for_doses :
  list dose_type -> list Q -> list Q -> list Q -> Q -> option Q ->
  result (list dose_type * list Q * list Q * list Q).
Variable sort_dose_lists :
  list dose_type -> list Q -> list Q -> list Q ->
  result (list dose_type * list Q * list Q * list Q).

(** X20.  [get_last_bolus_time] looks at the doses that the date filter
    keeps for the 24 hours before [now_time] (with no upper bound) and that
    the sort has ordered.  When the sorted types and starts have the same
    length, it returns the start of the bolus that comes last in that
    order, and nothing exactly when there is no bolus among them. *)
Theorem last_bolus_time_is_last_bolus
    (types : list dose_type) (starts ends values : list Q) (now_time : Q)
    (r : option Q) :
  get_last_bolus_time bolus filter_date_range_for_doses sort_dose_lists
    types starts ends values now_time = Ok r ->
  exists f_types f_starts f_ends f_values s_types s_starts s_ends s_values,
    filter_date_range_for_doses types starts ends values
      (now_time - 3600 * 24) None
    = Ok (f_types, f_starts, f_ends, f_values) /\
    sort_dose_lists f_types f_starts f_ends f_values
    = Ok (s_types, s_starts, s_ends, s_values) /\
    (length s_types = length s_starts ->
     match r with
     | Some t =>
         exists i,
           s_types !! i = Some bolus /\ s_starts !! i = Some t /\
           forall j, (i < j)%nat -> s_types !! j <> Some bolus
     | None => forall i, s_types !! i <> Some bolus
     end).
Proof.
  intros H. unfold get_last_bolus_time in H.
  inv_bind_as H x_f Hf.
  destruct x_f as [[[f_types f_starts] f_ends] f_values].
  inv_bind_as H x_s Hs.
  destruct x_s as [[[s_types s_starts] s_ends] s_values].
  injection H as <-.
  exists f_types, f_starts, f_ends, f_values,
    s_types, s_starts, s_ends, s_values.
  split; [exact Hf|]. split; [exact Hs|].
  apply first_bolus_is_last.
Qed.

End LastBolus.

(** Doses are tagged by a boolean, [true] for a bolus; the filter and the
    sort hand the lists on unchanged. *)
Lemma last_bolus_time_is_last_bolus_witness :
  get_last_bolus_time true
    (fun t s e v _ _ => Ok (t, s, e, v)) (fun t s e v => Ok (t, s, e, v))
    [true; false; true; false] [10; 20; 30; 40] [10; 25; 30; 45]
    [1; 2; 3; 4] 50 = Ok (Some 30) /\
  ([true; false; true; false] !! 2%nat = Some true /\
   forall j, (2 < j)%nat -> [true; false; true; false] !! j <> Some true).
Proof.
  assert (H : get_last_bolus_time true
    (fun t s e v _ _ => Ok (t, s, e, v)) (fun t s e v => Ok (t, s, e, v))
    [true; false; true; false] [10; 20; 30; 40] [10; 25; 30; 45]
    [1; 2; 3; 4] 50 = Ok (Some 30)) by reflexivity.
  split; [exact H|].
  destruct (last_bolus_time_is_last_bolus true _ _ _ _ _ _ _ _ H)
    as (ft & fs & fe & fv & st & ss & se & sv & Hf & Hs & Hlast).
  injection Hf as <- <- <- <-. injection Hs as <- <- <- <-.
  destruct (Hlast eq_refl) as (i & Hi & Ht & Hafter).
  destruct i as [|[|[|[|i]]]]; try discriminate.
  split; [exact Hi|exact Hafter].
Defined.

(** ** The fixture loader *)

Lemma py_del_in_range {A : Type} (xs : list A) (i : nat) :
  (i < length xs)%nat -> py_del xs i = Ok (delete i xs).
Proof.
  intros H. unfold py_del. apply Nat.ltb_lt in H. now rewrite H.
Qed.

Lemma py_del_result {A : Type} (xs : list A) (i : nat) :
  (exists ys, py_del xs i = Ok ys /\ S (length ys) = length xs) \/
  py_del xs i = Raise IndexError.
Proof.
  unfold py_del. destruct (i <? length xs)%nat eqn:E; [|now right].
  left. apply Nat.ltb_lt in E. eexists. split; [reflexivity|].
  rewrite length_delete by (now apply lookup_lt_is_Some_2). lia.
Qed.

Lemma get_result {A : Type} (xs : list A) (i : nat) :
  (exists x, get xs i = Ok x /\ xs !! i = Some x) \/
  get xs i = Raise IndexError.
Proof.
  destruct (xs !! i) as [x|] eqn:E.
  - left. exists x. split; [now apply get_lookup|reflexivity].
  - right. unfold get, getitem.
    assert (Hneg : (Z.of_nat i <? 0)%Z = false) by (apply Z.ltb_ge; lia).
    rewrite Hneg, Nat2Z.id, E. now destruct (_ && _)%bool.
Qed.

(** One turn of the loop raises [IndexError] or leaves the list of types
    no longer than it was. *)
Lemma remove_marked_result (cols : dose_columns) (i : nat) :
  remove_marked cols i = Raise IndexError \/
  exists cols',
    remove_marked cols i = Ok cols' /\
    (length (fst (fst (fst (fst cols')))) <=
     length (fst (fst (fst (fst cols)))))%nat.
Proof.
  destruct cols as [[[[tys ss] es] vs] rs]. unfold remove_marked.
  destruct (get_result tys i) as [(ty & -> & _)| ->]; [|now left].
  simpl. destruct (decide (ty = "!"%string)).
  - destruct (py_del_result tys i) as [(tys' & -> & L)| ->]; [|now left].
    destruct (py_del_result ss i) as [(ss' & -> & _)| ->]; [|now left].
    destruct (py_del_result es i) as [(es' & -> & _)| ->]; [|now left].
    destruct (py_del_result vs i) as [(vs' & -> & _)| ->]; [|now left].
    destruct (py_del_result rs i) as [(rs' & -> & _)| ->]; [|now left].
    right. eexists. split; [reflexivity|]. simpl. lia.
  - right. eexists. split; [reflexivity|]. simpl. lia.
Qed.

(** Once the list of types is shorter than the last index to visit, the
    loop cannot finish. *)
Lemma remove_marked_overruns (m a : nat) (cols : dose_columns) :
  (length (fst (fst (fst (fst cols)))) < a + S m)%nat ->
  foldM remove_marked cols (seq a (S m)) = Raise IndexError.
Proof.
  revert a cols. induction m as [|m IH]; intros a cols Hlen.
  - cbn [seq foldM].
    destruct cols as [[[[tys ss] es] vs] rs]. simpl in Hlen.
    unfold remove_marked.
    destruct (get_result tys a) as [(ty & _ & Hty)| ->]; [|reflexivity].
    apply lookup_lt_Some in Hty. lia.
  - change (seq a (S (S m))) with (a :: seq (S a) (S m)). cbn [foldM].
    destruct (remove_marked_result cols a) as [->|(cols' & -> & Hle)];
      [reflexivity|].
    simpl. apply IH. lia.
Qed.

Lemma remove_marked_skips (tys : list string) (ss es : list Q)
    (vs : list (option Q)) (rs : list Q) (m a : nat) :
  (forall i, (a <= i < a + m)%nat ->
     exists ty, tys !! i = Some ty /\ ty <> "!"%string) ->
  foldM remove_marked (tys, ss, es, vs, rs) (seq a m)
  = Ok (tys, ss, es, vs, rs).
Proof.
  revert a. induction m as [|m IH]; intros a Htyped; [reflexivity|].
  cbn [seq foldM]. unfold remove_marked at 1.
  destruct (Htyped a) as (ty & Hty & Hne); [lia|].
  apply get_lookup in Hty. rewrite Hty. simpl.
  destruct (decide (ty = "!"%string)); [contradiction|]. simpl.
  apply IH. intros i Hi. apply Htyped. lia.
Qed.

Lemma remove_marked_crashes (tys : list string) (ss es : list Q)
    (vs : list (option Q)) (rs : list Q) (m a k : nat) :
  length ss = length tys -> length es = length tys ->
  length vs = length tys -> length rs = length tys ->
  (a + m = length tys)%nat ->
  (a <= k)%nat -> (k + 1 < length tys)%nat ->
  tys !! k = Some "!"%string ->
  foldM remove_marked (tys, ss, es, vs, rs) (seq a m) = Raise IndexError.
Proof.
  intros L1 L2 L3 L4. revert a.
  induction m as [|m IH]; intros a Ham Hak Hk Hmark; [lia|].
  cbn [seq foldM]. unfold remove_marked at 1.
  destruct (get_in_range tys a) as [ty Hty]; [lia|].
  rewrite Hty. simpl. apply get_lookup in Hty.
  destruct (decide (ty = "!"%string)) as [->|Hne].
  - rewrite !py_del_in_range by lia. cbn [bind].
    destruct m as [|m]; [lia|].
    apply remove_marked_overruns. cbn [fst].
    rewrite length_delete by (apply lookup_lt_is_Some_2; lia). lia.
  - simpl. apply IH; [lia| |exact Hk|exact Hmark].
    destruct (Nat.eq_dec a k) as [->|Hak']; [congruence|lia].
Qed.

(** X21.  A fixture in which an entry other than the last one has no type
    (or an empty one) cannot be loaded: the loop deletes the entry and then
    runs past the end of the shortened lists, which raises [IndexError]. *)
Theorem load_insulin_data_crashes_on_untyped_entry (data : list dose_json)
    (k : nat) (d : dose_json) :
  data !! k = Some d ->
  type_or_marker d = "!"%string ->
  (k + 1 < length data)%nat ->
  load_insulin_data data = Raise IndexError.
Proof.
  intros Hk Hd Hlast. unfold load_insulin_data.
  rewrite !length_fmap, !Nat.eqb_refl. simpl.
  assert (Hmark : (type_or_marker <$> data) !! k = Some "!"%string)
    by (now rewrite list_lookup_fmap, Hk; simpl; rewrite Hd).
  rewrite bool_decide_eq_true_2
    by (eapply list_elem_of_lookup_2; exact Hmark).
  apply (remove_marked_crashes _ _ _ _ _ (length data) 0 k);
    rewrite ?length_fmap; try reflexivity; try lia.
  exact Hmark.
Qed.

Lemma load_insulin_data_crashes_on_untyped_entry_witness :
  load_insulin_data
    [Build_dose_json None 0 300 (Some 1) None;
     Build_dose_json (Some "bolus"%string) 600 600 (Some 2) None]
  = Raise IndexError.
Proof.
  apply (load_insulin_data_crashes_on_untyped_entry _ 0
           (Build_dose_json None 0 300 (Some 1) None));
    [reflexivity|reflexivity|simpl; lia].
Defined.

(** X22.  A fixture in which every entry has a type is loaded as its five
    columns, entry by entry; when only the last entry has no type, that
    entry is dropped from all five columns. *)
Theorem load_insulin_data_columns (data : list dose_json) :
  Forall (fun d => type_or_marker d <> "!"%string) data ->
  load_insulin_data data
  = Ok (type_or_marker <$> data, json_start_at <$> data,
        json_end_at <$> data, json_amount <$> data,
        (fun d => py_or (json_scheduled d) 0) <$> data) /\
  forall d,
    type_or_marker d = "!"%string ->
    load_insulin_data (data ++ [d])
    = Ok (type_or_marker <$> data, json_start_at <$> data,
          json_end_at <$> data, json_amount <$> data,
          (fun d => py_or (json_scheduled d) 0) <$> data).
Proof.
  intros Htyped.
  assert (Hall : forall i, (i < length data)%nat ->
            exists ty, (type_or_marker <$> data) !! i = Some ty /\
                       ty <> "!"%string).
  { intros i Hi. destruct (lookup_lt_is_Some_2 data i Hi) as [d Hd].
    exists (type_or_marker d). rewrite list_lookup_fmap, Hd.
    split; [reflexivity|]. exact (Forall_lookup_1 _ _ _ _ Htyped Hd). }
  split.
  - unfold load_insulin_data.
    rewrite !length_fmap, !Nat.eqb_refl. simpl.
    rewrite bool_decide_eq_false_2; [reflexivity|].
    intros Hin. apply list_elem_of_lookup_1 in Hin.
    destruct Hin as [i Hi].
    destruct (Hall i) as (ty & Hty & Hne).
    { apply lookup_lt_Some in Hi. now rewrite length_fmap in Hi. }
    congruence.
  - intros d Hd. unfold load_insulin_data.
    rewrite !length_fmap, !Nat.eqb_refl. simpl.
    rewrite bool_decide_eq_true_2.
    2:{ rewrite fmap_app. apply elem_of_app. right. simpl. rewrite Hd.
        constructor. }
    rewrite length_app. simpl.
    replace (length data + 1)%nat with (S (length data)) by lia.
    rewrite seq_S. simpl.
    rewrite !fmap_app. simpl. rewrite Hd.
    assert (Hfold : forall (A B : Type) (f : A -> B -> result A) acc xs x,
              foldM f acc (xs ++ [x]) = bind (foldM f acc xs)
                                             (fun acc' => f acc' x)).
    { intros A B f acc xs. revert acc.
      induction xs as [|y xs IHxs]; intros acc x; simpl.
      - now destruct (f acc x).
      - destruct (f acc y); simpl; [apply IHxs|reflexivity]. }
    rewrite Hfold.
    rewrite (remove_marked_skips _ _ _ _ _ (length data) 0).
    2:{ intros i Hi. destruct (Hall i) as (ty & Hty & Hne); [lia|].
        exists ty. split; [|exact Hne]. rewrite lookup_app_l; [exact Hty|].
        rewrite length_fmap. lia. }
    simpl. unfold remove_marked.
    assert (Hget : get ((type_or_marker <$> data) ++ ["!"%string])
                       (length data) = Ok "!"%string).
    { apply get_lookup. apply list_lookup_middle. now rewrite length_fmap. }
    rewrite Hget. simpl.
    rewrite !py_del_in_range
      by (rewrite length_app, length_fmap; simpl; lia).
    simpl.
    assert (Hdel : forall (A : Type) (l : list A) (x : A) (n : nat),
              n = length l -> delete n (l ++ [x]) = l).
    { intros A l x n ->. induction l as [|y l IHl]; simpl;
        [reflexivity|now f_equal]. }
    rewrite !Hdel by (now rewrite length_fmap). reflexivity.
Qed.

Lemma load_insulin_data_columns_witness :
  load_insulin_data
    [Build_dose_json (Some "bolus"%string) 600 600 (Some 2) None;
     Build_dose_json None 900 1200 (Some 1) (Some 1)]
  = Ok (["bolus"%string], [600], [600], [Some 2], [0]).
Proof.
  assert (H : Forall (fun d => type_or_marker d <> "!"%string)
                [Build_dose_json (Some "bolus"%string) 600 600 (Some 2)
                   None]).
  { repeat constructor. discriminate. }
  destruct (load_insulin_data_columns _ H) as [_ Hlast].
  exact (Hlast (Build_dose_json None 900 1200 (Some 1) (Some 1)) eq_refl).
Defined.

(** ** The timeline accounts for the observed effect *)

Lemma timeline_records_step (env : builders) (b : nat) (amount s e : Q)
    (x x' : observations) :
  (forall i o tv c,
     observed_completion_dates x !! i = Some None ->
     observed_effects x !! i = Some o ->
     observed_timeline_carb_values x !! i = Some tv ->
     builder_carb_sensitivities env !! i = Some c ->
     exists credits,
       o = fold_left Qplus credits 0 /\
       Forall2 (fun g credit => py_div credit c = Ok g) tv credits) ->
  add_next_effect env b amount s e x = Ok x' ->
  forall i o tv c,
    observed_completion_dates x' !! i = Some None ->
    observed_effects x' !! i = Some o ->
    observed_timeline_carb_values x' !! i = Some tv ->
    builder_carb_sensitivities env !! i = Some c ->
    exists credits,
      o = fold_left Qplus credits 0 /\
      Forall2 (fun g credit => py_div credit c = Ok g) tv credits.
Proof.
  intros Hx Hcall i o tv c.
  destruct (add_next_effect_cases _ _ _ _ _ _ _ Hcall)
    as [(t & _ & _ & ->)
       |[(t & ob & d' & _ & _ & Hob & Hcb & ->)
        |(t & ob & ts0 & te0 & tv0 & c0 & y0 & _ & _ & Hob & Hcb & _ & _
          & Htv0 & Hc0 & Hnz & _ & ->)]]; simpl.
  - apply Hx.
  - destruct (Nat.eq_dec b i) as [->|Hne].
    + intros Hnone. congruence.
    + rewrite list_lookup_insert_ne by exact Hne. apply Hx.
  - destruct (Nat.eq_dec b i) as [->|Hne].
    + rewrite !list_lookup_insert_eq
        by (eapply lookup_lt_Some; eassumption).
      intros Hnone [= <-] [= <-] Hc.
      assert (c0 = c) by congruence. subst c0.
      destruct (Hx i ob tv0 c Hcb Hob Htv0 Hc) as (credits & -> & Hrec).
      exists (credits ++ [amount]). split.
      * now rewrite fold_left_app.
      * apply Forall2_app; [exact Hrec|].
        constructor; [now apply py_div_Ok|constructor].
    + rewrite !list_lookup_insert_ne by exact Hne.
      intros Hnone. apply Hx.
      destruct (Qle_bool y0 (ob + amount)); [|exact Hnone].
      now rewrite list_lookup_insert_ne in Hnone by exact Hne.
Qed.

Lemma observed_grams_inversion (env : builders) (st : observations)
    (i : nat) (observed : Q) :
  observed_grams env st i = Ok observed ->
  exists effect sensitivity,
    observed_effects st !! i = Some effect /\
    builder_carb_sensitivities env !! i = Some sensitivity /\
    py_div effect sensitivity = Ok observed.
Proof.
  unfold observed_grams. intros H.
  inv_bind_as H effect Heffect. inv_bind_as H sensitivity Hsens.
  apply get_lookup in Heffect, Hsens. now exists effect, sensitivity.
Qed.

Section Accounts.

Variable find : list Q -> list Q -> list Q -> Q -> result Q.
Variables starts quantities : list Q.
Variable absorptions : list (option Q).
Variables e_starts e_ends e_values : list Q.
Variables ratio_starts ratios : list Q.
Variables s_starts s_ends s_values : list Q.
Variables overrun default delay : Q.

Lemma min_predicted_grams_inversion (env : builders) (q : Q) (i : nat)
    (lower : Q) :
  build find starts quantities absorptions e_ends ratio_starts ratios
        s_starts s_ends s_values overrun default delay = Ok env ->
  min_predicted_grams env delay q i = Ok lower ->
  exists ab t_start t_last,
    absorptions !! i = Some ab /\
    starts !! i = Some t_start /\
    last e_ends = Some t_last /\
    linearly_absorbed_carbs q
      (time_interval_since t_last t_start / 60 - delay)
      (py_or ab default * overrun) = Ok lower.
Proof.
  intros Hb H. unfold min_predicted_grams in H.
  destruct (build_inputs _ _ _ _ _ _ _ _ _ _ _ _ _ _ Hb) as [Hss _].
  inv_bind_as H t_last Hlast. inv_bind_as H t_start Hstart.
  inv_bind_as H t_max Hmax.
  rewrite Hss in Hstart. apply get_lookup in Hlast, Hstart, Hmax.
  destruct (build_max_absorb_time _ _ _ _ _ _ _ _ _ _ _ _ _ _ _ _ Hb Hmax)
    as (ab & Hab & ->).
  apply (build_last_effect_date _ _ _ _ _ _ _ _ _ _ _ _ _ _ _ _ Hb) in Hlast.
  apply getitem_last in Hlast.
  now exists ab, t_start, t_last.
Qed.

(** X23.  For an entry without a completion date at the end of the sweep,
    the timeline records the credits one by one: the observed effect is the
    running sum of the amounts credited to the entry, in the order they
    were credited, and the carb values of the timeline are those amounts,
    each divided by the carb sensitivity. *)
Theorem timeline_records_the_credits (env : builders)
    (st : observations) (i : nat) (o : Q) (tv : list Q) (c : Q) :
  observe find starts quantities absorptions e_starts e_ends e_values
          ratio_starts ratios s_starts s_ends s_values overrun default delay
  = Ok (env, st) ->
  observed_completion_dates st !! i = Some None ->
  observed_effects st !! i = Some o ->
  observed_timeline_carb_values st !! i = Some tv ->
  builder_carb_sensitivities env !! i = Some c ->
  exists credits,
    o = fold_left Qplus credits 0 /\
    Forall2 (fun g credit => py_div credit c = Ok g) tv credits.
Proof.
  intros Hobs Hnone Ho Htv Hc.
  destruct (observe_inversion _ _ _ _ _ _ _ _ _ _ _ _ _ _ _ _ _ Hobs)
    as [_ Hsweep].
  set (P := fun x : observations =>
              forall j o' tv' c',
                observed_completion_dates x !! j = Some None ->
                observed_effects x !! j = Some o' ->
                observed_timeline_carb_values x !! j = Some tv' ->
                builder_carb_sensitivities env !! j = Some c' ->
                exists credits,
                  o' = fold_left Qplus credits 0 /\
                  Forall2 (fun g credit => py_div credit c' = Ok g)
                          tv' credits).
  assert (HP : P st).
  { unfold sweep in Hsweep.
    apply (sweep_samples_preserve env e_starts e_ends e_values P
             (seq 0 (length e_starts)) (initial_observations starts) st);
      [| |exact Hsweep].
    - intros index _ s e active b amount x x' _ _ _ _ _ Hx Hcall.
      exact (timeline_records_step env b amount s e x x' Hx Hcall).
    - intros j o' tv' c'. unfold initial_observations. simpl.
      rewrite !list_lookup_fmap.
      destruct (seq 0 (length starts) !! j); simpl; [|discriminate].
      intros _ [= <-] [= <-] _. exists []. split; [reflexivity|constructor]. }
  exact (HP i o tv c Hnone Ho Htv Hc).
Qed.

(** X24.  The two outputs for an entry agree.  With the observed grams the
    observed effect divided by the carb sensitivity, and the floor the grams
    of the linear model at the elapsed time: when the timeline is withheld,
    the observed grams are below the floor and the clamped grams are the
    floor capped by the quantity; when it is exposed, the observed grams
    are at least the floor and the clamped grams are the observed grams
    capped by the quantity. *)
Theorem withheld_timeline_means_modelled_absorption (A : list absorption)
    (T : list (option timeline)) (E : list entry_property) (i : nat)
    (a : absorption) (t : option timeline) :
  map_ find starts quantities absorptions e_starts e_ends e_values
       ratio_starts ratios s_starts s_ends s_values overrun default delay
  = Ok (A, T, E) ->
  A !! i = Some a ->
  T !! i = Some t ->
  exists env st q ab t_start t_last effect sensitivity observed lower,
    observe find starts quantities absorptions e_starts e_ends e_values
            ratio_starts ratios s_starts s_ends s_values overrun default
            delay = Ok (env, st) /\
    quantities !! i = Some q /\
    absorptions !! i = Some ab /\
    starts !! i = Some t_start /\
    last e_ends = Some t_last /\
    observed_effects st !! i = Some effect /\
    builder_carb_sensitivities env !! i = Some sensitivity /\
    py_div effect sensitivity = Ok observed /\
    linearly_absorbed_carbs q
      (time_interval_since t_last t_start / 60 - delay)
      (py_or ab default * overrun) = Ok lower /\
    (t = None -> observed < lower /\ clamped_grams a == Qmin q lower) /\
    (t <> None -> lower <= observed /\ clamped_grams a == Qmin q observed).
Proof.
  intros Hmap Ha Ht.
  destruct (map_rows _ _ _ _ _ _ _ _ _ _ _ _ _ _ _ _ _ _ i Hmap)
    as (env & st & a' & t' & e & Hb & Hsweep & Ha' & Ht' & _ & Hres & Htl
        & _);
    [now apply lookup_lt_Some in Ha|].
  assert (a' = a) by congruence. subst a'.
  assert (Heq : Some t' = Some t) by (rewrite <- Ht'; exact Ht).
  injection Heq as ->.
  destruct (build_inputs _ _ _ _ _ _ _ _ _ _ _ _ _ _ Hb) as [_ Hqs].
  destruct (absorption_result_parts _ _ _ _ _ Hres)
    as (observed & q & lower & rate & Hobserved & Hq & Hlower & _ & _
        & Hclamped & _).
  rewrite Hqs in Hq.
  destruct (observed_grams_inversion _ _ _ _ Hobserved)
    as (effect & sensitivity & Heffect & Hsens & Hdiv).
  destruct (min_predicted_grams_inversion _ _ _ _ Hb Hlower)
    as (ab & t_start & t_last & Hab & Hstart & Hlast & Hlin).
  exists env, st, q, ab, t_start, t_last, effect, sensitivity, observed,
    lower.
  split.
  { unfold observe. rewrite Hb. cbn [bind]. rewrite Hsweep. reflexivity. }
  repeat (split; [assumption|]).
  unfold clamped_timeline in Htl.
  inv_bind_as Htl x_q Hxq. rewrite Hqs in Hxq. apply get_lookup in Hxq.
  assert (x_q = q) by congruence. subst x_q.
  inv_bind_as Htl x_l Hxl. assert (x_l = lower) by congruence. subst x_l.
  inv_bind_as Htl x_o Hxo.
  assert (x_o = observed) by congruence. subst x_o.
  rewrite Hclamped, py_min_spec.
  destruct (Qle_bool lower observed) eqn:Hcmp.
  - apply Qle_bool_iff in Hcmp.
    do 3 inv_bind Htl. injection Htl as <-.
    split; [discriminate|]. intros _. split; [exact Hcmp|].
    apply Q.min_compat; [reflexivity|].
    rewrite py_max_spec. apply Q.max_r. exact Hcmp.
  - apply Qle_bool_gt in Hcmp. injection Htl as <-.
    split; [|intros Hne; exfalso; apply Hne; reflexivity].
    intros _. split; [exact Hcmp|].
    apply Q.min_compat; [reflexivity|].
    rewrite py_max_spec. apply Q.max_l. lra.
Qed.

End Accounts.

(** Two entries of 20 g at time 0 and two samples of 5 mg/dL: the first
    entry is credited twice and not completed. *)
Lemma timeline_records_the_credits_witness :
  exists env st o tv c credits,
    observe rateAt [0; 0] [20; 20] [None; None] [0; 0] [300; 600] [5; 5]
            [0] [10] [0] [86400] [50] 1 180 10 = Ok (env, st) /\
    observed_effects st !! 0%nat = Some o /\
    observed_timeline_carb_values st !! 0%nat = Some tv /\
    builder_carb_sensitivities env !! 0%nat = Some c /\
    o = fold_left Qplus credits 0 /\
    Forall2 (fun g credit => py_div credit c = Ok g) tv credits /\
    length tv = 2%nat.
Proof.
  eassert (Hobs : observe rateAt [0; 0] [20; 20] [None; None] [0; 0]
                          [300; 600] [5; 5] [0] [10] [0] [86400] [50]
                          1 180 10 = Ok (_, _))
    by (vm_compute; reflexivity).
  destruct (timeline_records_the_credits _ _ _ _ _ _ _ _ _ _ _ _ _ _ _ _ _
              0%nat _ _ _ Hobs eq_refl eq_refl eq_refl eq_refl)
    as (credits & Ho & Hrec).
  eexists _, _, _, _, _, credits. split; [exact Hobs|].
  split; [reflexivity|]. split; [reflexivity|]. split; [reflexivity|].
  split; [exact Ho|]. split; [exact Hrec|reflexivity].
Defined.

(** One entry of 20 g at time 0 whose only sample starts later: nothing is
    observed and the timeline is withheld. *)
Lemma withheld_timeline_means_modelled_absorption_witness :
  exists A T E a,
    map_ rateAt [0] [20] [None] [3600] [3900] [5] [0] [10] [0] [86400]
         [50] 1 180 10 = Ok (A, T, E) /\
    A !! 0%nat = Some a /\ T !! 0%nat = Some None /\
    exists effect sensitivity observed lower,
      py_div effect sensitivity = Ok observed /\
      linearly_absorbed_carbs 20 (time_interval_since 3900 0 / 60 - 10)
        (py_or None 180 * 1) = Ok lower /\
      observed < lower /\ clamped_grams a == Qmin 20 lower.
Proof.
  eassert (Hmap : map_ rateAt [0] [20] [None] [3600] [3900] [5] [0] [10]
                       [0] [86400] [50] 1 180 10 = Ok (_, _, _))
    by (vm_compute; reflexivity).
  epose proof (withheld_timeline_means_modelled_absorption _ _ _ _ _ _ _ _
                 _ _ _ _ _ _ _ _ _ _ 0%nat _ None Hmap eq_refl eq_refl) as H.
  destruct H as (env & st & q & ab & t_start & t_last & effect & sensitivity
                 & o & l & _ & Hq & Hab & Hstart & Hlast & _ & _ & Ho & Hl
                 & Hnone & _).
  injection Hq as <-. injection Hab as <-. injection Hstart as <-.
  injection Hlast as <-.
  destruct (Hnone eq_refl) as [Hlt Hclamped].
  eexists _, _, _, _. split; [exact Hmap|].
  split; [reflexivity|]. split; [reflexivity|].
  exists effect, sensitivity, o, l.
  split; [exact Ho|]. split; [exact Hl|]. split; [exact Hlt|exact Hclamped].
Defined.
